(** * A shallow embedding of the DIAL tool-calling agent

    The development follows the Python sources:
    - [task/client.py]   : [DialClient] ([get_completion], [_process_tool_calls],
                           [_call_tool]);
    - [task/tools/...]   : the six registered tools;
    - [task/app.py]      : the interactive session driver.

    Python objects are embedded as values of [pyval]; code that raises returns
    an [outcome]; code that mutates the shared message list, performs HTTP
    requests or prints threads an explicit [state]. *)

From Stdlib Require Import String Ascii List ZArith NArith Lia Bool DecimalString.
Import ListNotations.
Open Scope string_scope.

(** ** Python values *)

Module Py.

(** Values as they come out of [json.loads] and travel through the client.
    Text is a byte string (UTF-8).  A float keeps the lexeme it was read from:
    no floating-point arithmetic is modelled. *)
#[warnings="-register-all"]
Inductive pyval : Type :=
| PNone
| PBool (b : bool)
| PInt (z : Z)
| PFloat (lexeme : string)
| PStr (s : string)
| PList (l : list pyval)
| PDict (d : list (string * pyval)).

(** A [dict] with string keys keeps insertion order; assigning to an existing
    key replaces the value in place. *)
Definition dict := list (string * pyval).

Fixpoint dict_get {V : Type} (d : list (string * V)) (k : string) : option V :=
  match d with
  | [] => None
  | (k', v) :: d' => if String.eqb k' k then Some v else dict_get d' k
  end.

Fixpoint dict_set {V : Type} (d : list (string * V)) (k : string) (v : V)
  : list (string * V) :=
  match d with
  | [] => [(k, v)]
  | (k', v') :: d' =>
      if String.eqb k' k then (k', v) :: d' else (k', v') :: dict_set d' k v
  end.

(** Exception classes that the modelled code raises or catches.  All of them
    derive from [Exception]; [JSONDecodeError] and pydantic's
    [ValidationError] derive from [ValueError]. *)
Inductive exn_class : Type :=
| Exception
| ValueError
| TypeError
| AttributeError
| KeyError
| IndexError
| OverflowError
| RecursionError
| ConnectionError
| JSONDecodeError
| ValidationError.

Definition is_ValueError (c : exn_class) : bool :=
  match c with
  | ValueError | JSONDecodeError | ValidationError => true
  | _ => false
  end.

Definition is_TypeError (c : exn_class) : bool :=
  match c with
  | TypeError => true
  | _ => false
  end.

(** An exception object: its class and [str(e)].  For errors raised by the
    interpreter or a library the text is an abbreviation of CPython's. *)
Record exn : Type := mkExn { exn_cls : exn_class; exn_str : string }.

Inductive outcome (A : Type) : Type :=
| Ok (a : A)
| Raise (e : exn).
Arguments Ok {A} a.
Arguments Raise {A} e.

End Py.
Export Py.

(** ** [json.loads] *)

Module Json.

Definition code (c : ascii) : N := N_of_ascii c.

Definition is_ws (c : ascii) : bool :=
  match code c with
  | 32%N | 9%N | 10%N | 13%N => true
  | _ => false
  end.

Fixpoint skip_ws (s : string) : string :=
  match s with
  | String c r => if is_ws c then skip_ws r else s
  | EmptyString => s
  end.

Definition is_digit (c : ascii) : bool :=
  (48 <=? code c)%N && (code c <=? 57)%N.

Definition hex_digit (c : ascii) : option N :=
  let n := code c in
  if (48 <=? n)%N && (n <=? 57)%N then Some (n - 48)%N
  else if (65 <=? n)%N && (n <=? 70)%N then Some (n - 55)%N
  else if (97 <=? n)%N && (n <=? 102)%N then Some (n - 87)%N
  else None.

Definition hex4 (a b c d : ascii) : option N :=
  match hex_digit a, hex_digit b, hex_digit c, hex_digit d with
  | Some x, Some y, Some z, Some w => Some (((x * 16 + y) * 16 + z) * 16 + w)%N
  | _, _, _, _ => None
  end.

Definition byte (n : N) : ascii := ascii_of_N (n mod 256).

(** UTF-8 encoding of a code point (a lone surrogate is written with the
    three-byte scheme). *)
Definition utf8 (cp : N) : string :=
  if (cp <? 128)%N then String (byte cp) ""
  else if (cp <? 2048)%N then
    String (byte (192 + cp / 64)) (String (byte (128 + cp mod 64)) "")
  else if (cp <? 65536)%N then
    String (byte (224 + cp / 4096))
      (String (byte (128 + (cp / 64) mod 64)) (String (byte (128 + cp mod 64)) ""))
  else
    String (byte (240 + cp / 262144))
      (String (byte (128 + (cp / 4096) mod 64))
         (String (byte (128 + (cp / 64) mod 64))
            (String (byte (128 + cp mod 64)) ""))).

Definition is_high_surrogate (n : N) : bool := (55296 <=? n)%N && (n <=? 56319)%N.
Definition is_low_surrogate (n : N) : bool := (56320 <=? n)%N && (n <=? 57343)%N.

(** The text after an opening quote, up to the closing quote (strict mode:
    raw control characters are refused). *)
Fixpoint scanstring (s : string) : option (string * string) :=
  match s with
  | EmptyString => None
  | String c r =>
      if (code c =? 34)%N then Some ("", r)
      else if (code c =? 92)%N then
        match r with
        | EmptyString => None
        | String e r1 =>
            let plain (ch : N) :=
              match scanstring r1 with
              | Some (t, r') => Some (String (byte ch) t, r')
              | None => None
              end in
            match code e with
            | 34%N => plain 34%N
            | 92%N => plain 92%N
            | 47%N => plain 47%N
            | 98%N => plain 8%N
            | 102%N => plain 12%N
            | 110%N => plain 10%N
            | 114%N => plain 13%N
            | 116%N => plain 9%N
            | 117%N =>
                match r1 with
                | String a (String b (String c' (String d r2))) =>
                    match hex4 a b c' d with
                    | None => None
                    | Some hi =>
                        let single :=
                          match scanstring r2 with
                          | Some (t, r') => Some (utf8 hi ++ t, r')
                          | None => None
                          end in
                        if is_high_surrogate hi then
                          match r2 with
                          | String bs (String u (String a2 (String b2
                              (String c2 (String d2 r3))))) =>
                              if ((code bs =? 92) && (code u =? 117))%N then
                                match hex4 a2 b2 c2 d2 with
                                | Some lo =>
                                    if is_low_surrogate lo then
                                      match scanstring r3 with
                                      | Some (t, r') =>
                                          Some (utf8 (65536 + (hi - 55296) * 1024
                                                      + (lo - 56320)) ++ t, r')
                                      | None => None
                                      end
                                    else single
                                | None => single
                                end
                              else single
                          | _ => single
                          end
                        else single
                    end
                | _ => None
                end
            | _ => None
            end
        end
      else if (code c <? 32)%N then None
      else
        match scanstring r with
        | Some (t, r') => Some (String c t, r')
        | None => None
        end
  end.

Fixpoint span_digits (s : string) : string * string :=
  match s with
  | String c r =>
      if is_digit c then let (ds, r') := span_digits r in (String c ds, r')
      else ("", s)
  | EmptyString => ("", s)
  end.

Fixpoint digits_value (s : string) (acc : Z) : Z :=
  match s with
  | String c r => digits_value r (acc * 10 + Z.of_N (code c - 48))
  | EmptyString => acc
  end.

(** [NUMBER_RE]: an optional minus sign, then 0 or a digit run without a
    leading zero; optionally a dot with one digit or more; optionally an
    exponent mark, a sign and one digit or more.  With a fraction or an
    exponent the value is a float, else an int. *)
Definition scan_number (s : string) : option (pyval * string) :=
  let (neg, r0) :=
    match s with
    | String c r => if (code c =? 45)%N then (true, r) else (false, s)
    | EmptyString => (false, s)
    end in
  let int_part :=
    match r0 with
    | String c r =>
        if (code c =? 48)%N then Some ("0", r)
        else if is_digit c then Some (span_digits r0)
        else None
    | EmptyString => None
    end in
  match int_part with
  | None => None
  | Some (ds, r1) =>
      let (frac, r2) :=
        match r1 with
        | String c r =>
            if (code c =? 46)%N then
              match span_digits r with
              | (EmptyString, _) => ("", r1)
              | (fs, r') => (String c fs, r')
              end
            else ("", r1)
        | EmptyString => ("", r1)
        end in
      let (ex, r3) :=
        match r2 with
        | String c r =>
            if ((code c =? 101) || (code c =? 69))%N then
              let (sg, r') :=
                match r with
                | String c' r'' =>
                    if ((code c' =? 43) || (code c' =? 45))%N
                    then (String c' "", r'') else ("", r)
                | EmptyString => ("", r)
                end in
              match span_digits r' with
              | (EmptyString, _) => ("", r2)
              | (es, r'') => (String c (sg ++ es), r'')
              end
            else ("", r2)
        | EmptyString => ("", r2)
        end in
      match frac, ex with
      | EmptyString, EmptyString =>
          let v := digits_value ds 0 in
          Some (PInt (if neg then (- v)%Z else v), r3)
      | _, _ =>
          Some (PFloat ((if neg then "-" else "") ++ ds ++ frac ++ ex), r3)
      end
  end.

Fixpoint strip_prefix (p s : string) : option string :=
  match p, s with
  | EmptyString, _ => Some s
  | String a p', String b s' => if Ascii.eqb a b then strip_prefix p' s' else None
  | String _ _, EmptyString => None
  end.

Definition scan_literal (s : string) : option (pyval * string) :=
  match strip_prefix "null" s with
  | Some r => Some (PNone, r)
  | None =>
  match strip_prefix "true" s with
  | Some r => Some (PBool true, r)
  | None =>
  match strip_prefix "false" s with
  | Some r => Some (PBool false, r)
  | None =>
  match scan_number s with
  | Some res => Some res
  | None =>
  match strip_prefix "NaN" s with
  | Some r => Some (PFloat "nan", r)
  | None =>
  match strip_prefix "Infinity" s with
  | Some r => Some (PFloat "inf", r)
  | None =>
  match strip_prefix "-Infinity" s with
  | Some r => Some (PFloat "-inf", r)
  | None => None
  end end end end end end end.

(** [scan_once] with [JSONObject] and [JSONArray].  [depth] bounds the nesting
    of the three functions; [loads] starts them with a bound no document
    reaches. *)
Fixpoint scan_once (depth : nat) (s : string) : option (pyval * string) :=
  match depth with
  | O => None
  | S n =>
      match s with
      | EmptyString => None
      | String c r =>
          if (code c =? 34)%N then
            match scanstring r with
            | Some (t, r') => Some (PStr t, r')
            | None => None
            end
          else if (code c =? 123)%N then
            match skip_ws r with
            | String c1 r1 =>
                if (code c1 =? 125)%N then Some (PDict [], r1)
                else if (code c1 =? 34)%N then scan_members n r1 []
                else None
            | EmptyString => None
            end
          else if (code c =? 91)%N then
            match skip_ws r with
            | String c1 r1 =>
                if (code c1 =? 93)%N then Some (PList [], r1)
                else scan_elems n (String c1 r1) []
            | EmptyString => None
            end
          else scan_literal s
      end
  end

(** [s] starts just after the opening quote of a key. *)
with scan_members (depth : nat) (s : string) (acc : dict)
  : option (pyval * string) :=
  match depth with
  | O => None
  | S n =>
      match scanstring s with
      | None => None
      | Some (key, r) =>
          match skip_ws r with
          | String c r1 =>
              if (code c =? 58)%N then
                match scan_once n (skip_ws r1) with
                | None => None
                | Some (v, r2) =>
                    let acc' := dict_set acc key v in
                    match skip_ws r2 with
                    | String c2 r3 =>
                        if (code c2 =? 125)%N then Some (PDict acc', r3)
                        else if (code c2 =? 44)%N then
                          match skip_ws r3 with
                          | String c3 r4 =>
                              if (code c3 =? 34)%N then scan_members n r4 acc'
                              else None
                          | EmptyString => None
                          end
                        else None
                    | EmptyString => None
                    end
                end
              else None
          | EmptyString => None
          end
      end
  end

(** [s] starts at the first character of an element; [acc] is reversed. *)
with scan_elems (depth : nat) (s : string) (acc : list pyval)
  : option (pyval * string) :=
  match depth with
  | O => None
  | S n =>
      match scan_once n s with
      | None => None
      | Some (v, r) =>
          match skip_ws r with
          | String c r1 =>
              if (code c =? 93)%N then Some (PList (rev (v :: acc)), r1)
              else if (code c =? 44)%N then scan_elems n (skip_ws r1) (v :: acc)
              else None
          | EmptyString => None
          end
      end
  end.

Definition decode_error : exn := mkExn JSONDecodeError "Expecting value".

(** [json.loads(s)]: one value, surrounded by optional white space. *)
Definition loads (s : string) : outcome pyval :=
  match scan_once (2 * String.length s + 2) (skip_ws s) with
  | Some (v, r) =>
      match skip_ws r with
      | EmptyString => Ok v
      | String _ _ => Raise (mkExn JSONDecodeError "Extra data")
      end
  | None => Raise decode_error
  end.

End Json.

(** ** Text and the interpreter's built-in operations *)

Module Text.

Definition dq : string := String (ascii_of_N 34) EmptyString.
Definition nl : string := String (ascii_of_N 10) EmptyString.

Definition string_of_Z (z : Z) : string := NilZero.string_of_int (Z.to_int z).
Definition string_of_nat (n : nat) : string := string_of_Z (Z.of_nat n).

Fixpoint repeat_string (s : string) (n : nat) : string :=
  match n with
  | O => ""
  | S k => s ++ repeat_string s k
  end.

Definition is_cont (c : ascii) : bool :=
  (128 <=? Json.code c)%N && (Json.code c <? 192)%N.

Definition low6 (c : ascii) : N := (Json.code c - 128)%N.

(** The code points of a UTF-8 text (a byte that starts no well-formed
    sequence stands for itself). *)
Fixpoint codepoints (s : string) : list N :=
  match s with
  | EmptyString => []
  | String c r =>
      let n := Json.code c in
      if (n <? 192)%N then n :: codepoints r
      else if (n <? 224)%N then
        match r with
        | String c1 r1 =>
            if is_cont c1 then ((n - 192) * 64 + low6 c1)%N :: codepoints r1
            else n :: codepoints r
        | EmptyString => [n]
        end
      else if (n <? 240)%N then
        match r with
        | String c1 (String c2 r2) =>
            if is_cont c1 && is_cont c2
            then (((n - 224) * 64 + low6 c1) * 64 + low6 c2)%N :: codepoints r2
            else n :: codepoints r
        | _ => n :: codepoints r
        end
      else
        match r with
        | String c1 (String c2 (String c3 r3)) =>
            if is_cont c1 && is_cont c2 && is_cont c3
            then ((((n - 240) * 64 + low6 c1) * 64 + low6 c2) * 64 + low6 c3)%N
                   :: codepoints r3
            else n :: codepoints r
        | _ => n :: codepoints r
        end
  end.

Definition of_codepoints (l : list N) : string :=
  fold_right (fun cp acc => Json.utf8 cp ++ acc) "" l.

(** [len(s)] and [s[:n]] count code points. *)
Definition py_len (s : string) : nat := List.length (codepoints s).
Definition py_prefix (n : nat) (s : string) : string :=
  of_codepoints (firstn n (codepoints s)).

(** [str.isspace] on one code point. *)
Definition is_space (cp : N) : bool :=
  ((9 <=? cp) && (cp <=? 13) || (28 <=? cp) && (cp <=? 32)
   || (cp =? 133) || (cp =? 160) || (cp =? 5760)
   || (8192 <=? cp) && (cp <=? 8202)
   || (cp =? 8232) || (cp =? 8233) || (cp =? 8239) || (cp =? 8287)
   || (cp =? 12288))%N.

Fixpoint drop_space (l : list N) : list N :=
  match l with
  | cp :: r => if is_space cp then drop_space r else l
  | [] => []
  end.

(** [s.strip()]. *)
Definition strip (s : string) : string :=
  of_codepoints (rev (drop_space (rev (drop_space (codepoints s))))).

(** [s.lower()], on the ASCII letters; other text is left as it is (no
    character outside ASCII lowers to a letter of the exit keywords). *)
Fixpoint lower (s : string) : string :=
  match s with
  | EmptyString => EmptyString
  | String c r =>
      let n := Json.code c in
      String (if (65 <=? n)%N && (n <=? 90)%N then ascii_of_N (n + 32) else c)
             (lower r)
  end.

Fixpoint mem_string (x : string) (l : list string) : bool :=
  match l with
  | [] => false
  | y :: r => String.eqb x y || mem_string x r
  end.

(** [needle in haystack] for text. *)
Definition contains (haystack needle : string) : Prop :=
  exists pre post, haystack = pre ++ needle ++ post.

End Text.
Export Text.

(** ** Messages, the outside world and the effect monad *)

Module World.

(** Modelled from the spec: [Role] ([task/models/role.py] is not among the
    sources); the four roles of section 3 with their wire names. *)
Inductive Role : Type := SYSTEM | USER | AI | TOOL.

Definition Role_value (r : Role) : string :=
  match r with
  | SYSTEM => "system"
  | USER => "user"
  | AI => "assistant"
  | TOOL => "tool"
  end.

(** Modelled from the spec: [Message] ([task/models/message.py] is not among
    the sources); the fields are the keyword arguments the client and the
    driver construct it with, absent ones being [None]. *)
Record Message : Type := mkMessage {
  role : Role;
  content : pyval;
  tool_call_id : pyval;
  name : pyval;
  tool_calls : pyval
}.

Definition is_None (v : pyval) : bool :=
  match v with
  | PNone => true
  | _ => false
  end.

(** Modelled from the spec: [Message.to_dict]; role and content always, and
    [tool_calls], [tool_call_id], [name] when they are present (sections 6
    and 8). *)
Definition to_dict (m : Message) : pyval :=
  PDict ([("role", PStr (Role_value (role m))); ("content", content m)]
         ++ (if is_None (tool_calls m) then [] else [("tool_calls", tool_calls m)])
         ++ (if is_None (tool_call_id m) then [] else [("tool_call_id", tool_call_id m)])
         ++ (if is_None (name m) then [] else [("name", name m)])).

(** One [requests.post(url=..., headers=..., json=...)]. *)
Record request : Type := mkRequest {
  url : string;
  headers : list (string * string);
  json : pyval
}.

Record response : Type := mkResponse {
  status_code : Z;
  text : string
}.

(** Calls of the user-data service made through [UserClient]. *)
Inductive service_call : Type :=
| get_user (user_id : Z)
| search_users (kwargs : dict)
| add_user (user_create_model : dict)
| update_user (user_id : Z) (user_update_model : dict)
| delete_user (user_id : Z).

(** What the program has done so far.  [messages] is the one list object
    that the conversation owns and [get_completion] appends to. *)
Record state : Type := mkState {
  messages : list Message;
  posts : list request;
  service_log : list service_call;
  stdout : list string
}.

Definition set_messages (l : list Message) (st : state) : state :=
  mkState l (posts st) (service_log st) (stdout st).

(** Everything the program does not decide itself: the HTTP endpoints, the
    user-data service behind [UserClient], what the interpreter does with
    floats, and the pydantic models that are not among the sources. *)
Record env : Type := mkEnv {
  (** answer to a POST, given the POSTs made before it *)
  http_post : list request -> request -> outcome response;
  (** answer of the user service, given the calls made before *)
  user_service : list service_call -> service_call -> outcome string;
  float_bool : string -> bool;
  float_int : string -> outcome Z;
  float_str : string -> string;
  (** validation errors of the optional fields of [UserCreate] and of the
      fields of [UserUpdate], one line each *)
  UserCreate_optional_errors : dict -> list string;
  UserUpdate_errors : pyval -> list string;
  UserCreate_model_json_schema : pyval;
  UserUpdate_model_json_schema : pyval;
  SYSTEM_PROMPT : string
}.

Definition M (A : Type) : Type := state -> outcome A * state.

Definition ret {A} (a : A) : M A := fun st => (Ok a, st).

Definition bind {A B} (c : M A) (k : A -> M B) : M B :=
  fun st =>
    match c st with
    | (Ok a, st') => k a st'
    | (Raise e, st') => (Raise e, st')
    end.

Definition raise {A} (cls : exn_class) (msg : string) : M A :=
  fun st => (Raise (mkExn cls msg), st).

(** [try: c except <classes accepted by handles> as e: h e]. *)
Definition try_except {A} (c : M A) (handles : exn_class -> bool)
  (h : exn -> M A) : M A :=
  fun st =>
    match c st with
    | (Ok a, st') => (Ok a, st')
    | (Raise e, st') =>
        if handles (exn_cls e) then h e st' else (Raise e, st')
    end.

Definition lift {A} (o : outcome A) : M A := fun st => (o, st).

Definition print (s : string) : M unit :=
  fun st => (Ok tt, mkState (messages st) (posts st) (service_log st)
                            (stdout st ++ [s])).

Definition get_messages : M (list Message) := fun st => (Ok (messages st), st).

(** [messages.append(m)] and [messages.extend(ms)]. *)
Definition append (m : Message) : M unit :=
  fun st => (Ok tt, set_messages (messages st ++ [m]) st).

Definition extend (ms : list Message) : M unit :=
  fun st => (Ok tt, set_messages (messages st ++ ms) st).

Declare Scope py_scope.
Delimit Scope py_scope with py.
Notation "x <- c1 ;; c2" := (bind c1 (fun x => c2))
  (at level 61, c1 at next level, right associativity) : py_scope.
Notation "c1 ;; c2" := (bind c1 (fun _ => c2))
  (at level 61, right associativity) : py_scope.

End World.
Export World.
Open Scope py_scope.

(** ** Built-in operations on values *)

Section Builtins.

Variable E : env.

Definition type_name (v : pyval) : string :=
  match v with
  | PNone => "NoneType"
  | PBool _ => "bool"
  | PInt _ => "int"
  | PFloat _ => "float"
  | PStr _ => "str"
  | PList _ => "list"
  | PDict _ => "dict"
  end.

Definition quoted (s : string) : string := "'" ++ s ++ "'".

(** [repr(v)]; the text of a string is quoted without escapes. *)
Fixpoint py_repr (v : pyval) : string :=
  match v with
  | PNone => "None"
  | PBool true => "True"
  | PBool false => "False"
  | PInt z => string_of_Z z
  | PFloat x => float_str E x
  | PStr s => quoted s
  | PList l =>
      "[" ++ (fix items (l : list pyval) : string :=
                match l with
                | [] => ""
                | x :: r =>
                    match r with
                    | [] => py_repr x
                    | _ :: _ => py_repr x ++ ", " ++ items r
                    end
                end) l ++ "]"
  | PDict d =>
      "{" ++ (fix items (d : list (string * pyval)) : string :=
                match d with
                | [] => ""
                | (k, x) :: r =>
                    match r with
                    | [] => quoted k ++ ": " ++ py_repr x
                    | _ :: _ => quoted k ++ ": " ++ py_repr x ++ ", " ++ items r
                    end
                end) d ++ "}"
  end.

(** [str(v)], also what an f-string writes for [{v}]. *)
Definition py_str (v : pyval) : string :=
  match v with
  | PStr s => s
  | _ => py_repr v
  end.

(** Truth value, as tested by [if v] and [not v]. *)
Definition truthy (v : pyval) : bool :=
  match v with
  | PNone => false
  | PBool b => b
  | PInt z => negb (z =? 0)%Z
  | PFloat x => float_bool E x
  | PStr s => negb (String.eqb s "")
  | PList l => match l with [] => false | _ => true end
  | PDict d => match d with [] => false | _ => true end
  end.

(** [v.get(k, default)]. *)
Definition py_get (v : pyval) (k : string) (default : pyval) : outcome pyval :=
  match v with
  | PDict d =>
      Ok (match dict_get d k with
          | Some x => x
          | None => default
          end)
  | _ => Raise (mkExn AttributeError
                  (quoted (type_name v) ++ " object has no attribute 'get'"))
  end.

(** [v[0]]. *)
Definition py_first (v : pyval) : outcome pyval :=
  match v with
  | PList (x :: _) => Ok x
  | PList [] => Raise (mkExn IndexError "list index out of range")
  | PStr s =>
      match codepoints s with
      | cp :: _ => Ok (PStr (Json.utf8 cp))
      | [] => Raise (mkExn IndexError "string index out of range")
      end
  | PDict _ => Raise (mkExn KeyError "0")
  | _ => Raise (mkExn TypeError
                  (quoted (type_name v) ++ " object is not subscriptable"))
  end.

(** [v[k]] for a text key [k]. *)
Definition py_item (v : pyval) (k : string) : outcome pyval :=
  match v with
  | PDict d =>
      match dict_get d k with
      | Some x => Ok x
      | None => Raise (mkExn KeyError (quoted k))
      end
  | PList _ => Raise (mkExn TypeError
                        "list indices must be integers or slices, not str")
  | PStr _ => Raise (mkExn TypeError "string indices must be integers, not 'str'")
  | _ => Raise (mkExn TypeError
                  (quoted (type_name v) ++ " object is not subscriptable"))
  end.

(** The items a [for] loop over [v] visits. *)
Definition py_iter (v : pyval) : outcome (list pyval) :=
  match v with
  | PList l => Ok l
  | PStr s => Ok (map (fun cp => PStr (Json.utf8 cp)) (codepoints s))
  | PDict d => Ok (map (fun kv => PStr (fst kv)) d)
  | _ => Raise (mkExn TypeError
                  (quoted (type_name v) ++ " object is not iterable"))
  end.

(** The first code point of each run of ten decimal digits (Unicode 14.0,
    the table of CPython 3.11): ASCII, Arabic-Indic, Devanagari, ...,
    fullwidth, mathematical. *)
Definition decimal_starts : list N :=
  [48; 1632; 1776; 1984; 2406; 2534; 2662; 2790; 2918; 3046; 3174; 3302;
   3430; 3558; 3664; 3792; 3872; 4160; 4240; 6112; 6160; 6470; 6608; 6784;
   6800; 6992; 7088; 7232; 7248; 42528; 43216; 43264; 43472; 43504; 43600;
   44016; 65296; 66720; 68912; 69734; 69872; 69942; 70096; 70384; 70736;
   70864; 71248; 71360; 71472; 71904; 72016; 72784; 73040; 73120; 92768;
   92864; 93008; 120782; 120792; 120802; 120812; 120822; 123200; 123632;
   125264; 130032]%N.

(** The decimal value of a code point, when it is a decimal digit. *)
Definition decimal_value (cp : N) : option N :=
  match find (fun start => (start <=? cp) && (cp <? start + 10))%N decimal_starts with
  | Some start => Some (cp - start)%N
  | None => None
  end.

(** The white space [int] skips around a literal: the ASCII blanks of C
    (the separators 28 to 31 are not among them) and every space outside
    ASCII. *)
Definition int_space (cp : N) : bool :=
  ((9 <=? cp) && (cp <=? 13) || (cp =? 32) || (128 <=? cp) && is_space cp)%N.

Fixpoint drop_int_space (l : list N) : list N :=
  match l with
  | cp :: r => if int_space cp then drop_int_space r else l
  | [] => []
  end.

Fixpoint int_digits (l : list N) (acc : Z) (after_digit : bool) : option Z :=
  match l with
  | [] => if after_digit then Some acc else None
  | cp :: r =>
      match decimal_value cp with
      | Some d => int_digits r (acc * 10 + Z.of_N d) true
      | None =>
          if (cp =? 95)%N && after_digit then int_digits r acc false else None
      end
  end.

(** [int(s)] for text: white space around, a sign, decimal digits of any
    script with single underscores between them.  Integers are unbounded:
    the interpreter's optional limit on the number of digits
    ([sys.set_int_max_str_digits]) is taken to be switched off. *)
Definition int_of_str (s : string) : option Z :=
  match rev (drop_int_space (rev (drop_int_space (codepoints s)))) with
  | cp :: r =>
      if (cp =? 45)%N then option_map Z.opp (int_digits r 0 false)
      else if (cp =? 43)%N then int_digits r 0 false
      else int_digits (cp :: r) 0 false
  | [] => None
  end.

(** [int(v)]. *)
Definition py_int (v : pyval) : outcome Z :=
  match v with
  | PInt z => Ok z
  | PBool b => Ok (if b then 1 else 0)%Z
  | PFloat x => float_int E x
  | PStr s =>
      match int_of_str s with
      | Some z => Ok z
      | None => Raise (mkExn ValueError
                         ("invalid literal for int() with base 10: " ++ quoted s))
      end
  | _ => Raise (mkExn TypeError
                  ("int() argument must be a string, a bytes-like object or a "
                   ++ "real number, not " ++ quoted (type_name v)))
  end.

(** [json.loads(v)]: text is decoded, anything else is refused. *)
Definition json_loads (v : pyval) : outcome pyval :=
  match v with
  | PStr s => Json.loads s
  | _ => Raise (mkExn TypeError
                  ("the JSON object must be str, bytes or bytearray, not "
                   ++ type_name v))
  end.

(** [requests.post]: the request is recorded and the endpoint answers. *)
Definition requests_post (u : string) (h : list (string * string)) (j : pyval)
  : M response :=
  fun st =>
    let r := mkRequest u h j in
    (http_post E (posts st) r,
     mkState (messages st) (posts st ++ [r]) (service_log st) (stdout st)).

(** A method of [UserClient]: the call is recorded and the service answers. *)
Definition user_client (c : service_call) : M string :=
  fun st =>
    (user_service E (service_log st) c,
     mkState (messages st) (posts st) (service_log st ++ [c]) (stdout st)).

End Builtins.

(** ** The tools ([task/tools]) *)

Module Tools.

(** Modelled from the spec: [BaseTool] ([task/tools/base.py] is not among the
    sources); a tool has a name, a description, an input schema and
    [execute]. *)
Record BaseTool : Type := mkTool {
  tool_name : string;
  description : string;
  input_schema : pyval;
  execute : pyval -> M pyval
}.

(** Modelled from the spec: [BaseTool.schema], the form in which a tool is
    advertised to the model (section 6). *)
Definition schema (t : BaseTool) : pyval :=
  PDict [("type", PStr "function");
         ("function", PDict [("name", PStr (tool_name t));
                             ("description", PStr (description t));
                             ("parameters", input_schema t)])].

Definition any_Exception (c : exn_class) : bool := true.

(** [try: body] followed by [except] clauses, tried in order. *)
Fixpoint first_handler {A} (hs : list ((exn_class -> bool) * (exn -> M A)))
  (e : exn) : M A :=
  match hs with
  | [] => fun st => (Raise e, st)
  | (accepts, h) :: rest =>
      if accepts (exn_cls e) then h e else first_handler rest e
  end.

Definition try_ {A} (body : M A)
  (hs : list ((exn_class -> bool) * (exn -> M A))) : M A :=
  try_except body any_Exception (first_handler hs).

Definition string_prop (descr : string) : pyval :=
  PDict [("type", PStr "string"); ("description", PStr descr)].

Definition number_prop (descr : string) : pyval :=
  PDict [("type", PStr "number"); ("description", PStr descr)].

Definition object_schema (props : dict) (required : list string) : pyval :=
  PDict [("type", PStr "object");
         ("properties", PDict props);
         ("required", PList (map PStr required))].

Section WithEnv.

Variable E : env.

(** *** [get_user_by_id_tool.py] *)

Definition GetUserByIdTool_execute (arguments : pyval) : M pyval :=
  try_
    (user_id <- lift (py_get arguments "id" PNone) ;;
     if is_None user_id
     then ret (PStr "Error: User ID is required but was not provided")
     else
       user_id <- lift (py_int E user_id) ;;
       result <- user_client E (get_user user_id) ;;
       ret (PStr result))
    [(is_ValueError,
      fun e => ret (PStr ("Error: Invalid user ID format - " ++ exn_str e)));
     (any_Exception,
      fun e => ret (PStr ("Error while retrieving user by ID: " ++ exn_str e)))].

Definition GetUserByIdTool : BaseTool :=
  mkTool "get_user_by_id"
    "Retrieves detailed information about a user by their ID"
    (object_schema
       [("id", number_prop "The unique identifier (ID) of the user to retrieve")]
       ["id"])
    GetUserByIdTool_execute.

(** *** [search_users_tool.py] *)

(** Modelled from the spec: the keyword parameters of
    [UserClient.search_users] ([user_client.py] is not among the sources),
    taken to be the filters the tool advertises. *)
Definition search_users_parameters : list string :=
  ["name"; "surname"; "email"; "gender"].

(** [self._user_client.search_users( **arguments )]. *)
Definition call_search_users (arguments : pyval) : M string :=
  match arguments with
  | PDict d =>
      match filter (fun kv => negb (mem_string (fst kv) search_users_parameters)) d with
      | [] => user_client E (search_users d)
      | (k, _) :: _ =>
          raise TypeError
            ("search_users() got an unexpected keyword argument " ++ quoted k)
      end
  | _ =>
      raise TypeError
        ("argument after ** must be a mapping, not " ++ type_name arguments)
  end.

Definition SearchUsersTool_execute (arguments : pyval) : M pyval :=
  try_
    (result <- call_search_users arguments ;;
     ret (PStr result))
    [(is_TypeError,
      fun e => ret (PStr ("Error: Invalid search parameters - " ++ exn_str e)));
     (any_Exception,
      fun e => ret (PStr ("Error while searching users: " ++ exn_str e)))].

Definition SearchUsersTool : BaseTool :=
  mkTool "search_users"
    "Searches for users based on optional criteria like name, surname, email, or gender"
    (object_schema
       [("name", string_prop "Filter users by first name (optional)");
        ("surname", string_prop "Filter users by last name (optional)");
        ("email", string_prop "Filter users by email address (optional)");
        ("gender", string_prop "Filter users by gender (optional)")]
       [])
    SearchUsersTool_execute.

(** *** [create_user_tool.py] *)

Definition UserCreate_required : list string :=
  ["name"; "surname"; "email"; "about_me"].

Definition field_required (f : string) : string :=
  f ++ nl ++ "  Field required [type=missing]".

Definition string_expected (f : string) : string :=
  f ++ nl ++ "  Input should be a valid string [type=string_type]".

Definition required_errors (d : dict) : list string :=
  flat_map
    (fun f =>
       match dict_get d f with
       | None => [field_required f]
       | Some (PStr _) => []
       | Some _ => [string_expected f]
       end)
    UserCreate_required.

Definition validation_message (model : string) (errors : list string) : string :=
  string_of_nat (List.length errors)
  ++ (match errors with [_] => " validation error for " | _ => " validation errors for " end)
  ++ model
  ++ String.concat "" (map (fun line => nl ++ line) errors).

(** Modelled from the spec: [UserCreate.model_validate]
    ([models/user_info.py] is not among the sources).  The input must be a
    mapping in which [name], [surname], [email] and [about_me] are present and
    are text; the optional fields are judged by
    [UserCreate_optional_errors].  A failure is a [ValidationError] (a
    [ValueError]) whose text lists each offending field. *)
Definition UserCreate_model_validate (arguments : pyval) : outcome dict :=
  match arguments with
  | PDict d =>
      match (required_errors d ++ UserCreate_optional_errors E d)%list with
      | [] => Ok d
      | errors => Raise (mkExn ValidationError (validation_message "UserCreate" errors))
      end
  | _ =>
      Raise (mkExn ValidationError
               (validation_message "UserCreate"
                  ["  Input should be a valid dictionary or object to extract fields from"]))
  end.

Definition CreateUserTool_execute (arguments : pyval) : M pyval :=
  try_
    (user_create_model <- lift (UserCreate_model_validate arguments) ;;
     result <- user_client E (add_user user_create_model) ;;
     ret (PStr result))
    [(is_ValueError,
      fun e => ret (PStr ("Error: Invalid user data - " ++ exn_str e)));
     (any_Exception,
      fun e => ret (PStr ("Error while creating a new user: " ++ exn_str e)))].

Definition schema_part (model_schema : pyval) (k : string) (default : pyval) : pyval :=
  match py_get model_schema k default with
  | Ok v => v
  | Raise _ => default
  end.

Definition CreateUserTool : BaseTool :=
  mkTool "add_user"
    "Creates a new user in the system with the provided information"
    (PDict [("type", PStr "object");
            ("properties",
             schema_part (UserCreate_model_json_schema E) "properties" (PDict []));
            ("required",
             schema_part (UserCreate_model_json_schema E) "required" (PList []))])
    CreateUserTool_execute.

(** *** [update_user_tool.py] *)

(** Modelled from the spec: [UserUpdate.model_validate]; every field is
    optional and [UserUpdate_errors] judges the input. *)
Definition UserUpdate_model_validate (new_info : pyval) : outcome dict :=
  match UserUpdate_errors E new_info, new_info with
  | [], PDict d => Ok d
  | [], _ =>
      Raise (mkExn ValidationError
               (validation_message "UserUpdate"
                  ["  Input should be a valid dictionary or object to extract fields from"]))
  | errors, _ => Raise (mkExn ValidationError (validation_message "UserUpdate" errors))
  end.

Definition UpdateUserTool_execute (arguments : pyval) : M pyval :=
  try_
    (user_id <- lift (py_get arguments "id" PNone) ;;
     if is_None user_id
     then ret (PStr "Error: User ID is required")
     else
       user_id <- lift (py_int E user_id) ;;
       new_info <- lift (py_get arguments "new_info" (PDict [])) ;;
       user_update_model <- lift (UserUpdate_model_validate new_info) ;;
       result <- user_client E (update_user user_id user_update_model) ;;
       ret (PStr result))
    [(any_Exception,
      fun e => ret (PStr ("Error while updating user: " ++ exn_str e)))].

Definition UpdateUserTool : BaseTool :=
  mkTool "update_user"
    "Updates an existing user's information by their ID"
    (object_schema
       [("id", number_prop "User ID that should be updated");
        ("new_info",
         PDict [("type", PStr "object");
                ("description", PStr "New information to update for the user");
                ("properties",
                 schema_part (UserUpdate_model_json_schema E) "properties" (PDict []));
                ("required",
                 schema_part (UserUpdate_model_json_schema E) "required" (PList []))])]
       ["id"; "new_info"])
    UpdateUserTool_execute.

(** *** [delete_user_tool.py] *)

Definition DeleteUserTool_execute (arguments : pyval) : M pyval :=
  try_
    (user_id <- lift (py_get arguments "id" PNone) ;;
     if is_None user_id
     then ret (PStr "Error: User ID is required for deletion")
     else
       user_id <- lift (py_int E user_id) ;;
       result <- user_client E (delete_user user_id) ;;
       ret (PStr result))
    [(any_Exception,
      fun e => ret (PStr ("Error while deleting user by id: " ++ exn_str e)))].

Definition DeleteUserTool : BaseTool :=
  mkTool "delete_users"
    "Deletes a user from the system by their ID"
    (object_schema [("id", number_prop "The ID of the user to delete")] ["id"])
    DeleteUserTool_execute.

(** *** [web_search.py] *)

Definition WebSearchTool_endpoint (endpoint : string) : string :=
  endpoint ++ "/openai/deployments/gemini-2.5-pro/chat/completions".

Definition WebSearchTool_execute (api_key endpoint : string) (arguments : pyval)
  : M pyval :=
  try_
    (let headers := [("api-key", api_key); ("Content-Type", "application/json")] in
     query <- lift (py_item arguments "request") ;;
     let request_data :=
       PDict [("messages",
               PList [PDict [("role", PStr "user");
                             ("content", PStr (py_str E query))]]);
              ("tools",
               PList [PDict [("type", PStr "static_function");
                             ("static_function",
                              PDict [("name", PStr "google_search");
                                     ("description", PStr "Grounding with Google Search");
                                     ("configuration", PDict [])])]])] in
     response <- requests_post E (WebSearchTool_endpoint endpoint) headers request_data ;;
     if (status_code response =? 200)%Z then
       response_json <- lift (Json.loads (text response)) ;;
       choices <- lift (py_get response_json "choices" (PList [])) ;;
       if truthy E choices then
         choice <- lift (py_first choices) ;;
         message <- lift (py_get choice "message" (PDict [])) ;;
         lift (py_get message "content" (PStr "No results found"))
       else ret (PStr "No search results found")
     else
       ret (PStr ("Error: " ++ string_of_Z (status_code response) ++ " "
                  ++ text response)))
    [(any_Exception,
      fun e => ret (PStr ("Error during web search: " ++ exn_str e)))].

Definition WebSearchTool (api_key endpoint : string) : BaseTool :=
  mkTool "web_search_tool"
    "Tool for searching the web to find current information, facts, or details about people, events, or topics"
    (object_schema
       [("request",
         string_prop "The search query or question to search for on the web")]
       ["request"])
    (WebSearchTool_execute api_key endpoint).

End WithEnv.

End Tools.
Export Tools.

(** ** The completion client ([task/client.py]) *)

Module Client.

Record DialClient : Type := mkDialClient {
  client_endpoint : string;
  client_api_key : string;
  tools_dict : list (string * BaseTool);
  tools : list pyval
}.

Definition completions_url (endpoint deployment_name : string) : string :=
  endpoint ++ "/openai/deployments/" ++ deployment_name ++ "/chat/completions".

Definition register (d : list (string * BaseTool)) (tool : BaseTool)
  : list (string * BaseTool) :=
  dict_set d (tool_name tool) tool.

Section WithEnv.

Variable E : env.

(** [DialClient.__init__]; [api_key] is what [os.getenv] gave. *)
Definition DialClient_init (endpoint deployment_name : string)
  (api_key : option string) (tool_list : option (list BaseTool)) : M DialClient :=
  match api_key with
  | None | Some EmptyString => raise ValueError "API key is required for DIAL client"
  | Some key =>
      let self :=
        mkDialClient
          (completions_url endpoint deployment_name)
          key
          (match tool_list with
           | Some ts => fold_left register ts []
           | None => []
           end)
          (match tool_list with
           | Some ts => map schema ts
           | None => []
           end) in
      print "🚀 DIAL Client initialized" ;;
      print ("📍 Endpoint: " ++ client_endpoint self) ;;
      print ("🔧 Available tools: "
             ++ match tools_dict self with
                | [] => "None"
                | d => py_repr E (PList (map (fun kv => PStr (fst kv)) d))
                end) ;;
      match tools self with
      | [] => ret self
      | ts =>
          print ("📋 Tool schemas loaded: " ++ string_of_nat (List.length ts)
                 ++ " tools") ;;
          ret self
      end
  end.

(** [function_name in self.__tools_dict] followed by the lookup: a list or a
    dict cannot be hashed, and no key equals a value that is not text. *)
Definition _call_tool (self : DialClient) (function_name arguments : pyval)
  : M pyval :=
  match function_name with
  | PList _ | PDict _ =>
      raise TypeError ("unhashable type: " ++ quoted (type_name function_name))
  | _ =>
      match (match function_name with
             | PStr s => dict_get (tools_dict self) s
             | _ => None
             end) with
      | Some tool => execute tool arguments
      | None => ret (PStr ("Unknown function: " ++ py_str E function_name))
      end
  end.

(** The body of the [for] loop of [_process_tool_calls]. *)
Definition process_tool_call (self : DialClient) (tool_call : pyval) : M Message :=
  tool_call_id <- lift (py_get tool_call "id" PNone) ;;
  function <- lift (py_get tool_call "function" (PDict [])) ;;
  function_name <- lift (py_get function "name" PNone) ;;
  arguments_str <- lift (py_get function "arguments" (PStr "{}")) ;;
  arguments <- lift (json_loads arguments_str) ;;
  tool_execution_result <- _call_tool self function_name arguments ;;
  let tool_message := mkMessage TOOL tool_execution_result tool_call_id
                                function_name PNone in
  print ("FUNCTION '" ++ py_str E function_name ++ "'" ++ nl
         ++ py_str E tool_execution_result ++ nl ++ repeat_string "-" 50) ;;
  ret tool_message.

Fixpoint process_loop (self : DialClient) (items : list pyval)
  (tool_messages : list Message) : M (list Message) :=
  match items with
  | [] => ret tool_messages
  | tool_call :: rest =>
      tool_message <- process_tool_call self tool_call ;;
      process_loop self rest (tool_messages ++ [tool_message])
  end.

Definition _process_tool_calls (self : DialClient) (tool_calls : pyval)
  : M (list Message) :=
  items <- lift (py_iter tool_calls) ;;
  process_loop self items [].

(** [messages[-3:]]. *)
Definition last3 (l : list Message) : list Message :=
  skipn (List.length l - 3) l.

(** [msg.content[:100] + "..." if len(msg.content) > 100 else msg.content],
    written into the f-string. *)
Definition shown_content (c : pyval) : outcome string :=
  match c with
  | PStr s =>
      Ok (if (100 <? py_len s)%nat then py_prefix 100 s ++ "..." else s)
  | PList l =>
      if (100 <? List.length l)%nat
      then Raise (mkExn TypeError ("can only concatenate list (not " ++ dq ++ "str" ++ dq ++ ") to list"))
      else Ok (py_str E c)
  | PDict d =>
      if (100 <? List.length d)%nat
      then Raise (mkExn TypeError "unhashable type: 'slice'")
      else Ok (py_str E c)
  | _ => Raise (mkExn TypeError
                  ("object of type " ++ quoted (type_name c) ++ " has no len()"))
  end.

Fixpoint print_messages (ms : list Message) : M unit :=
  match ms with
  | [] => ret tt
  | msg :: rest =>
      shown <- lift (shown_content (content msg)) ;;
      print ("  [" ++ Role_value (role msg) ++ "]: " ++ shown) ;;
      print_messages rest
  end.

Definition is_tool_calls (finish_reason : pyval) : bool :=
  match finish_reason with
  | PStr s => String.eqb s "tool_calls"
  | _ => false
  end.

(** [get_completion(self, messages, print_request)].  [messages] is the list
    held in the state.  [depth] is the number of nested activations the
    interpreter's recursion limit still allows: with none left the call
    raises [RecursionError]. *)
Fixpoint get_completion (depth : nat) (self : DialClient) (print_request : bool)
  : M Message :=
  match depth with
  | O => raise RecursionError "maximum recursion depth exceeded"
  | S depth' =>
      let headers := [("api-key", client_api_key self);
                      ("Content-Type", "application/json")] in
      messages <- get_messages ;;
      let request_data :=
        PDict [("messages", PList (map to_dict messages));
               ("tools", PList (tools self))] in
      (if print_request then
         print (nl ++ "📤 Sending request with messages:") ;;
         print_messages (last3 messages)
       else ret tt) ;;
      response <- requests_post E (client_endpoint self) headers request_data ;;
      if (status_code response =? 200)%Z then
        response_json <- lift (Json.loads (text response)) ;;
        choices <- lift (py_get response_json "choices" (PList [])) ;;
        choice <- (if truthy E choices then lift (py_first choices)
                   else ret (PDict [])) ;;
        (if print_request then
           finish_reason <- lift (py_get choice "finish_reason" PNone) ;;
           print ("📥 Received response with finish_reason: "
                  ++ py_str E finish_reason)
         else ret tt) ;;
        message_data <- lift (py_get choice "message" (PDict [])) ;;
        content <- lift (py_get message_data "content" (PStr "")) ;;
        tool_calls <- lift (py_get message_data "tool_calls" PNone) ;;
        let ai_response := mkMessage AI content PNone PNone tool_calls in
        finish_reason <- lift (py_get choice "finish_reason" PNone) ;;
        if is_tool_calls finish_reason then
          print (nl ++ "🔧 AI requested tool execution") ;;
          append ai_response ;;
          tool_messages <- _process_tool_calls self tool_calls ;;
          extend tool_messages ;;
          get_completion depth' self print_request
        else
          ret ai_response
      else
        raise Exception
          ("API request failed with status " ++ string_of_Z (status_code response)
           ++ ": " ++ text response)
  end.

End WithEnv.

End Client.
Export Client.

(** ** The interactive session driver ([task/app.py]) *)

Module App.

Definition DIAL_ENDPOINT : string := "https://ai-proxy.lab.epam.com".

Definition exit_keywords : list string := ["exit"; "quit"; "bye"; "stop"].

(** What [input("> ")] gives: a line of text, or an exception raised while
    waiting for it. *)
Inductive input_event : Type :=
| Line (s : string)
| KeyboardInterrupt
| EOFError.

Inductive loop_control : Type := Break | Continue.

(** Modelled from the spec: [Conversation] ([task/models/conversation.py] is
    not among the sources).  [add_message] appends to the conversation's list
    and [get_messages] returns that same list object, the one held in
    [messages] of the state, so what the client appends stays in the
    conversation (section 3). *)
Definition add_message (m : Message) : M unit := append m.

Section WithEnv.

Variable E : env.

(** The tools, in the order [main] registers them. *)
Definition app_tools (API_KEY : string) : list BaseTool :=
  [WebSearchTool E API_KEY DIAL_ENDPOINT;
   GetUserByIdTool E;
   SearchUsersTool E;
   CreateUserTool E;
   UpdateUserTool E;
   DeleteUserTool E].

(** The body of the [try] of one turn of [while True], after [input] has
    given [line]. *)
Definition turn_body (depth : nat) (dial_client : DialClient) (line : string)
  : M loop_control :=
  let user_input := strip line in
  if mem_string (lower user_input) exit_keywords then
    print (nl ++ "👋 Goodbye! Thank you for using the AI User Management Assistant.") ;;
    ret Break
  else if String.eqb user_input "" then
    ret Continue
  else
    let user_message := mkMessage USER (PStr user_input) PNone PNone PNone in
    add_message user_message ;;
    print (nl ++ "🤔 Thinking...") ;;
    ai_response <- get_completion E depth dial_client false ;;
    add_message ai_response ;;
    print (nl ++ "🤖 Assistant:") ;;
    print (py_str E (content ai_response)) ;;
    print (nl ++ repeat_string "-" 60 ++ nl) ;;
    ret Continue.

(** [except Exception as e] of the loop. *)
Definition report_error (e : exn) : M loop_control :=
  print (nl ++ "❌ Error: " ++ exn_str e) ;;
  print ("Please try again." ++ nl) ;;
  ret Continue.

(** One turn of the loop. *)
Definition turn (depth : nat) (dial_client : DialClient) (ev : input_event)
  : M loop_control :=
  match ev with
  | Line line =>
      try_except (turn_body depth dial_client line) any_Exception report_error
  | KeyboardInterrupt =>
      print (nl ++ nl ++ "👋 Interrupted. Goodbye!") ;;
      ret Break
  | EOFError =>
      (* EOFError derives from Exception: the last clause reports it *)
      report_error (mkExn Exception "EOF when reading a line")
  end.

(** The loop over the inputs that arrive; [None] when they are used up and
    the loop is still waiting. *)
Fixpoint loop (depth : nat) (dial_client : DialClient) (evs : list input_event)
  : M (option loop_control) :=
  match evs with
  | [] => ret None
  | ev :: rest =>
      c <- turn depth dial_client ev ;;
      match c with
      | Break => ret (Some Break)
      | Continue => loop depth dial_client rest
      end
  end.

(** [main()], with the module-level [API_KEY].  The web search tool is given
    the key as it is; without a key [DialClient] raises before any tool is
    used. *)
Definition main (depth : nat) (API_KEY : option string) (evs : list input_event)
  : M (option loop_control) :=
  print "✅ UserClient initialized" ;;
  dial_client <- DialClient_init E DIAL_ENDPOINT "gpt-4o" API_KEY
                   (Some (app_tools (match API_KEY with
                                     | Some k => k
                                     | None => "None"
                                     end))) ;;
  print "✅ DialClient initialized with all tools" ;;
  add_message (mkMessage SYSTEM (PStr (SYSTEM_PROMPT E)) PNone PNone PNone) ;;
  print "✅ Conversation initialized with system prompt" ;;
  print (nl ++ repeat_string "=" 60) ;;
  print "🤖 AI User Management Assistant Ready!" ;;
  print (repeat_string "=" 60) ;;
  print "Type your message and press Enter. Type 'exit' or 'quit' to stop." ;;
  print "Example: 'Add Andrej Karpathy as a new user'" ;;
  print (repeat_string "=" 60 ++ nl) ;;
  loop depth dial_client evs.

(** How the process ends: an exit status, an uncaught exception, or still
    waiting for input. *)
Inductive ending : Type :=
| Exit (status : Z)
| Uncaught (e : exn)
| Waiting.

(** The [if __name__ == "__main__"] block. *)
Definition program (depth : nat) (API_KEY : option string)
  (evs : list input_event) (st : state) : ending * state :=
  match API_KEY with
  | None | Some EmptyString =>
      match (print "❌ Error: DIAL_API_KEY environment variable is not set!" ;;
             print "Please set your API key using:" ;;
             print "  export DIAL_API_KEY='your-api-key-here'") st with
      | (_, st') => (Exit 1, st')
      end
  | Some _ =>
      match main depth API_KEY evs st with
      | (Ok (Some _), st') => (Exit 0, st')
      | (Ok None, st') => (Waiting, st')
      | (Raise e, st') => (Uncaught e, st')
      end
  end.

End WithEnv.

End App.
Export App.

(** ** Frame properties *)

Module Frames.

(** [c] always returns a value. *)
Definition returns {A} (c : M A) : Prop :=
  forall st, exists v, fst (c st) = Ok v.

(** Every run of [c] relates the state before to the state after. *)
Definition preserves (R : state -> state -> Prop) {A} (c : M A) : Prop :=
  forall st, R st (snd (c st)).

(** The message list is untouched and POSTs are only added. *)
Definition same_messages (st st' : state) : Prop :=
  messages st' = messages st
  /\ exists extra, posts st' = (posts st ++ extra)%list.

Definition intermediate (m : Message) : Prop := role m = AI \/ role m = TOOL.

(** Assistant and tool messages are added at the end of the message list and
    POSTs are only added. *)
Definition extended (st st' : state) : Prop :=
  (exists added, messages st' = (messages st ++ added)%list
                 /\ Forall intermediate added)
  /\ exists extra, posts st' = (posts st ++ extra)%list.

Lemma same_messages_refl st : same_messages st st.
Proof. split; [reflexivity | exists []; symmetry; apply app_nil_r]. Qed.

Lemma same_messages_trans st1 st2 st3 :
  same_messages st1 st2 -> same_messages st2 st3 -> same_messages st1 st3.
Proof.
  intros [Hm [x Hx]] [Hm' [y Hy]]. split.
  - congruence.
  - exists (x ++ y)%list. rewrite Hy, Hx. symmetry. apply app_assoc.
Qed.

Lemma extended_refl st : extended st st.
Proof.
  split; [exists []; split; [symmetry; apply app_nil_r | constructor]
         | exists []; symmetry; apply app_nil_r].
Qed.

Lemma extended_trans st1 st2 st3 :
  extended st1 st2 -> extended st2 st3 -> extended st1 st3.
Proof.
  intros [[a [Ha Fa]] [x Hx]] [[b [Hb Fb]] [y Hy]]. split.
  - exists (a ++ b)%list. split.
    + rewrite Hb, Ha. symmetry. apply app_assoc.
    + apply Forall_app. split; assumption.
  - exists (x ++ y)%list. rewrite Hy, Hx. symmetry. apply app_assoc.
Qed.

Lemma same_messages_extended st st' : same_messages st st' -> extended st st'.
Proof.
  intros [Hm Hp]. split; [| exact Hp].
  exists []. split; [rewrite Hm; symmetry; apply app_nil_r | constructor].
Qed.

Section Combinators.

Variable R : state -> state -> Prop.
Hypothesis R_refl : forall st, R st st.
Hypothesis R_trans : forall st1 st2 st3, R st1 st2 -> R st2 st3 -> R st1 st3.

Lemma preserves_ret {A} (a : A) : preserves R (ret a).
Proof. intros st. apply R_refl. Qed.

Lemma preserves_lift {A} (o : outcome A) : preserves R (lift o).
Proof. intros st. apply R_refl. Qed.

Lemma preserves_raise {A} cls msg : preserves R (@raise A cls msg).
Proof. intros st. apply R_refl. Qed.

Lemma preserves_bind {A B} (c : M A) (k : A -> M B) :
  preserves R c -> (forall a, preserves R (k a)) -> preserves R (bind c k).
Proof.
  intros Hc Hk st. unfold bind. specialize (Hc st).
  destruct (c st) as [[a | e] st1]; simpl in *.
  - eapply R_trans; [exact Hc | apply Hk].
  - exact Hc.
Qed.

Lemma preserves_try_except {A} (c : M A) handles (h : exn -> M A) :
  preserves R c -> (forall e, preserves R (h e)) ->
  preserves R (try_except c handles h).
Proof.
  intros Hc Hh st. unfold try_except. specialize (Hc st).
  destruct (c st) as [[a | e] st1]; simpl in *.
  - exact Hc.
  - destruct (handles (exn_cls e)); simpl.
    + eapply R_trans; [exact Hc | apply Hh].
    + exact Hc.
Qed.

Lemma preserves_first_handler {A}
  (hs : list ((exn_class -> bool) * (exn -> M A))) :
  Forall (fun p => forall e, preserves R (snd p e)) hs ->
  forall e, preserves R (first_handler hs e).
Proof.
  induction 1 as [| [accepts h] rest Hh _ IH]; intros e; simpl.
  - intros st. apply R_refl.
  - destruct (accepts (exn_cls e)); [apply Hh | apply IH].
Qed.

Lemma preserves_try_ {A} (body : M A) hs :
  preserves R body ->
  Forall (fun p => forall e, preserves R (snd p e)) hs ->
  preserves R (try_ body hs).
Proof.
  intros Hb Hh. apply preserves_try_except; [exact Hb |].
  apply preserves_first_handler. exact Hh.
Qed.

End Combinators.

Lemma returns_ret {A} (a : A) : returns (ret a).
Proof. intros st. exists a. reflexivity. Qed.

Lemma returns_first_handler {A}
  (hs : list ((exn_class -> bool) * (exn -> M A))) :
  Forall (fun p => forall e, returns (snd p e)) hs ->
  Exists (fun p => forall c, fst p c = true) hs ->
  forall e, returns (first_handler hs e).
Proof.
  induction 1 as [| [accepts h] rest Hh _ IH]; intros Hex e; simpl.
  - inversion Hex.
  - destruct (accepts (exn_cls e)) eqn:Hacc; [apply Hh |].
    apply IH. inversion Hex as [? ? Hall | ? ? Hrest]; subst; [| exact Hrest].
    simpl in Hall. rewrite Hall in Hacc. discriminate.
Qed.

(** A [try] whose clauses all return and end with [except Exception]
    returns, whatever its body does. *)
Lemma returns_try_ {A} (body : M A) hs :
  Forall (fun p => forall e, returns (snd p e)) hs ->
  Exists (fun p => forall c, fst p c = true) hs ->
  returns (try_ body hs).
Proof.
  intros Hh Hex st. unfold try_, try_except.
  destruct (body st) as [[a | e] st1]; simpl.
  - exists a. reflexivity.
  - apply (returns_first_handler hs Hh Hex e st1).
Qed.

Lemma same_messages_print s : preserves same_messages (print s).
Proof. intros st. split; [reflexivity | exists []; symmetry; apply app_nil_r]. Qed.

Lemma same_messages_user_client E c : preserves same_messages (user_client E c).
Proof. intros st. split; [reflexivity | exists []; symmetry; apply app_nil_r]. Qed.

Lemma same_messages_requests_post E u h j :
  preserves same_messages (requests_post E u h j).
Proof. intros st. split; [reflexivity | eexists; reflexivity]. Qed.

(** A tool that always returns a value, leaves the message list alone and
    only adds to the log of POSTs. *)
Definition well_behaved (t : BaseTool) : Prop :=
  forall args, returns (execute t args)
               /\ preserves same_messages (execute t args).

Ltac handlers_return :=
  repeat (apply Forall_cons; [intros ?; apply returns_ret |]); apply Forall_nil.

Ltac catches_all :=
  repeat first [ apply Exists_cons_hd; intros ?; reflexivity
               | apply Exists_cons_tl ].

Ltac frame_step :=
  first
    [ apply preserves_ret; apply same_messages_refl
    | apply preserves_lift; apply same_messages_refl
    | apply preserves_raise; apply same_messages_refl
    | apply same_messages_print
    | apply same_messages_user_client
    | apply same_messages_requests_post
    | apply preserves_bind; [apply same_messages_trans | | intros ?]
    | apply Forall_cons; [intros ?; simpl |]
    | apply Forall_nil
    | match goal with
      | |- preserves _ (if ?b then _ else _) => destruct b
      | |- preserves _ (match ?x with _ => _ end) => destruct x
      | |- preserves _ (call_search_users _ _) => unfold call_search_users
      end ].

Ltac tool_frame :=
  intros args; split;
  [ apply returns_try_; [handlers_return | catches_all]
  | apply preserves_try_;
    [apply same_messages_refl | apply same_messages_trans | |];
    repeat frame_step ].

Section WithEnv.

Variable E : env.

Lemma GetUserByIdTool_well_behaved : well_behaved (GetUserByIdTool E).
Proof. tool_frame. Qed.

Lemma SearchUsersTool_well_behaved : well_behaved (SearchUsersTool E).
Proof. tool_frame. Qed.

Lemma CreateUserTool_well_behaved : well_behaved (CreateUserTool E).
Proof. tool_frame. Qed.

Lemma UpdateUserTool_well_behaved : well_behaved (UpdateUserTool E).
Proof. tool_frame. Qed.

Lemma DeleteUserTool_well_behaved : well_behaved (DeleteUserTool E).
Proof. tool_frame. Qed.

Lemma WebSearchTool_well_behaved k u : well_behaved (WebSearchTool E k u).
Proof. tool_frame. Qed.

End WithEnv.

End Frames.

(** ** Dispatch ([_call_tool]) *)

Module Dispatch.
Import Frames.








Lemma dict_get_set {V} (d : list (string * V)) k v n t :
  dict_get (dict_set d k v) n = Some t -> t = v \/ dict_get d n = Some t.
Proof.
  induction d as [| [k' v'] d IH]; simpl.
  - destruct (String.eqb k n); [intros H; inversion H; auto | discriminate].
  - destruct (String.eqb k' k) eqn:Hk; simpl.
    + destruct (String.eqb k' n); [intros H; inversion H; auto | auto].
    + destruct (String.eqb k' n); [auto | apply IH].
Qed.

(** What the registry holds was registered. *)
Lemma registered_In ts : forall acc n t,
  dict_get (fold_left register ts acc) n = Some t ->
  In t ts \/ dict_get acc n = Some t.
Proof.
  induction ts as [| t0 ts IH]; intros acc n t H; simpl in *.
  - right. exact H.
  - destruct (IH _ _ _ H) as [Hin | Hacc]; [left; right; exact Hin |].
    unfold register in Hacc.
    destruct (dict_get_set _ _ _ _ _ Hacc) as [-> | Hd]; [left; left; reflexivity |].
    right. exact Hd.
Qed.

Section WithEnv.

Variable E : env.

Lemma app_tools_well_behaved key t : In t (app_tools E key) -> well_behaved t.
Proof.
  unfold app_tools. simpl.
  intros [<- | [<- | [<- | [<- | [<- | [<- | []]]]]]].
  - apply WebSearchTool_well_behaved.
  - apply GetUserByIdTool_well_behaved.
  - apply SearchUsersTool_well_behaved.
  - apply CreateUserTool_well_behaved.
  - apply UpdateUserTool_well_behaved.
  - apply DeleteUserTool_well_behaved.
Qed.



(** The registry [main] builds. *)
Definition app_registry (key : string) : list (string * BaseTool) :=
  fold_left register (app_tools E key) [].



End WithEnv.

End Dispatch.

(** ** Processing a batch of tool calls ([_process_tool_calls]) *)

Module Batch.
Import Frames.

(** Every registered tool is well behaved. *)
Definition registry_ok (self : DialClient) : Prop :=
  forall n t, dict_get (tools_dict self) n = Some t -> well_behaved t.

Definition hashable (v : pyval) : bool :=
  match v with
  | PList _ | PDict _ => false
  | _ => true
  end.

(** A request in the wire format of section 6: an object whose [function] is
    an object with a hashable [name] and whose [arguments], when given, is
    text that decodes as JSON. *)
Definition well_formed_call (tool_call : pyval) : bool :=
  match py_get tool_call "function" (PDict []) with
  | Ok function =>
      match py_get function "name" PNone,
            py_get function "arguments" (PStr "{}") with
      | Ok function_name, Ok arguments_str =>
          hashable function_name
          && match json_loads arguments_str with
             | Ok _ => true
             | Raise _ => false
             end
      | _, _ => false
      end
  | Raise _ => false
  end.

(** [m] answers [tool_call]: it is a tool message carrying the request's id
    and the request's function name. *)
Definition result_for (tool_call : pyval) (m : Message) : Prop :=
  role m = TOOL
  /\ py_get tool_call "id" PNone = Ok (tool_call_id m)
  /\ exists function,
       py_get tool_call "function" (PDict []) = Ok function
       /\ py_get function "name" PNone = Ok (name m).

Section WithEnv.

Variable E : env.
Variable self : DialClient.

Lemma call_tool_frame function_name arguments :
  registry_ok self ->
  preserves same_messages (_call_tool E self function_name arguments).
Proof.
  intros Hreg. unfold _call_tool.
  destruct function_name;
    try (apply preserves_raise; apply same_messages_refl);
    try (apply preserves_ret; apply same_messages_refl).
  destruct (dict_get (tools_dict self) s) as [t |] eqn:Ht.
  - apply (Hreg _ _ Ht).
  - apply preserves_ret. apply same_messages_refl.
Qed.

Lemma call_tool_returns function_name arguments :
  registry_ok self -> hashable function_name = true ->
  returns (_call_tool E self function_name arguments).
Proof.
  intros Hreg Hh. unfold _call_tool.
  destruct function_name; try discriminate; try apply returns_ret.
  destruct (dict_get (tools_dict self) s) as [t |] eqn:Ht.
  - apply (Hreg _ _ Ht).
  - apply returns_ret.
Qed.

Lemma process_tool_call_frame tool_call :
  registry_ok self ->
  preserves same_messages (process_tool_call E self tool_call).
Proof.
  intros Hreg. unfold process_tool_call.
  repeat first
    [ apply preserves_lift; apply same_messages_refl
    | apply preserves_ret; apply same_messages_refl
    | apply same_messages_print
    | apply call_tool_frame; exact Hreg
    | apply preserves_bind; [apply same_messages_trans | | intros ?] ].
Qed.

Lemma process_tool_call_result tool_call st m st' :
  process_tool_call E self tool_call st = (Ok m, st') -> result_for tool_call m.
Proof.
  unfold process_tool_call, bind, lift, ret, print.
  destruct (py_get tool_call "id" PNone) as [tool_call_id |] eqn:Hid; [| discriminate].
  destruct (py_get tool_call "function" (PDict [])) as [function |] eqn:Hf; [| discriminate].
  destruct (py_get function "name" PNone) as [function_name |] eqn:Hn; [| discriminate].
  destruct (py_get function "arguments" (PStr "{}")) as [arguments_str |]; [| discriminate].
  destruct (json_loads arguments_str) as [arguments |]; [| discriminate].
  destruct (_call_tool E self function_name arguments st) as [[v | e] st1];
    [| discriminate].
  intros H. inversion H; subst. unfold result_for. simpl.
  split; [reflexivity |]. split; [exact Hid |].
  exists function. split; [exact Hf | exact Hn].
Qed.

Lemma process_tool_call_returns tool_call :
  registry_ok self -> well_formed_call tool_call = true ->
  returns (process_tool_call E self tool_call).
Proof.
  intros Hreg Hwf st. unfold well_formed_call in Hwf.
  unfold process_tool_call, bind, lift, ret, print.
  destruct (py_get tool_call "function" (PDict [])) as [function |] eqn:Hf;
    [| discriminate].
  assert (Hid : exists i, py_get tool_call "id" PNone = Ok i).
  { destruct tool_call; try discriminate. eexists. reflexivity. }
  destruct Hid as [i ->].
  destruct (py_get function "name" PNone) as [function_name |]; [| discriminate].
  destruct (py_get function "arguments" (PStr "{}")) as [arguments_str |];
    [| discriminate].
  apply andb_prop in Hwf. destruct Hwf as [Hh Hj].
  destruct (json_loads arguments_str) as [arguments |]; [| discriminate].
  destruct (call_tool_returns function_name arguments Hreg Hh st) as [v Hv].
  destruct (_call_tool E self function_name arguments st) as [[v' | e] st1];
    simpl in Hv; [| discriminate].
  eexists. reflexivity.
Qed.

Lemma process_loop_results items : forall acc st msgs st',
  process_loop E self items acc st = (Ok msgs, st') ->
  exists new, msgs = (acc ++ new)%list /\ Forall2 result_for items new.
Proof.
  induction items as [| tool_call rest IH]; intros acc st msgs st' H; simpl in H.
  - inversion H; subst. exists []. split; [symmetry; apply app_nil_r | constructor].
  - unfold bind in H.
    destruct (process_tool_call E self tool_call st) as [[m | e] st1] eqn:Hm;
      [| discriminate].
    destruct (IH _ _ _ _ H) as [new [-> Hnew]].
    exists (m :: new). split.
    + rewrite <- app_assoc. reflexivity.
    + constructor; [exact (process_tool_call_result _ _ _ _ Hm) | exact Hnew].
Qed.

Lemma process_loop_frame items :
  registry_ok self ->
  forall acc, preserves same_messages (process_loop E self items acc).
Proof.
  intros Hreg. induction items as [| tool_call rest IH]; intros acc; simpl.
  - apply preserves_ret. apply same_messages_refl.
  - apply preserves_bind; [apply same_messages_trans | | intros m; apply IH].
    apply process_tool_call_frame. exact Hreg.
Qed.

Lemma process_loop_returns items :
  registry_ok self ->
  forallb well_formed_call items = true ->
  forall acc, returns (process_loop E self items acc).
Proof.
  intros Hreg. induction items as [| tool_call rest IH]; intros Hwf acc st; simpl.
  - exists acc. reflexivity.
  - simpl in Hwf. apply andb_prop in Hwf. destruct Hwf as [Hc Hrest].
    unfold bind.
    destruct (process_tool_call_returns tool_call Hreg Hc st) as [m Hm].
    destruct (process_tool_call E self tool_call st) as [[m' | e] st1];
      simpl in Hm; [| discriminate].
    apply IH. exact Hrest.
Qed.

(** A loop over a prefix runs first; the rest continues from its result. *)
Lemma process_loop_app pre post : forall acc st,
  process_loop E self (pre ++ post) acc st =
  bind (process_loop E self pre acc) (process_loop E self post) st.
Proof.
  induction pre as [| tool_call rest IH]; intros acc st; simpl.
  - reflexivity.
  - unfold bind.
    destruct (process_tool_call E self tool_call st) as [[m | e] st1];
      [| reflexivity].
    rewrite IH. reflexivity.
Qed.

End WithEnv.

End Batch.

(** ** One round of [get_completion] *)

Module Completion.
Import Frames Batch.

(** [d.get(k, default)] on a dict. *)
Definition get_or (d : dict) (k : string) (default : pyval) : pyval :=
  match dict_get d k with
  | Some v => v
  | None => default
  end.

(** The state after printing the lines [l]. *)
Definition printed (l : list string) (st : state) : state :=
  mkState (messages st) (posts st) (service_log st) (stdout st ++ l)%list.

(** The state after one more POST. *)
Definition posted (r : request) (st : state) : state :=
  mkState (messages st) (posts st ++ [r])%list (service_log st) (stdout st).

(** Only the output differs. *)
Definition only_stdout (st st' : state) : Prop :=
  messages st' = messages st /\ posts st' = posts st
  /\ service_log st' = service_log st.

(** The POST [get_completion] makes for the message list [msgs]. *)
Definition completion_request (self : DialClient) (msgs : list Message) : request :=
  mkRequest (client_endpoint self)
    [("api-key", client_api_key self); ("Content-Type", "application/json")]
    (PDict [("messages", PList (map to_dict msgs)); ("tools", PList (tools self))]).

Section WithEnv.

Variable E : env.
Variable self : DialClient.

(** The debugging output before the POST. *)
Definition announce (print_request : bool) (msgs : list Message) : M unit :=
  if print_request then
    print (nl ++ "📤 Sending request with messages:") ;;
    print_messages E (last3 msgs)
  else ret tt.

(** What [get_completion] does with the response; [recurse] stands for the
    recursive call. *)
Definition interpret (print_request : bool) (recurse : M Message)
  (response : response) : M Message :=
  if (status_code response =? 200)%Z then
    response_json <- lift (Json.loads (text response)) ;;
    choices <- lift (py_get response_json "choices" (PList [])) ;;
    choice <- (if truthy E choices then lift (py_first choices)
               else ret (PDict [])) ;;
    (if print_request then
       finish_reason <- lift (py_get choice "finish_reason" PNone) ;;
       print ("📥 Received response with finish_reason: "
              ++ py_str E finish_reason)
     else ret tt) ;;
    message_data <- lift (py_get choice "message" (PDict [])) ;;
    content <- lift (py_get message_data "content" (PStr "")) ;;
    tool_calls <- lift (py_get message_data "tool_calls" PNone) ;;
    let ai_response := mkMessage AI content PNone PNone tool_calls in
    finish_reason <- lift (py_get choice "finish_reason" PNone) ;;
    if is_tool_calls finish_reason then
      print (nl ++ "🔧 AI requested tool execution") ;;
      append ai_response ;;
      tool_messages <- _process_tool_calls E self tool_calls ;;
      extend tool_messages ;;
      recurse
    else
      ret ai_response
  else
    raise Exception
      ("API request failed with status " ++ string_of_Z (status_code response)
       ++ ": " ++ text response).

(** [get_completion] with depth left is: announce, POST, interpret. *)
Lemma get_completion_S depth print_request :
  get_completion E (S depth) self print_request =
  (messages <- get_messages ;;
   announce print_request messages ;;
   response <- requests_post E (client_endpoint self)
                 [("api-key", client_api_key self);
                  ("Content-Type", "application/json")]
                 (PDict [("messages", PList (map to_dict messages));
                         ("tools", PList (tools self))]) ;;
   interpret print_request (get_completion E depth self print_request) response).
Proof. reflexivity. Qed.

(** Every message shown by the debugging output can be shown. *)
Definition printable (ms : list Message) : Prop :=
  Forall (fun m => exists s, shown_content E (content m) = Ok s) ms.

Definition quiet (print_request : bool) (st : state) : Prop :=
  print_request = true -> printable (last3 (messages st)).

Lemma print_messages_ok ms : printable ms ->
  forall st, exists l, print_messages E ms st = (Ok tt, printed l st).
Proof.
  induction 1 as [| m ms [s Hs] _ IH]; intros st; simpl.
  - exists []. unfold ret, printed. rewrite app_nil_r. destruct st; reflexivity.
  - unfold bind, lift, print. rewrite Hs.
    destruct (IH (printed ["  [" ++ Role_value (role m) ++ "]: " ++ s] st)) as [l Hl].
    exists (("  [" ++ Role_value (role m) ++ "]: " ++ s) :: l).
    unfold printed in *. simpl in *. rewrite Hl. rewrite <- app_assoc. reflexivity.
Qed.

Lemma announce_ok print_request st :
  quiet print_request st ->
  exists l, announce print_request (messages st) st = (Ok tt, printed l st).
Proof.
  intros Hq. unfold announce. destruct print_request.
  - unfold bind, print.
    destruct (print_messages_ok _ (Hq eq_refl)
                (printed [nl ++ "📤 Sending request with messages:"] st)) as [l Hl].
    exists ((nl ++ "📤 Sending request with messages:") :: l).
    unfold printed in *. simpl in *. rewrite Hl. rewrite <- app_assoc. reflexivity.
  - exists []. unfold ret, printed. rewrite app_nil_r. destruct st; reflexivity.
Qed.




(** The first round of a call: the request is built from the message list,
    sent once, and the answer is interpreted. *)
Lemma get_completion_round depth print_request st :
  quiet print_request st ->
  exists l,
    get_completion E (S depth) self print_request st =
    match http_post E (posts st) (completion_request self (messages st)) with
    | Ok response =>
        interpret print_request (get_completion E depth self print_request)
          response (posted (completion_request self (messages st)) (printed l st))
    | Raise e =>
        (Raise e, posted (completion_request self (messages st)) (printed l st))
    end.
Proof.
  intros Hq. rewrite get_completion_S.
  destruct (announce_ok print_request st Hq) as [l Hl].
  exists l. unfold bind at 1. unfold get_messages.
  unfold bind at 1. rewrite Hl.
  unfold bind, requests_post. simpl.
  fold (completion_request self (messages st)).
  destruct (http_post E (posts st) (completion_request self (messages st)));
    reflexivity.
Qed.

(** [response] is a success whose body decodes to an object and whose first
    choice (the empty object when there is none) is [choice]. *)
Definition decoded (response : response) (choice : pyval) : Prop :=
  status_code response = 200%Z
  /\ exists response_json choices,
       Json.loads (text response) = Ok response_json
       /\ py_get response_json "choices" (PList []) = Ok choices
       /\ (if truthy E choices then py_first choices else Ok (PDict [])) = Ok choice.

(** The assistant message built from the [message] object of a choice. *)
Definition assistant_message (message : dict) : Message :=
  mkMessage AI (get_or message "content" (PStr "")) PNone PNone
            (get_or message "tool_calls" PNone).

Lemma printed_printed l1 l2 st :
  printed l2 (printed l1 st) = printed (l1 ++ l2) st.
Proof. unfold printed. simpl. rewrite <- app_assoc. reflexivity. Qed.

Lemma printed_nil st : printed [] st = st.
Proof. unfold printed. rewrite app_nil_r. destruct st; reflexivity. Qed.

(** Interpreting a decoded success: the debugging line, then the branch on
    the finish reason. *)
Lemma interpret_decoded print_request recurse response c m st :
  decoded response (PDict c) ->
  get_or c "message" (PDict []) = PDict m ->
  exists l,
    interpret print_request recurse response st =
    (if is_tool_calls (get_or c "finish_reason" PNone) then
       print (nl ++ "🔧 AI requested tool execution") ;;
       append (assistant_message m) ;;
       tool_messages <- _process_tool_calls E self (get_or m "tool_calls" PNone) ;;
       extend tool_messages ;;
       recurse
     else ret (assistant_message m)) (printed l st).
Proof.
  intros [H200 [response_json [choices [Hjson [Hchoices Hchoice]]]]] Hm.
  unfold interpret. rewrite H200. simpl.
  unfold bind at 1. unfold lift at 1. rewrite Hjson.
  unfold bind at 1. unfold lift at 1. rewrite Hchoices.
  unfold bind at 1.
  assert (Hc : (if truthy E choices then lift (py_first choices)
                else ret (PDict [])) st = (Ok (PDict c), st)).
  { destruct (truthy E choices); unfold lift, ret; rewrite ?Hchoice;
      [reflexivity | inversion Hchoice; reflexivity]. }
  rewrite Hc.
  exists (if print_request
          then ["📥 Received response with finish_reason: "
                ++ py_str E (get_or c "finish_reason" PNone)]
          else []).
  destruct print_request.
  - unfold bind at 1. unfold bind at 1. unfold lift at 1. simpl py_get.
    fold (get_or c "finish_reason" PNone). unfold print at 1.
    unfold bind at 1. unfold lift at 1. fold (get_or c "message" (PDict [])).
    rewrite Hm.
    unfold bind at 1. unfold lift at 1. simpl py_get.
    unfold bind at 1. unfold lift at 1.
    unfold bind at 1. unfold lift at 1.
    reflexivity.
  - rewrite printed_nil.
    unfold bind at 1. unfold ret at 1.
    unfold bind at 1. unfold lift at 1. simpl py_get.
    fold (get_or c "message" (PDict [])). rewrite Hm.
    unfold bind at 1. unfold lift at 1. simpl py_get.
    unfold bind at 1. unfold lift at 1.
    unfold bind at 1. unfold lift at 1.
    reflexivity.
Qed.

Lemma interpret_failure print_request recurse response st :
  status_code response <> 200%Z ->
  interpret print_request recurse response st =
  (Raise (mkExn Exception
            ("API request failed with status "
             ++ string_of_Z (status_code response) ++ ": " ++ text response)),
   st).
Proof.
  intros H. unfold interpret.
  destruct (Z.eqb_spec (status_code response) 200); [contradiction | reflexivity].
Qed.

(** A round whose answer does not ask for tools returns the assistant
    message and appends nothing. *)
Lemma round_final depth print_request st response c m :
  quiet print_request st ->
  http_post E (posts st) (completion_request self (messages st)) = Ok response ->
  decoded response (PDict c) ->
  get_or c "message" (PDict []) = PDict m ->
  is_tool_calls (get_or c "finish_reason" PNone) = false ->
  exists l,
    get_completion E (S depth) self print_request st =
    (Ok (assistant_message m),
     printed l (posted (completion_request self (messages st)) st)).
Proof.
  intros Hq Hpost Hdec Hm Hfin.
  destruct (get_completion_round depth print_request st Hq) as [l1 Hround].
  rewrite Hround, Hpost.
  destruct (interpret_decoded print_request
              (get_completion E depth self print_request) response c m
              (posted (completion_request self (messages st)) (printed l1 st))
              Hdec Hm) as [l2 Hint].
  rewrite Hint, Hfin. exists (l1 ++ l2)%list.
  unfold ret, printed, posted. simpl. rewrite <- app_assoc. reflexivity.
Qed.

End WithEnv.

End Completion.

(** ** Concrete scenarios *)

Module Examples.

Definition q (s : string) : string := dq ++ s ++ dq.
Definition bsl : string := String (ascii_of_N 92) EmptyString.
(** A quote inside a JSON string. *)
Definition eq_ : string := bsl ++ dq.

(** An endpoint that answers the n-th POST with the n-th entry of [script]
    and refuses connections afterwards; a user service that knows user 42. *)
Definition scripted (script : list response) : env :=
  mkEnv
    (fun earlier _ =>
       nth (List.length earlier) (map Ok script)
           (Raise (mkExn ConnectionError "Connection refused")))
    (fun _ c =>
       match c with
       | get_user 42%Z => Ok "User 42: Jane"
       | add_user _ => Ok "User successfully added: 1"
       | _ => Raise (mkExn Exception "HTTP 404: User not found")
       end)
    (fun _ => true)
    (fun _ => Raise (mkExn OverflowError "cannot convert float infinity to integer"))
    (fun x => x)
    (fun _ => [])
    (fun _ => [])
    (PDict [])
    (PDict [])
    "You are a professional User Management Assistant".

Definition tool_call_json (id fname arguments : string) : string :=
  "{" ++ q "id" ++ ": " ++ q id ++ ", " ++ q "type" ++ ": " ++ q "function" ++ ", "
  ++ q "function" ++ ": {" ++ q "name" ++ ": " ++ q fname ++ ", "
  ++ q "arguments" ++ ": " ++ q arguments ++ "}}".

(** A success that asks for the tool calls [calls] (a JSON array body). *)
Definition asks_for_tools (calls : string) : response :=
  mkResponse 200
    ("{" ++ q "choices" ++ ": [{" ++ q "finish_reason" ++ ": " ++ q "tool_calls"
     ++ ", " ++ q "message" ++ ": {" ++ q "content" ++ ": " ++ q ""
     ++ ", " ++ q "tool_calls" ++ ": [" ++ calls ++ "]}}]}").

(** A success that ends the turn with [content]. *)
Definition says (content : string) : response :=
  mkResponse 200
    ("{" ++ q "choices" ++ ": [{" ++ q "finish_reason" ++ ": " ++ q "stop"
     ++ ", " ++ q "message" ++ ": {" ++ q "content" ++ ": " ++ q content ++ "}}]}").

Definition server_error : response := mkResponse 500 "Internal Server Error".

(** The call of the scenario of section 8. *)
Definition get_user_42 : string :=
  tool_call_json "1" "get_user_by_id" ("{" ++ eq_ ++ "id" ++ eq_ ++ ": 42}").

Definition unknown_call : string := tool_call_json "2" "no_such_tool" "{}".

Definition broken_call : string := tool_call_json "3" "get_user_by_id" "{bad".

(** The client [main] builds for the key [k]. *)
Definition app_client (E : env) (k : string) : DialClient :=
  mkDialClient (completions_url DIAL_ENDPOINT "gpt-4o") k
               (Dispatch.app_registry E k) (map schema (app_tools E k)).

Definition user_says (s : string) : Message :=
  mkMessage USER (PStr s) PNone PNone PNone.

Definition start (msgs : list Message) : state := mkState msgs [] [] [].

Definition parsed (s : string) : pyval :=
  match Json.loads s with
  | Ok v => v
  | Raise _ => PNone
  end.

End Examples.


(** ** The message list only grows *)

Module Growth.
Import Frames Batch Completion.

Lemma preserves_weaken {A} (c : M A) :
  preserves same_messages c -> preserves extended c.
Proof. intros H st. apply same_messages_extended. apply H. Qed.

(** [bind] when what [c] returns is known to satisfy [Q]. *)
Lemma preserves_bind_post {A B} (Q : A -> Prop) (c : M A) (k : A -> M B) :
  preserves extended c ->
  (forall st a st', c st = (Ok a, st') -> Q a) ->
  (forall a, Q a -> preserves extended (k a)) ->
  preserves extended (bind c k).
Proof.
  intros Hc HQ Hk st. unfold bind. specialize (Hc st). specialize (HQ st).
  destruct (c st) as [[a | e] st1]; simpl in *.
  - eapply extended_trans; [exact Hc |]. apply Hk. eapply HQ. reflexivity.
  - exact Hc.
Qed.

Lemma append_extended m : intermediate m -> preserves extended (append m).
Proof.
  intros Hm st. split.
  - exists [m]. split; [reflexivity | constructor; [exact Hm | constructor]].
  - exists []. symmetry. apply app_nil_r.
Qed.

Lemma extend_extended ms : Forall intermediate ms -> preserves extended (extend ms).
Proof.
  intros Hm st. split.
  - exists ms. split; [reflexivity | exact Hm].
  - exists []. symmetry. apply app_nil_r.
Qed.

Section WithEnv.

Variable E : env.
Variable self : DialClient.
Hypothesis Hreg : registry_ok self.

Lemma process_tool_calls_frame tool_calls :
  preserves same_messages (_process_tool_calls E self tool_calls).
Proof.
  unfold _process_tool_calls.
  apply preserves_bind; [apply same_messages_trans | | intros items].
  - apply preserves_lift. apply same_messages_refl.
  - apply process_loop_frame. exact Hreg.
Qed.

Lemma process_tool_calls_results tool_calls st msgs st' :
  _process_tool_calls E self tool_calls st = (Ok msgs, st') ->
  exists items, py_iter tool_calls = Ok items /\ Forall2 result_for items msgs.
Proof.
  unfold _process_tool_calls, bind, lift.
  destruct (py_iter tool_calls) as [items |]; [| discriminate].
  intros H. destruct (process_loop_results E self items _ _ _ _ H) as [new [-> Hnew]].
  exists items. split; [reflexivity | exact Hnew].
Qed.

Lemma results_intermediate items msgs :
  Forall2 result_for items msgs -> Forall intermediate msgs.
Proof.
  induction 1 as [| tc m items msgs [Hrole _] _ IH]; constructor.
  - right. exact Hrole.
  - exact IH.
Qed.

Lemma print_messages_extended ms : preserves extended (print_messages E ms).
Proof.
  induction ms as [| m ms IH]; simpl.
  - apply preserves_ret. apply extended_refl.
  - apply preserves_bind; [apply extended_trans | | intros s].
    + apply preserves_lift. apply extended_refl.
    + apply preserves_bind; [apply extended_trans | | intros ?; exact IH].
      apply preserves_weaken. apply same_messages_print.
Qed.

Ltac grow_step :=
  first
    [ apply preserves_ret; apply extended_refl
    | apply preserves_lift; apply extended_refl
    | apply preserves_raise; apply extended_refl
    | apply preserves_weaken; apply same_messages_print
    | apply preserves_weaken; apply same_messages_requests_post
    | apply print_messages_extended
    | apply preserves_bind; [apply extended_trans | | intros ?]
    | match goal with
      | |- preserves _ (if ?b then _ else _) => destruct b
      end ].

Ltac bind_lift :=
  apply preserves_bind;
  [apply extended_trans | apply preserves_lift; apply extended_refl | intros ?].

Lemma interpret_extended print_request recurse response :
  preserves extended recurse ->
  preserves extended (interpret E self print_request recurse response).
Proof.
  intros Hrec. unfold interpret.
  destruct (status_code response =? 200)%Z;
    [| apply preserves_raise; apply extended_refl].
  bind_lift. bind_lift.
  apply preserves_bind; [apply extended_trans | | intros choice].
  { destruct (truthy E _);
      [apply preserves_lift | apply preserves_ret]; apply extended_refl. }
  apply preserves_bind; [apply extended_trans | | intros ?].
  { destruct print_request; [| apply preserves_ret; apply extended_refl].
    bind_lift. apply preserves_weaken. apply same_messages_print. }
  bind_lift. bind_lift. bind_lift. bind_lift.
  destruct (is_tool_calls _); [| apply preserves_ret; apply extended_refl].
  apply preserves_bind; [apply extended_trans | | intros ?].
  { apply preserves_weaken. apply same_messages_print. }
  apply preserves_bind; [apply extended_trans | | intros ?].
  { apply append_extended. left. reflexivity. }
  apply (preserves_bind_post (Forall intermediate)).
  - apply preserves_weaken. apply process_tool_calls_frame.
  - intros st0 msgs st1 Hrun.
    destruct (process_tool_calls_results _ _ _ _ Hrun) as [items [_ Hres]].
    exact (results_intermediate _ _ Hres).
  - intros msgs Hmsgs.
    apply preserves_bind; [apply extended_trans | | intros ?; exact Hrec].
    apply extend_extended. exact Hmsgs.
Qed.

(** Whatever its outcome, a call leaves the messages it found in place and
    only adds assistant and tool messages after them. *)
Lemma get_completion_extended depth : forall print_request,
  preserves extended (get_completion E depth self print_request).
Proof.
  induction depth as [| depth IH]; intros print_request.
  - simpl. apply preserves_raise. apply extended_refl.
  - rewrite get_completion_S.
    apply preserves_bind; [apply extended_trans | | intros msgs].
    { intros st. apply extended_refl. }
    apply preserves_bind; [apply extended_trans | | intros ?].
    { unfold announce. repeat grow_step. }
    apply preserves_bind; [apply extended_trans | | intros response].
    { apply preserves_weaken. apply same_messages_requests_post. }
    apply interpret_extended. apply IH.
Qed.

End WithEnv.

End Growth.

(** ** A tool round, step by step *)

Module Rounds.
Import Frames Batch Completion Growth.

Section WithEnv.

Variable E : env.
Variable self : DialClient.





(** The debugging line for the finish reason. *)
Definition finish_lines (print_request : bool) (c : dict) : list string :=
  if print_request
  then ["📥 Received response with finish_reason: "
        ++ py_str E (get_or c "finish_reason" PNone)]
  else [].

(** The state in which the batch of a tool round starts: the request is
    sent, the notice printed and the assistant message appended. *)
Definition began (print_request : bool) (st : state) (c m : dict) : state :=
  set_messages (messages st ++ [assistant_message m])
    (printed [nl ++ "🔧 AI requested tool execution"]
       (printed (finish_lines print_request c)
          (posted (completion_request self (messages st))
             (snd (announce E print_request (messages st) st))))).

Lemma began_frame print_request st c m :
  quiet E print_request st ->
  messages (began print_request st c m)
  = (messages st ++ [assistant_message m])%list
  /\ posts (began print_request st c m)
     = (posts st ++ [completion_request self (messages st)])%list
  /\ service_log (began print_request st c m) = service_log st.
Proof.
  intros Hq. destruct (announce_ok E print_request st Hq) as [l Hl].
  unfold began. rewrite Hl. split; [reflexivity | split; reflexivity].
Qed.

Lemma interpret_tool_round print_request recurse response c m st :
  decoded E response (PDict c) ->
  get_or c "message" (PDict []) = PDict m ->
  is_tool_calls (get_or c "finish_reason" PNone) = true ->
  interpret E self print_request recurse response st =
  (tool_messages <- _process_tool_calls E self (get_or m "tool_calls" PNone) ;;
   extend tool_messages ;;
   recurse)
    (set_messages (messages st ++ [assistant_message m])
       (printed [nl ++ "🔧 AI requested tool execution"]
          (printed (finish_lines print_request c) st))).
Proof.
  intros [H200 [response_json [choices [Hjson [Hchoices Hchoice]]]]] Hm Hfin.
  unfold interpret. rewrite H200. simpl.
  unfold bind at 1. unfold lift at 1. rewrite Hjson.
  unfold bind at 1. unfold lift at 1. rewrite Hchoices.
  unfold bind at 1.
  assert (Hc : (if truthy E choices then lift (py_first choices)
                else ret (PDict [])) st = (Ok (PDict c), st)).
  { destruct (truthy E choices); unfold lift, ret; rewrite ?Hchoice;
      [reflexivity | inversion Hchoice; reflexivity]. }
  rewrite Hc. unfold finish_lines.
  destruct print_request.
  - unfold bind at 1. unfold bind at 1. unfold lift at 1. simpl py_get.
    fold (get_or c "finish_reason" PNone). unfold print at 1.
    unfold bind at 1. unfold lift at 1. fold (get_or c "message" (PDict [])).
    rewrite Hm.
    unfold bind at 1. unfold lift at 1. simpl py_get.
    unfold bind at 1. unfold lift at 1.
    unfold bind at 1. unfold lift at 1.
    fold (get_or c "finish_reason" PNone). rewrite Hfin.
    unfold bind at 1. unfold print at 1.
    unfold bind at 1. unfold append at 1.
    reflexivity.
  - rewrite printed_nil.
    unfold bind at 1. unfold ret at 1.
    unfold bind at 1. unfold lift at 1. simpl py_get.
    fold (get_or c "message" (PDict [])). rewrite Hm.
    unfold bind at 1. unfold lift at 1. simpl py_get.
    unfold bind at 1. unfold lift at 1.
    unfold bind at 1. unfold lift at 1.
    fold (get_or c "finish_reason" PNone). rewrite Hfin.
    unfold bind at 1. unfold print at 1.
    unfold bind at 1. unfold append at 1.
    reflexivity.
Qed.

(** A call whose request is answered by a request for tools runs the batch
    from [began] and, if the batch returns, extends the list and recurses. *)
Lemma round_explicit depth print_request st response c m :
  quiet E print_request st ->
  http_post E (posts st) (completion_request self (messages st)) = Ok response ->
  decoded E response (PDict c) ->
  get_or c "message" (PDict []) = PDict m ->
  is_tool_calls (get_or c "finish_reason" PNone) = true ->
  get_completion E (S depth) self print_request st
  = match _process_tool_calls E self (get_or m "tool_calls" PNone)
            (began print_request st c m) with
    | (Ok tool_messages, st2) =>
        get_completion E depth self print_request
          (set_messages (messages st2 ++ tool_messages) st2)
    | (Raise e, st2) => (Raise e, st2)
    end.
Proof.
  intros Hq Hpost Hdec Hm Hfin.
  destruct (announce_ok E print_request st Hq) as [l Hl].
  rewrite get_completion_S.
  unfold bind at 1. unfold get_messages.
  unfold bind at 1. rewrite Hl.
  unfold bind at 1. unfold requests_post.
  cbn [messages posts service_log stdout printed].
  fold (completion_request self (messages st)). rewrite Hpost.
  rewrite (interpret_tool_round print_request _ response c m _ Hdec Hm Hfin).
  unfold began. rewrite Hl.
  unfold bind at 1.
  match goal with
  | |- match _process_tool_calls E self _ ?a with _ => _ end
       = match _process_tool_calls E self _ ?b with _ => _ end =>
      change a with b
  end.
  destruct (_process_tool_calls E self (get_or m "tool_calls" PNone) _)
    as [[tool_messages | e] st2]; reflexivity.
Qed.

(** [rounds pr depth st depth' st']: starting a call with [depth]
    activations left on [st], zero or more tool rounds complete, one
    activation each, and lead to the call on [st'] with [depth'] left. *)
Inductive rounds (print_request : bool) : nat -> state -> nat -> state -> Prop :=
| rounds_none depth st : rounds print_request depth st depth st
| rounds_more depth st response c m tool_messages st2 depth' st' :
    quiet E print_request st ->
    http_post E (posts st) (completion_request self (messages st)) = Ok response ->
    decoded E response (PDict c) ->
    get_or c "message" (PDict []) = PDict m ->
    is_tool_calls (get_or c "finish_reason" PNone) = true ->
    _process_tool_calls E self (get_or m "tool_calls" PNone)
      (began print_request st c m) = (Ok tool_messages, st2) ->
    rounds print_request depth
           (set_messages (messages st2 ++ tool_messages) st2) depth' st' ->
    rounds print_request (S depth) st depth' st'.

End WithEnv.

End Rounds.

(** ** Properties of the completion client *)

Module ClientProperties.
Import Frames Batch Completion Growth Rounds.

Lemma loads_raises_decode_error s e :
  Json.loads s = Raise e -> exn_cls e = JSONDecodeError.
Proof.
  unfold Json.loads.
  destruct (Json.scan_once _ _) as [[v r] |].
  - destruct (Json.skip_ws r); intros H; inversion H; reflexivity.
  - intros H; inversion H; reflexivity.
Qed.

Lemma py_get_defined v k d x k' d' :
  py_get v k d = Ok x -> exists y, py_get v k' d' = Ok y.
Proof. destruct v; try discriminate. intros _. eexists. reflexivity. Qed.

Section WithEnv.

Variable E : env.
Variable self : DialClient.

(** A request whose [arguments] text [json.loads] refuses with [e]. *)
Definition malformed_arguments (tool_call : pyval) (e : exn) : Prop :=
  exists function s,
    py_get tool_call "function" (PDict []) = Ok function
    /\ py_get function "arguments" (PStr "{}") = Ok (PStr s)
    /\ Json.loads s = Raise e.

Lemma process_tool_call_malformed tool_call e st :
  malformed_arguments tool_call e ->
  process_tool_call E self tool_call st = (Raise e, st).
Proof.
  intros [function [s [Hf [Ha He]]]].
  unfold process_tool_call, bind, lift.
  destruct (py_get_defined _ _ _ _ "id" PNone Hf) as [i ->].
  rewrite Hf.
  destruct (py_get_defined _ _ _ _ "name" PNone Ha) as [n ->].
  rewrite Ha. simpl. rewrite He. reflexivity.
Qed.

Lemma batch_malformed pre tool_call post e st :
  registry_ok self ->
  forallb well_formed_call pre = true ->
  malformed_arguments tool_call e ->
  exists st',
    _process_tool_calls E self (PList (pre ++ tool_call :: post)) st = (Raise e, st')
    /\ same_messages st st'.
Proof.
  intros Hreg Hpre Hbad.
  unfold _process_tool_calls, bind at 1, lift. simpl py_iter. cbv iota beta.
  rewrite process_loop_app. unfold bind.
  destruct (process_loop_returns E self pre Hreg Hpre [] st) as [msgs Hmsgs].
  pose proof (process_loop_frame E self pre Hreg [] st) as Hframe.
  destruct (process_loop E self pre [] st) as [[msgs' | e'] st1];
    simpl in Hmsgs; [| discriminate].
  simpl in Hframe. simpl process_loop. unfold bind.
  rewrite (process_tool_call_malformed _ _ _ Hbad).
  exists st1. split; [reflexivity | exact Hframe].
Qed.

(** C1, as amended. A request whose arguments text is not valid JSON makes
    the batch raise: when the requests before it are well formed,
    [_process_tool_calls] raises the decoder's [JSONDecodeError] at that
    request and returns no tool-result message; [get_completion] has appended
    the assistant message by then and lets the error through to its caller. *)
Theorem malformed_arguments_raise pre tool_call post e :
  registry_ok self ->
  forallb well_formed_call pre = true ->
  malformed_arguments tool_call e ->
  exn_cls e = JSONDecodeError
  /\ (forall st, exists st',
        _process_tool_calls E self (PList (pre ++ tool_call :: post)) st
        = (Raise e, st')
        /\ messages st' = messages st)
  /\ (forall depth print_request st response c m,
        quiet E print_request st ->
        http_post E (posts st) (completion_request self (messages st)) = Ok response ->
        decoded E response (PDict c) ->
        get_or c "message" (PDict []) = PDict m ->
        is_tool_calls (get_or c "finish_reason" PNone) = true ->
        get_or m "tool_calls" PNone = PList (pre ++ tool_call :: post) ->
        exists st',
          get_completion E (S depth) self print_request st = (Raise e, st')
          /\ messages st' = (messages st ++ [assistant_message m])%list).
Proof.
  intros Hreg Hpre Hbad. split; [| split].
  - destruct Hbad as [function [s [_ [_ He]]]].
    exact (loads_raises_decode_error _ _ He).
  - intros st.
    destruct (batch_malformed pre tool_call post e st Hreg Hpre Hbad)
      as [st' [Hrun [Hm _]]].
    exists st'. split; assumption.
  - intros depth print_request st response c m Hq Hpost Hdec Hm Hfin Hcalls.
    destruct (get_completion_round E self depth print_request st Hq) as [l1 Hround].
    rewrite Hround, Hpost.
    destruct (interpret_decoded E self print_request
                (get_completion E depth self print_request) response c m
                (posted (completion_request self (messages st)) (printed l1 st))
                Hdec Hm) as [l2 Hint].
    rewrite Hint, Hfin, Hcalls.
    unfold bind at 1. unfold print at 1.
    unfold bind at 1. unfold append at 1.
    unfold bind at 1.
    match goal with
    | |- context [_process_tool_calls E self _ ?s] =>
        destruct (batch_malformed pre tool_call post e s Hreg Hpre Hbad)
          as [st' [Hrun [Hmsg _]]]
    end.
    rewrite Hrun. exists st'. split; [reflexivity |].
    rewrite Hmsg. reflexivity.
Qed.

(** C2. When the finish reason of the answer is not [tool_calls],
    [get_completion] returns the assistant message built from the answer's
    content and the message list is what it was. *)
Theorem final_answer_appends_nothing depth print_request st response c m :
  quiet E print_request st ->
  http_post E (posts st) (completion_request self (messages st)) = Ok response ->
  decoded E response (PDict c) ->
  get_or c "message" (PDict []) = PDict m ->
  is_tool_calls (get_or c "finish_reason" PNone) = false ->
  exists st',
    get_completion E (S depth) self print_request st
    = (Ok (mkMessage AI (get_or m "content" (PStr "")) PNone PNone
                     (get_or m "tool_calls" PNone)), st')
    /\ messages st' = messages st
    /\ List.length (messages st') = List.length (messages st).
Proof.
  intros Hq Hpost Hdec Hm Hfin.
  destruct (round_final E self depth print_request st response c m
              Hq Hpost Hdec Hm Hfin) as [l Hrun].
  eexists. split; [exact Hrun |]. split; reflexivity.
Qed.

(** C10. A success whose body has no [choices], or an empty [choices]
    array, is read as an empty choice: [get_completion] returns an assistant
    message with empty content and no tool calls and appends nothing. *)
Theorem no_choices_gives_empty_message depth print_request st response body :
  quiet E print_request st ->
  http_post E (posts st) (completion_request self (messages st)) = Ok response ->
  status_code response = 200%Z ->
  Json.loads (text response) = Ok (PDict body) ->
  dict_get body "choices" = None \/ dict_get body "choices" = Some (PList []) ->
  exists st',
    get_completion E (S depth) self print_request st
    = (Ok (mkMessage AI (PStr "") PNone PNone PNone), st')
    /\ messages st' = messages st.
Proof.
  intros Hq Hpost H200 Hjson Hchoices.
  assert (Hdec : decoded E response (PDict [])).
  { split; [exact H200 |]. exists (PDict body), (PList []).
    split; [exact Hjson |]. split; [| reflexivity].
    simpl. destruct Hchoices as [-> | ->]; reflexivity. }
  destruct (round_final E self depth print_request st response [] []
              Hq Hpost Hdec eq_refl eq_refl) as [l Hrun].
  eexists. split; [exact Hrun | reflexivity].
Qed.

Lemma batch_results items st msgs st' :
  _process_tool_calls E self (PList items) st = (Ok msgs, st') ->
  Forall2 result_for items msgs.
Proof.
  intros Hrun. unfold _process_tool_calls, bind, lift in Hrun. simpl in Hrun.
  destruct (process_loop_results E self items _ _ _ _ Hrun) as [new [-> Hnew]].
  exact Hnew.
Qed.

Lemma batch_returns items st :
  registry_ok self -> forallb well_formed_call items = true ->
  exists msgs st',
    _process_tool_calls E self (PList items) st = (Ok msgs, st')
    /\ Forall2 result_for items msgs.
Proof.
  intros Hreg Hwf.
  destruct (process_loop_returns E self items Hreg Hwf [] st) as [msgs Hmsgs].
  destruct (_process_tool_calls E self (PList items) st) as [[msgs' | e] st'] eqn:Hrun.
  - exists msgs', st'. split; [reflexivity | exact (batch_results _ _ _ _ Hrun)].
  - unfold _process_tool_calls, bind, lift in Hrun. simpl in Hrun.
    rewrite Hrun in Hmsgs. discriminate.
Qed.

(** C3. The tool-result messages of a batch answer its requests one by one
    and in order: as many messages as requests, the i-th a tool message with
    the i-th request's id and function name.  A batch of well-formed
    requests over well-behaved tools does produce them. *)
Theorem tool_results_follow_requests items st :
  (forall msgs st',
     _process_tool_calls E self (PList items) st = (Ok msgs, st') ->
     List.length msgs = List.length items /\ Forall2 result_for items msgs)
  /\ (registry_ok self -> forallb well_formed_call items = true ->
      exists msgs st', _process_tool_calls E self (PList items) st = (Ok msgs, st')).
Proof.
  split.
  - intros msgs st' Hrun. pose proof (batch_results _ _ _ _ Hrun) as Hres.
    split; [symmetry; exact (Forall2_length Hres) | exact Hres].
  - intros Hreg Hwf.
    destruct (batch_returns items st Hreg Hwf) as [msgs [st' [Hrun _]]].
    exists msgs, st'. exact Hrun.
Qed.

(** The first thing a call with depth left does to the log of POSTs is to
    add its request. *)
Lemma first_post depth print_request st :
  registry_ok self ->
  quiet E print_request st ->
  exists later,
    posts (snd (get_completion E (S depth) self print_request st))
    = (posts st ++ completion_request self (messages st) :: later)%list.
Proof.
  intros Hreg Hq.
  destruct (get_completion_round E self depth print_request st Hq) as [l Hround].
  rewrite Hround.
  destruct (http_post E (posts st) (completion_request self (messages st)))
    as [response | e].
  - destruct (interpret_extended E self Hreg print_request
                (get_completion E depth self print_request) response
                (get_completion_extended E self Hreg depth print_request)
                (posted (completion_request self (messages st)) (printed l st)))
      as [_ [extra Hextra]].
    exists extra. rewrite Hextra. simpl. rewrite <- app_assoc. reflexivity.
  - exists []. reflexivity.
Qed.


Lemma failed_now depth print_request st response :
  quiet E print_request st ->
  http_post E (posts st) (completion_request self (messages st)) = Ok response ->
  status_code response <> 200%Z ->
  exists st',
    get_completion E (S depth) self print_request st
    = (Raise (mkExn Exception
                ("API request failed with status "
                 ++ string_of_Z (status_code response) ++ ": "
                 ++ text response)), st')
    /\ messages st' = messages st
    /\ posts st' = (posts st ++ [completion_request self (messages st)])%list.
Proof.
  intros Hq Hpost Hstatus.
  destruct (get_completion_round E self depth print_request st Hq) as [l Hround].
  rewrite Hround, Hpost, (interpret_failure E self _ _ _ _ Hstatus).
  eexists. split; [reflexivity |]. split; reflexivity.
Qed.

(** Completed tool rounds only add assistant and tool messages. *)
Lemma rounds_extend print_request depth st depth' st' :
  registry_ok self ->
  rounds E self print_request depth st depth' st' ->
  exists added,
    messages st' = (messages st ++ added)%list /\ Forall intermediate added.
Proof.
  intros Hreg H. induction H as [depth st | depth st response c m tms st2 depth' st'
                                   Hq Hpost Hdec Hm Hfin Hrun _ IH].
  - exists []. split; [symmetry; apply app_nil_r | constructor].
  - destruct IH as [added [Hadded Hroles]].
    destruct (began_frame E self print_request st c m Hq) as [Hbm _].
    pose proof (process_tool_calls_frame E self Hreg
                  (get_or m "tool_calls" PNone)
                  (began E self print_request st c m)) as [Hsame _].
    rewrite Hrun in Hsame. cbn [snd] in Hsame.
    destruct (process_tool_calls_results E self _ _ _ _ Hrun)
      as [items [_ Hres]].
    exists ((assistant_message m :: tms) ++ added)%list. split.
    + rewrite Hadded. cbn [set_messages messages].
      rewrite Hsame, Hbm, <- !app_assoc. reflexivity.
    + apply Forall_app. split; [| exact Hroles].
      constructor; [left; reflexivity | exact (results_intermediate _ _ Hres)].
Qed.

Lemma fails_after_rounds print_request depth st target st_k :
  rounds E self print_request depth st target st_k ->
  forall depth' response,
    target = S depth' ->
    quiet E print_request st_k ->
    http_post E (posts st_k) (completion_request self (messages st_k)) = Ok response ->
    status_code response <> 200%Z ->
    exists st',
      get_completion E depth self print_request st
      = (Raise (mkExn Exception
                  ("API request failed with status "
                   ++ string_of_Z (status_code response) ++ ": "
                   ++ text response)), st')
      /\ messages st' = messages st_k
      /\ posts st' = (posts st_k ++ [completion_request self (messages st_k)])%list.
Proof.
  induction 1 as [depth st | depth st response1 c m tms st2 target st_k
                    Hq1 Hpost1 Hdec Hm Hfin Hrun _ IH];
    intros depth' response Htarget Hq Hpost Hstatus.
  - subst depth. exact (failed_now depth' print_request st response Hq Hpost Hstatus).
  - destruct (IH depth' response Htarget Hq Hpost Hstatus) as [st' [Hfail Hrest]].
    exists st'. split; [| exact Hrest].
    rewrite (round_explicit E self depth print_request st response1 c m
               Hq1 Hpost1 Hdec Hm Hfin), Hrun.
    exact Hfail.
Qed.

(** C5, as amended. A call whose request is answered with a non-success
    status raises [Exception] with the status and the body, after that one
    request, and leaves the message list as it found it.  A call never
    removes or reorders messages: whatever its outcome, the list afterwards
    is the list before followed by the assistant and tool messages of the
    tool rounds that were completed.  And when the non-success status
    answers a later request of the call, after tool rounds that completed,
    the same [Exception] reaches the caller of the whole call, after that one
    request, with the list as those rounds left it. *)
Theorem failed_request_raises_once :
  registry_ok self ->
  (forall depth print_request st response,
     quiet E print_request st ->
     http_post E (posts st) (completion_request self (messages st)) = Ok response ->
     status_code response <> 200%Z ->
     exists st',
       get_completion E (S depth) self print_request st
       = (Raise (mkExn Exception
                   ("API request failed with status "
                    ++ string_of_Z (status_code response) ++ ": "
                    ++ text response)), st')
       /\ messages st' = messages st
       /\ posts st' = (posts st ++ [completion_request self (messages st)])%list)
  /\ (forall depth print_request st,
        exists added,
          messages (snd (get_completion E depth self print_request st))
          = (messages st ++ added)%list
          /\ Forall intermediate added)
  /\ (forall depth print_request st depth' st_k response,
        rounds E self print_request depth st (S depth') st_k ->
        quiet E print_request st_k ->
        http_post E (posts st_k) (completion_request self (messages st_k))
        = Ok response ->
        status_code response <> 200%Z ->
        exists st',
          get_completion E depth self print_request st
          = (Raise (mkExn Exception
                      ("API request failed with status "
                       ++ string_of_Z (status_code response) ++ ": "
                       ++ text response)), st')
          /\ messages st' = messages st_k
          /\ posts st'
             = (posts st_k ++ [completion_request self (messages st_k)])%list
          /\ exists added,
               messages st_k = (messages st ++ added)%list
               /\ Forall intermediate added).
Proof.
  intros Hreg. split; [| split].
  - intros depth print_request st response Hq Hpost Hstatus.
    exact (failed_now depth print_request st response Hq Hpost Hstatus).
  - intros depth print_request st.
    destruct (get_completion_extended E self Hreg depth print_request st)
      as [Hadded _].
    exact Hadded.
  - intros depth print_request st depth' st_k response Hrounds Hq Hpost Hstatus.
    destruct (fails_after_rounds _ _ _ _ _ Hrounds depth' response eq_refl
                Hq Hpost Hstatus) as [st' [Hfail [Hm Hp]]].
    exists st'. split; [exact Hfail |]. split; [exact Hm |].
    split; [exact Hp | exact (rounds_extend _ _ _ _ _ Hreg Hrounds)].
Qed.

End WithEnv.

End ClientProperties.

(** ** Properties of the add_user tool *)

Module ToolProperties.
Import Frames.

Lemma append_assoc (a b c : string) : (a ++ b) ++ c = a ++ (b ++ c).
Proof. induction a as [| x a IH]; simpl; [reflexivity | rewrite IH; reflexivity]. Qed.

Lemma append_nil_r (a : string) : a ++ "" = a.
Proof. induction a as [| x a IH]; simpl; [reflexivity | rewrite IH; reflexivity]. Qed.

Lemma contains_refl s : contains s s.
Proof. exists "", "". simpl. symmetry. apply append_nil_r. Qed.

Lemma contains_app_l a b x : contains b x -> contains (a ++ b) x.
Proof.
  intros [pre [post ->]]. exists (a ++ pre), post. symmetry. apply append_assoc.
Qed.

Lemma contains_app_r a b x : contains a x -> contains (a ++ b) x.
Proof.
  intros [pre [post ->]]. exists pre, (post ++ b).
  rewrite !append_assoc. reflexivity.
Qed.

Lemma contains_concat (g : string -> string) x l :
  In x l -> contains (String.concat "" (map g l)) (g x).
Proof.
  induction l as [| y l IH]; intros Hin; [contradiction |].
  simpl map. simpl String.concat.
  destruct Hin as [-> | Hin].
  - destruct (map g l); [apply contains_refl | apply contains_app_r, contains_refl].
  - specialize (IH Hin). destruct (map g l) as [| z zs] eqn:Hmap.
    + destruct l; [contradiction | discriminate].
    + apply contains_app_l. simpl. exact IH.
Qed.

Section WithEnv.

Variable E : env.

Lemma missing_field_listed d f :
  In f UserCreate_required -> dict_get d f = None ->
  In (field_required f) (required_errors d).
Proof.
  intros Hin Hmiss. unfold required_errors. apply in_flat_map.
  exists f. split; [exact Hin |]. rewrite Hmiss. left. reflexivity.
Qed.

(** C7. When required fields are missing from the arguments, [execute] of
    the add_user tool returns the text [Error: Invalid user data - ...] that
    lists every missing field as [Field required], without calling the user
    service or changing anything else; and whatever its arguments, [execute]
    returns a value. *)
Theorem add_user_reports_missing_fields (d : dict) (st : state) :
  (exists f, In f UserCreate_required /\ dict_get d f = None) ->
  (exists msg,
     execute (CreateUserTool E) (PDict d) st = (Ok (PStr msg), st)
     /\ contains msg "Error: Invalid user data"
     /\ forall f, In f UserCreate_required -> dict_get d f = None ->
                  contains msg (nl ++ field_required f))
  /\ service_log (snd (execute (CreateUserTool E) (PDict d) st)) = service_log st
  /\ forall arguments st0, exists v st1,
       execute (CreateUserTool E) arguments st0 = (Ok v, st1).
Proof.
  intros [f0 [Hin0 Hmiss0]].
  assert (Herr : exists e0 es,
             (required_errors d ++ UserCreate_optional_errors E d)%list = e0 :: es).
  { pose proof (missing_field_listed d f0 Hin0 Hmiss0) as Hl.
    destruct (required_errors d) as [| e0 es]; [contradiction |].
    exists e0, (es ++ UserCreate_optional_errors E d)%list. reflexivity. }
  destruct Herr as [e0 [es Herr]].
  assert (Hrun : execute (CreateUserTool E) (PDict d) st
                 = (Ok (PStr ("Error: Invalid user data - "
                              ++ validation_message "UserCreate"
                                   (required_errors d
                                    ++ UserCreate_optional_errors E d)%list)), st)).
  { simpl execute. unfold CreateUserTool_execute, try_, try_except, bind, lift.
    unfold UserCreate_model_validate. rewrite Herr. reflexivity. }
  split; [| split].
  - eexists. split; [exact Hrun |]. split.
    + exists "", (" - " ++ validation_message "UserCreate"
                           (required_errors d ++ UserCreate_optional_errors E d)%list).
      reflexivity.
    + intros f Hin Hmiss.
      apply contains_app_l. unfold validation_message.
      do 3 apply contains_app_l.
      apply (contains_concat (fun line => nl ++ line)).
      apply in_or_app. left. exact (missing_field_listed d f Hin Hmiss).
  - rewrite Hrun. reflexivity.
  - intros arguments st0.
    destruct (CreateUserTool_well_behaved E arguments) as [Hret _].
    destruct (Hret st0) as [v Hv].
    exists v, (snd (execute (CreateUserTool E) arguments st0)).
    destruct (execute (CreateUserTool E) arguments st0) as [o s];
      simpl in *; subst; reflexivity.
Qed.

End WithEnv.

End ToolProperties.

(** ** Properties of the session driver *)

Module AppProperties.
Import Completion.

Section WithEnv.

Variable E : env.

(** The state in which the driver asks for a completion: the user message
    is in the conversation and the notice is printed. *)
Definition asking (user_input : string) (st : state) : state :=
  printed [nl ++ "🤔 Thinking..."]
    (set_messages
       (messages st ++ [mkMessage USER (PStr user_input) PNone PNone PNone]) st).

Definition error_lines (e : exn) : list string :=
  [nl ++ "❌ Error: " ++ exn_str e; "Please try again." ++ nl].

(** What the driver prints for the assistant's answer. *)
Definition answer_lines (ai_response : Message) : list string :=
  [nl ++ "🤖 Assistant:"; py_str E (content ai_response);
   nl ++ repeat_string "-" 60 ++ nl].

Lemma turn_body_asks depth dial_client line st :
  mem_string (lower (strip line)) exit_keywords = false ->
  strip line <> "" ->
  turn_body E depth dial_client line st =
  match get_completion E depth dial_client false (asking (strip line) st) with
  | (Ok ai_response, st1) =>
      (Ok Continue,
       printed (answer_lines ai_response)
         (set_messages (messages st1 ++ [ai_response]) st1))
  | (Raise e, st1) => (Raise e, st1)
  end.
Proof.
  intros Hexit Hne. unfold turn_body. rewrite Hexit.
  apply String.eqb_neq in Hne. rewrite Hne.
  unfold bind at 1. unfold add_message, append at 1.
  unfold bind at 1. unfold print at 1.
  unfold bind at 1. fold (asking (strip line) st).
  change (mkState
            (messages (set_messages
               (messages st ++ [mkMessage USER (PStr (strip line)) PNone PNone PNone]) st))
            (posts (set_messages
               (messages st ++ [mkMessage USER (PStr (strip line)) PNone PNone PNone]) st))
            (service_log (set_messages
               (messages st ++ [mkMessage USER (PStr (strip line)) PNone PNone PNone]) st))
            (stdout (set_messages
               (messages st ++ [mkMessage USER (PStr (strip line)) PNone PNone PNone]) st)
             ++ [nl ++ "🤔 Thinking..."]))
    with (asking (strip line) st).
  destruct (get_completion E depth dial_client false (asking (strip line) st))
    as [[ai_response | e] st1]; [| reflexivity].
  unfold bind, append, print, ret, printed, set_messages. simpl.
  rewrite <- !app_assoc. reflexivity.
Qed.

(** C8. One turn of the driver on a line of input: an exit keyword (after
    stripping, in any letter case) ends the loop; an empty line changes
    nothing and the loop goes on; any other line is appended as a user
    message, a completion is asked for on the conversation, and the message
    it returns is appended and its content printed.  Without an API key the
    program prints the notice and exits with status 1. *)
Theorem driver_turn depth dial_client line rest st :
  (mem_string (lower (strip line)) exit_keywords = true ->
   exists st',
     loop E depth dial_client (Line line :: rest) st = (Ok (Some Break), st')
     /\ messages st' = messages st)
  /\ (mem_string (lower (strip line)) exit_keywords = false ->
      strip line = "" ->
      loop E depth dial_client (Line line :: rest) st
      = loop E depth dial_client rest st)
  /\ (mem_string (lower (strip line)) exit_keywords = false ->
      strip line <> "" ->
      forall ai_response st1,
        get_completion E depth dial_client false (asking (strip line) st)
        = (Ok ai_response, st1) ->
        exists st',
          loop E depth dial_client (Line line :: rest) st
          = loop E depth dial_client rest st'
          /\ messages st' = (messages st1 ++ [ai_response])%list
          /\ stdout st' = (stdout st1 ++ answer_lines ai_response)%list)
  /\ (forall API_KEY evs,
        API_KEY = None \/ API_KEY = Some "" ->
        exists st', program E depth API_KEY evs st = (Exit 1, st')
                    /\ messages st' = messages st /\ posts st' = posts st).
Proof.
  split; [| split; [| split]].
  - intros Hexit. simpl loop. unfold bind at 1. unfold turn, try_except.
    unfold turn_body. rewrite Hexit.
    eexists. split; [reflexivity | reflexivity].
  - intros Hexit Hempty. simpl loop. unfold bind at 1. unfold turn, try_except.
    unfold turn_body. rewrite Hexit, Hempty. reflexivity.
  - intros Hexit Hne ai_response st1 Hrun.
    simpl loop. unfold bind at 1. unfold turn, try_except.
    rewrite (turn_body_asks depth dial_client line st Hexit Hne), Hrun.
    eexists. split; [reflexivity |]. split; reflexivity.
  - intros API_KEY evs [-> | ->]; eexists; (split; [reflexivity | split; reflexivity]).
Qed.

(** C9. Whatever exception the completion client or anything below it
    raises during a turn, the driver catches it, prints the error and the
    invitation to try again, and goes on with the next input: an exception
    of [get_completion] is an exception of the turn's body, and every
    exception of the body is caught. *)
Theorem driver_reports_exceptions depth dial_client line rest st e st1 :
  (mem_string (lower (strip line)) exit_keywords = false ->
   strip line <> "" ->
   get_completion E depth dial_client false (asking (strip line) st)
   = (Raise e, st1) ->
   turn_body E depth dial_client line st = (Raise e, st1))
  /\ (turn_body E depth dial_client line st = (Raise e, st1) ->
      turn E depth dial_client (Line line) st
      = (Ok Continue, printed (error_lines e) st1)
      /\ loop E depth dial_client (Line line :: rest) st
         = loop E depth dial_client rest (printed (error_lines e) st1)
      /\ messages (printed (error_lines e) st1) = messages st1).
Proof.
  split.
  - intros Hexit Hne Hrun.
    rewrite (turn_body_asks depth dial_client line st Hexit Hne), Hrun.
    reflexivity.
  - intros Hbody.
    assert (Hturn : turn E depth dial_client (Line line) st
                    = (Ok Continue, printed (error_lines e) st1)).
    { unfold turn, try_except. rewrite Hbody.
      unfold any_Exception, report_error, bind, print, ret, printed, error_lines.
      simpl. rewrite <- app_assoc. reflexivity. }
    split; [exact Hturn |]. split; [| reflexivity].
    cbn [loop]. unfold bind at 1. rewrite Hturn. reflexivity.
Qed.

End WithEnv.

End AppProperties.

(** ** The scenarios, run *)

Module Scenarios.
Import Frames Batch Completion Growth Rounds Examples.
Import ClientProperties ToolProperties AppProperties.

Lemma app_client_registry_ok E k : registry_ok (app_client E k).
Proof.
  intros n t H. unfold app_client in H. simpl tools_dict in H.
  unfold Dispatch.app_registry in H.
  destruct (Dispatch.registered_In _ _ _ _ H) as [Hin | Habs]; [| discriminate].
  exact (Dispatch.app_tools_well_behaved E k t Hin).
Qed.

(** The first choice of a scripted answer, its message and its tool calls. *)
Definition first_choice (r : response) : dict :=
  match parsed (text r) with
  | PDict body =>
      match dict_get body "choices" with
      | Some (PList (PDict c :: _)) => c
      | _ => []
      end
  | _ => []
  end.

Definition choice_message (c : dict) : dict :=
  match dict_get c "message" with
  | Some (PDict m) => m
  | _ => []
  end.

Definition requested (m : dict) : list pyval :=
  match dict_get m "tool_calls" with
  | Some (PList items) => items
  | _ => []
  end.

Definition choices_of (r : response) : pyval :=
  match parsed (text r) with
  | PDict body => get_or body "choices" (PList [])
  | _ => PNone
  end.

Ltac run := vm_compute; reflexivity.

Ltac show_decoded r :=
  split; [reflexivity |];
  exists (parsed (text r)), (choices_of r);
  split; [run | split; run].

(** Section 8: the answer is "Hello" and the finish reason is "stop". *)
Definition E_hello : env := scripted [says "Hello"].

Lemma final_answer_appends_nothing_witness :
  exists st',
    get_completion E_hello 1 (app_client E_hello "k") false (start [user_says "Hi"])
    = (Ok (mkMessage AI (PStr "Hello") PNone PNone PNone), st')
    /\ messages st' = [user_says "Hi"]
    /\ List.length (messages st') = 1%nat.
Proof.
  apply (final_answer_appends_nothing E_hello (app_client E_hello "k") 0 false
           (start [user_says "Hi"]) (says "Hello")
           (first_choice (says "Hello"))
           (choice_message (first_choice (says "Hello")))).
  - intros H. discriminate H.
  - reflexivity.
  - show_decoded (says "Hello").
  - run.
  - run.
Defined.

(** An answer without choices. *)
Definition E_empty : env := scripted [mkResponse 200 "{}"].

Lemma no_choices_gives_empty_message_witness :
  exists st',
    get_completion E_empty 1 (app_client E_empty "k") false (start [user_says "Hi"])
    = (Ok (mkMessage AI (PStr "") PNone PNone PNone), st')
    /\ messages st' = [user_says "Hi"].
Proof.
  apply (no_choices_gives_empty_message E_empty (app_client E_empty "k") 0 false
           (start [user_says "Hi"]) (mkResponse 200 "{}") []).
  - intros H. discriminate H.
  - reflexivity.
  - reflexivity.
  - run.
  - left. reflexivity.
Defined.

(** A batch of two requests, the second for a tool that does not exist. *)
Definition two_calls : list pyval := [parsed get_user_42; parsed unknown_call].

Lemma tool_results_follow_requests_witness :
  exists msgs st',
    _process_tool_calls E_hello (app_client E_hello "k") (PList two_calls) (start [])
    = (Ok msgs, st')
    /\ List.length msgs = List.length two_calls
    /\ Forall2 result_for two_calls msgs.
Proof.
  destruct (tool_results_follow_requests E_hello (app_client E_hello "k")
              two_calls (start [])) as [Hres Hex].
  assert (Hwf : forallb well_formed_call two_calls = true) by run.
  destruct (Hex (app_client_registry_ok E_hello "k") Hwf) as [msgs [st' Hrun]].
  exists msgs, st'. split; [exact Hrun | exact (Hres msgs st' Hrun)].
Defined.

(** Section 8: one call of get_user_by_id for user 42, then "Hello". *)
Definition E_tools : env := scripted [asks_for_tools get_user_42; says "Hello"].

Definition asked_42 : state := start [user_says "who is 42"].

Definition m_42 : dict := choice_message (first_choice (asks_for_tools get_user_42)).

Definition c_42 : dict := first_choice (asks_for_tools get_user_42).




(** With the debugging output switched on, an answer that asks for tools
    with a null content, as endpoints send it, stops the call after the
    round: the tool ran and its message was appended, but the next
    activation fails on [len(None)] before it sends its request. *)
Definition asks_with_null_content : response :=
  mkResponse 200
    ("{" ++ q "choices" ++ ": [{" ++ q "finish_reason" ++ ": " ++ q "tool_calls"
     ++ ", " ++ q "message" ++ ": {" ++ q "content" ++ ": null"
     ++ ", " ++ q "tool_calls" ++ ": [" ++ get_user_42 ++ "]}}]}").

Definition E_null_round : env := scripted [asks_with_null_content; says "Hello"].

Example debugging_output_stops_round :
  let run := get_completion E_null_round 3 (app_client E_null_round "k") true asked_42 in
  fst run = Raise (mkExn TypeError "object of type 'NoneType' has no len()")
  /\ map role (messages (snd run)) = [USER; AI; TOOL]
  /\ List.length (posts (snd run)) = 1%nat
  /\ service_log (snd run) = [get_user 42].
Proof. split; [run | split; [run | split; run]]. Qed.

(** The scenario of section 8, evaluated: the second request carries the
    tool result of the first round. *)
Example second_request_carries_tool_result :
  let run := get_completion E_tools 2 (app_client E_tools "k") false asked_42 in
  fst run = Ok (mkMessage AI (PStr "Hello") PNone PNone PNone)
  /\ map json (skipn 1 (posts (snd run)))
     = [PDict
          [("messages",
            PList (map to_dict
                     [user_says "who is 42";
                      assistant_message m_42;
                      mkMessage TOOL (PStr "User 42: Jane") (PStr "1")
                                (PStr "get_user_by_id") PNone]));
           ("tools", PList (tools (app_client E_tools "k")))]]
  /\ to_dict (mkMessage TOOL (PStr "User 42: Jane") (PStr "1")
                        (PStr "get_user_by_id") PNone)
     = PDict [("role", PStr "tool"); ("content", PStr "User 42: Jane");
              ("tool_call_id", PStr "1"); ("name", PStr "get_user_by_id")].
Proof. split; [run | split; run]. Qed.

(** A request whose arguments are not JSON. *)
Definition E_broken : env := scripted [asks_for_tools broken_call; says "Hello"].

Lemma broken_call_malformed :
  malformed_arguments (parsed broken_call) Json.decode_error.
Proof.
  exists (PDict [("name", PStr "get_user_by_id"); ("arguments", PStr "{bad")]),
         "{bad".
  split; [run | split; run].
Qed.

Lemma malformed_arguments_raise_witness :
  exn_cls Json.decode_error = JSONDecodeError
  /\ exists st',
       _process_tool_calls E_broken (app_client E_broken "k")
         (PList [parsed get_user_42; parsed broken_call]) (start [])
       = (Raise Json.decode_error, st')
       /\ messages st' = [].
Proof.
  assert (Hpre : forallb well_formed_call [parsed get_user_42] = true) by run.
  destruct (malformed_arguments_raise E_broken (app_client E_broken "k")
              [parsed get_user_42] (parsed broken_call) [] Json.decode_error
              (app_client_registry_ok E_broken "k") Hpre broken_call_malformed)
    as [Hcls [Hbatch _]].
  split; [exact Hcls | exact (Hbatch (start []))].
Defined.

(** C1 as stated fails: the batch with the broken request produces no
    tool-result message, it raises; and so does the completion that asked
    for it, after appending the assistant message only. *)
Lemma malformed_arguments_counterexample :
  ~ (exists msgs st',
       _process_tool_calls E_broken (app_client E_broken "k")
         (PList [parsed broken_call]) (start [])
       = (Ok msgs, st'))
  /\ fst (_process_tool_calls E_broken (app_client E_broken "k")
            (PList [parsed broken_call]) (start []))
     = Raise (mkExn JSONDecodeError "Expecting value")
  /\ fst (get_completion E_broken 3 (app_client E_broken "k") false asked_42)
     = Raise (mkExn JSONDecodeError "Expecting value")
  /\ map role (messages (snd (get_completion E_broken 3 (app_client E_broken "k")
                                false asked_42)))
     = [USER; AI].
Proof.
  split; [| split; [run | split; run]].
  intros [msgs [st' H]]. vm_compute in H. discriminate H.
Qed.

(** A failing endpoint, at once and after a tool round. *)
Definition E_down : env := scripted [server_error].
Definition E_late_failure : env := scripted [asks_for_tools get_user_42; server_error].

(** What the first round of the late failure leaves behind. *)
Definition late_batch : outcome (list Message) * state :=
  _process_tool_calls E_late_failure (app_client E_late_failure "k")
    (get_or m_42 "tool_calls" PNone)
    (began E_late_failure (app_client E_late_failure "k") false asked_42 c_42 m_42).

Definition late_state : state :=
  set_messages
    (messages (snd late_batch)
     ++ match fst late_batch with Ok tms => tms | Raise _ => [] end)
    (snd late_batch).

Lemma late_round :
  rounds E_late_failure (app_client E_late_failure "k") false 3 asked_42 2 late_state.
Proof.
  apply (rounds_more E_late_failure (app_client E_late_failure "k") false 2 asked_42
           (asks_for_tools get_user_42) c_42 m_42
           (match fst late_batch with Ok tms => tms | Raise _ => [] end)
           (snd late_batch) 2 late_state).
  - intros H. discriminate H.
  - reflexivity.
  - show_decoded (asks_for_tools get_user_42).
  - run.
  - run.
  - run.
  - apply rounds_none.
Qed.

Lemma failed_request_raises_once_witness :
  (exists st',
     get_completion E_down 1 (app_client E_down "k") false asked_42
     = (Raise (mkExn Exception
                 ("API request failed with status "
                  ++ string_of_Z (status_code server_error) ++ ": "
                  ++ text server_error)), st')
     /\ messages st' = messages asked_42
     /\ posts st'
        = (posts asked_42
           ++ [completion_request (app_client E_down "k") (messages asked_42)])%list)
  /\ (exists st',
        get_completion E_late_failure 3 (app_client E_late_failure "k") false asked_42
        = (Raise (mkExn Exception
                    ("API request failed with status "
                     ++ string_of_Z (status_code server_error) ++ ": "
                     ++ text server_error)), st')
        /\ messages st' = messages late_state
        /\ map role (messages late_state) = [USER; AI; TOOL]).
Proof.
  split.
  - destruct (failed_request_raises_once E_down (app_client E_down "k")
                (app_client_registry_ok E_down "k")) as [Hfail _].
    apply (Hfail 0%nat false asked_42 server_error).
    + intros H. discriminate H.
    + reflexivity.
    + intros H. vm_compute in H. discriminate H.
  - destruct (failed_request_raises_once E_late_failure
                (app_client E_late_failure "k")
                (app_client_registry_ok E_late_failure "k")) as [_ [_ Hlate]].
    destruct (Hlate 3%nat false asked_42 1%nat late_state server_error late_round)
      as [st' [Hfail [Hm _]]].
    + intros H. discriminate H.
    + run.
    + intros H. vm_compute in H. discriminate H.
    + exists st'. split; [exact Hfail |]. split; [exact Hm | run].
Defined.

(** C5 as stated fails: the endpoint answers the second request of the call
    with status 500, the call raises, and the caller's list has kept the
    assistant and tool messages of the first round. *)
Lemma failed_request_counterexample :
  fst (get_completion E_late_failure 3 (app_client E_late_failure "k") false asked_42)
  = Raise (mkExn Exception
             "API request failed with status 500: Internal Server Error")
  /\ messages (snd (get_completion E_late_failure 3
                      (app_client E_late_failure "k") false asked_42))
     <> messages asked_42
  /\ map role (messages (snd (get_completion E_late_failure 3
                                (app_client E_late_failure "k") false asked_42)))
     = [USER; AI; TOOL].
Proof.
  split; [run | split; [| run]].
  intros H. vm_compute in H. discriminate H.
Qed.

Lemma add_user_reports_missing_fields_witness :
  exists msg,
    execute (CreateUserTool E_hello) (PDict [("name", PStr "A")]) (start [])
    = (Ok (PStr msg), start [])
    /\ contains msg "Error: Invalid user data"
    /\ contains msg (nl ++ field_required "surname")
    /\ contains msg (nl ++ field_required "email")
    /\ contains msg (nl ++ field_required "about_me").
Proof.
  assert (Hmiss : exists f, In f UserCreate_required
                            /\ dict_get [("name", PStr "A")] f = None).
  { exists "surname". split; [right; left; reflexivity | reflexivity]. }
  destruct (add_user_reports_missing_fields E_hello [("name", PStr "A")] (start [])
              Hmiss) as [[msg [Hrun [Herr Hfields]]] _].
  exists msg. split; [exact Hrun |]. split; [exact Herr |].
  split; [| split].
  - apply Hfields; [right; left; reflexivity | reflexivity].
  - apply Hfields; [right; right; left; reflexivity | reflexivity].
  - apply Hfields; [right; right; right; left; reflexivity | reflexivity].
Defined.

Lemma driver_turn_witness :
  (exists st',
     loop E_hello 3 (app_client E_hello "k") [Line " EXIT "; Line "more"] (start [])
     = (Ok (Some Break), st')
     /\ messages st' = [])
  /\ loop E_hello 3 (app_client E_hello "k") [Line "   "; Line "Bye"] (start [])
     = loop E_hello 3 (app_client E_hello "k") [Line "Bye"] (start [])
  /\ (exists st',
        loop E_hello 3 (app_client E_hello "k") [Line " hi "] (start [])
        = loop E_hello 3 (app_client E_hello "k") [] st'
        /\ messages st'
           = [user_says "hi"; mkMessage AI (PStr "Hello") PNone PNone PNone])
  /\ exists st', program E_hello 3 None [Line "hi"] (start []) = (Exit 1, st')
                 /\ messages st' = [] /\ posts st' = [].
Proof.
  split; [| split; [| split]].
  - apply (proj1 (driver_turn E_hello 3 (app_client E_hello "k") " EXIT "
                    [Line "more"] (start []))).
    run.
  - apply (proj1 (proj2 (driver_turn E_hello 3 (app_client E_hello "k") "   "
                           [Line "Bye"] (start [])))).
    + run.
    + run.
  - destruct (proj1 (proj2 (proj2
                (driver_turn E_hello 3 (app_client E_hello "k") " hi " []
                   (start [])))))
      with (ai_response := mkMessage AI (PStr "Hello") PNone PNone PNone)
           (st1 := snd (get_completion E_hello 3 (app_client E_hello "k") false
                          (asking (strip " hi ") (start []))))
      as [st' [Hloop [Hmsgs _]]].
    + run.
    + intros H. vm_compute in H. discriminate H.
    + run.
    + exists st'. split; [exact Hloop |]. rewrite Hmsgs. run.
  - apply (proj2 (proj2 (proj2
             (driver_turn E_hello 3 (app_client E_hello "k") "x" [] (start []))))
             None [Line "hi"]).
    left. reflexivity.
Defined.

Definition failure_500 : exn :=
  mkExn Exception "API request failed with status 500: Internal Server Error".

Lemma driver_reports_exceptions_witness :
  let st1 := snd (get_completion E_down 3 (app_client E_down "k") false
                    (asking (strip "hi") (start []))) in
  turn E_down 3 (app_client E_down "k") (Line "hi") (start [])
  = (Ok Continue, printed (error_lines failure_500) st1)
  /\ loop E_down 3 (app_client E_down "k") [Line "hi"; Line "exit"] (start [])
     = loop E_down 3 (app_client E_down "k") [Line "exit"]
         (printed (error_lines failure_500) st1)
  /\ messages (printed (error_lines failure_500) st1) = messages st1.
Proof.
  intros st1.
  destruct (driver_reports_exceptions E_down 3 (app_client E_down "k") "hi"
              [Line "exit"] (start []) failure_500 st1) as [Hbody Hcaught].
  apply Hcaught. apply Hbody.
  - run.
  - intros H. vm_compute in H. discriminate H.
  - run.
Defined.




End Scenarios.

(** ** What each tool does with its arguments *)

Module ToolBehaviour.

(** The state after one more call of the user service. *)
Definition called (c : service_call) (st : state) : state :=
  mkState (messages st) (posts st) (service_log st ++ [c])%list (stdout st).

Ltac run_tool :=
  cbn [execute GetUserByIdTool DeleteUserTool UpdateUserTool CreateUserTool
       SearchUsersTool WebSearchTool];
  unfold GetUserByIdTool_execute, DeleteUserTool_execute, UpdateUserTool_execute,
         CreateUserTool_execute, SearchUsersTool_execute, WebSearchTool_execute,
         call_search_users,
         try_, try_except, bind, lift, ret, raise, user_client, requests_post,
         any_Exception;
  cbn [first_handler fst snd exn_cls exn_str].

Section WithEnv.

Variable E : env.

(** The text a tool returns when the user service answers [o]: the answer,
    or the error after the prefix of the [except] clause that catches it. *)
Definition service_text (o : outcome string) (on_value_error on_error : string)
  : pyval :=
  match o with
  | Ok r => PStr r
  | Raise e =>
      PStr ((if is_ValueError (exn_cls e) then on_value_error else on_error)
            ++ exn_str e)
  end.

(** get_user_by_id: without an id, or with an id that [int] refuses, the
    tool answers with an error text and the user service is not called;
    with an id that [int] turns into [z] the service is called once, for
    user [z], and its answer or its error is the result. *)
Theorem get_user_by_id_behaviour (d : dict) (st : state) :
  (dict_get d "id" = None \/ dict_get d "id" = Some PNone ->
   execute (GetUserByIdTool E) (PDict d) st
   = (Ok (PStr "Error: User ID is required but was not provided"), st))
  /\ (forall v e,
        dict_get d "id" = Some v -> v <> PNone -> py_int E v = Raise e ->
        execute (GetUserByIdTool E) (PDict d) st
        = (Ok (PStr ((if is_ValueError (exn_cls e)
                      then "Error: Invalid user ID format - "
                      else "Error while retrieving user by ID: ") ++ exn_str e)),
           st))
  /\ (forall v z,
        dict_get d "id" = Some v -> v <> PNone -> py_int E v = Ok z ->
        execute (GetUserByIdTool E) (PDict d) st
        = (Ok (service_text (user_service E (service_log st) (get_user z))
                 "Error: Invalid user ID format - "
                 "Error while retrieving user by ID: "),
           called (get_user z) st)).
Proof.
  split; [| split].
  - intros [H | H]; run_tool; simpl py_get; rewrite H; reflexivity.
  - intros v e Hv Hn He. run_tool. simpl py_get. rewrite Hv.
    destruct v; try contradiction (Hn eq_refl); cbn [is_None];
      rewrite He; cbn [exn_cls]; destruct (is_ValueError (exn_cls e)); reflexivity.
  - intros v z Hv Hn Hz. run_tool. simpl py_get. rewrite Hv.
    unfold called, service_text.
    destruct v; try contradiction (Hn eq_refl); cbn [is_None];
      rewrite Hz;
      destruct (user_service E (service_log st) (get_user z)) as [r | e];
      cbn [exn_cls]; try reflexivity;
      destruct (is_ValueError (exn_cls e)); reflexivity.
Qed.

(** delete_users: the service is asked to delete only when an id is given
    and [int] accepts it, and then exactly user [int(id)], once; every
    failure is answered with the one error prefix of the tool. *)
Theorem delete_user_behaviour (d : dict) (st : state) :
  (dict_get d "id" = None \/ dict_get d "id" = Some PNone ->
   execute (DeleteUserTool E) (PDict d) st
   = (Ok (PStr "Error: User ID is required for deletion"), st))
  /\ (forall v e,
        dict_get d "id" = Some v -> v <> PNone -> py_int E v = Raise e ->
        execute (DeleteUserTool E) (PDict d) st
        = (Ok (PStr ("Error while deleting user by id: " ++ exn_str e)), st))
  /\ (forall v z,
        dict_get d "id" = Some v -> v <> PNone -> py_int E v = Ok z ->
        execute (DeleteUserTool E) (PDict d) st
        = (Ok (service_text (user_service E (service_log st) (delete_user z))
                 "Error while deleting user by id: "
                 "Error while deleting user by id: "),
           called (delete_user z) st)).
Proof.
  split; [| split].
  - intros [H | H]; run_tool; simpl py_get; rewrite H; reflexivity.
  - intros v e Hv Hn He. run_tool. simpl py_get. rewrite Hv.
    destruct v; try contradiction (Hn eq_refl); cbn [is_None];
      rewrite He; reflexivity.
  - intros v z Hv Hn Hz. run_tool. simpl py_get. rewrite Hv.
    unfold called, service_text.
    destruct v; try contradiction (Hn eq_refl); cbn [is_None];
      rewrite Hz;
      destruct (user_service E (service_log st) (delete_user z)) as [r | e];
      try reflexivity; destruct (is_ValueError (exn_cls e)); reflexivity.
Qed.

(** Arguments that are not a mapping never reach the user service: each of
    the three id tools answers with its error text for the missing [get]. *)
Theorem id_tools_reject_non_mappings (arguments : pyval) (st : state) :
  (forall d, arguments <> PDict d) ->
  let why := quoted (type_name arguments) ++ " object has no attribute 'get'" in
  execute (GetUserByIdTool E) arguments st
  = (Ok (PStr ("Error while retrieving user by ID: " ++ why)), st)
  /\ execute (DeleteUserTool E) arguments st
     = (Ok (PStr ("Error while deleting user by id: " ++ why)), st)
  /\ execute (UpdateUserTool E) arguments st
     = (Ok (PStr ("Error while updating user: " ++ why)), st).
Proof.
  intros Hnot why. unfold why.
  destruct arguments; try (split; [| split]; reflexivity).
  contradiction (Hnot d eq_refl).
Qed.

Lemma UserCreate_validation_error arguments e :
  UserCreate_model_validate E arguments = Raise e -> exn_cls e = ValidationError.
Proof.
  unfold UserCreate_model_validate. destruct arguments;
    try (intros H; inversion H; reflexivity).
  destruct (required_errors d ++ UserCreate_optional_errors E d)%list;
    intros H; inversion H; reflexivity.
Qed.

(** add_user: arguments that fail validation never reach the user service;
    validated arguments are sent to it once.  The first [except] clause
    also catches what the service raises: a [ValueError] of the service is
    reported with the prefix for invalid user data, any other error with the
    prefix for a failed creation. *)
Theorem add_user_behaviour (arguments : pyval) (st : state) :
  (forall e,
     UserCreate_model_validate E arguments = Raise e ->
     execute (CreateUserTool E) arguments st
     = (Ok (PStr ("Error: Invalid user data - " ++ exn_str e)), st))
  /\ (forall user_create_model,
        UserCreate_model_validate E arguments = Ok user_create_model ->
        execute (CreateUserTool E) arguments st
        = (Ok (service_text
                 (user_service E (service_log st) (add_user user_create_model))
                 "Error: Invalid user data - "
                 "Error while creating a new user: "),
           called (add_user user_create_model) st)).
Proof.
  split.
  - intros e He. run_tool. rewrite He. cbn [exn_cls].
    rewrite (UserCreate_validation_error _ _ He). reflexivity.
  - intros model Hm. run_tool. rewrite Hm. unfold called, service_text.
    destruct (user_service E (service_log st) (add_user model)) as [r | e];
      [reflexivity |].
    cbn [exn_cls]. destruct (is_ValueError (exn_cls e)); reflexivity.
Qed.

(** update_user: the service is called only when an id is given that [int]
    accepts and the new information passes validation, and then once, with
    [int(id)] and the validated information; a missing [new_info] is
    validated as the empty mapping. *)
Theorem update_user_behaviour (d : dict) (st : state) :
  (dict_get d "id" = None \/ dict_get d "id" = Some PNone ->
   execute (UpdateUserTool E) (PDict d) st
   = (Ok (PStr "Error: User ID is required"), st))
  /\ (forall v e,
        dict_get d "id" = Some v -> v <> PNone -> py_int E v = Raise e ->
        execute (UpdateUserTool E) (PDict d) st
        = (Ok (PStr ("Error while updating user: " ++ exn_str e)), st))
  /\ (forall v z e,
        dict_get d "id" = Some v -> v <> PNone -> py_int E v = Ok z ->
        UserUpdate_model_validate E (Completion.get_or d "new_info" (PDict []))
        = Raise e ->
        execute (UpdateUserTool E) (PDict d) st
        = (Ok (PStr ("Error while updating user: " ++ exn_str e)), st))
  /\ (forall v z user_update_model,
        dict_get d "id" = Some v -> v <> PNone -> py_int E v = Ok z ->
        UserUpdate_model_validate E (Completion.get_or d "new_info" (PDict []))
        = Ok user_update_model ->
        execute (UpdateUserTool E) (PDict d) st
        = (Ok (service_text
                 (user_service E (service_log st) (update_user z user_update_model))
                 "Error while updating user: "
                 "Error while updating user: "),
           called (update_user z user_update_model) st)).
Proof.
  split; [| split; [| split]].
  - intros [H | H]; run_tool; simpl py_get; rewrite H; reflexivity.
  - intros v e Hv Hn He. run_tool. simpl py_get. rewrite Hv.
    destruct v; try contradiction (Hn eq_refl); cbn [is_None];
      rewrite He; reflexivity.
  - intros v z e Hv Hn Hz He. run_tool. simpl py_get. rewrite Hv.
    unfold Completion.get_or in He.
    destruct v; try contradiction (Hn eq_refl); cbn [is_None];
      rewrite Hz; cbv beta iota; simpl py_get; cbv beta iota; rewrite He;
      reflexivity.
  - intros v z model Hv Hn Hz Hm. run_tool. simpl py_get. rewrite Hv.
    unfold Completion.get_or in Hm. unfold called, service_text.
    destruct v; try contradiction (Hn eq_refl); cbn [is_None];
      rewrite Hz; cbv beta iota; simpl py_get; cbv beta iota; rewrite Hm;
      destruct (user_service E (service_log st) (update_user z model)) as [r | e];
      try reflexivity; destruct (is_ValueError (exn_cls e)); reflexivity.
Qed.

(** The text search_users returns when the service answers [o]: a
    [TypeError] is reported as invalid search parameters. *)
Definition search_text (o : outcome string) : pyval :=
  match o with
  | Ok r => PStr r
  | Raise e =>
      PStr ((if is_TypeError (exn_cls e)
             then "Error: Invalid search parameters - "
             else "Error while searching users: ") ++ exn_str e)
  end.

(** search_users: arguments that are not a mapping are refused without a
    service call; a mapping whose keys are all filters of the tool, the empty
    mapping included, is passed on as it is, in one call. *)
Theorem search_users_behaviour (arguments : pyval) (st : state) :
  ((forall d, arguments <> PDict d) ->
   execute (SearchUsersTool E) arguments st
   = (Ok (PStr ("Error: Invalid search parameters - "
                ++ "argument after ** must be a mapping, not "
                ++ type_name arguments)), st))
  /\ (forall d,
        arguments = PDict d ->
        forallb (fun kv => mem_string (fst kv) search_users_parameters) d = true ->
        execute (SearchUsersTool E) arguments st
        = (Ok (search_text (user_service E (service_log st) (search_users d))),
           called (search_users d) st)).
Proof.
  split.
  - intros Hnot. destruct arguments; try reflexivity.
    contradiction (Hnot d eq_refl).
  - intros d -> Hkeys. run_tool.
    assert (Hf : filter (fun kv => negb (mem_string (fst kv) search_users_parameters)) d
                 = []).
    { induction d as [| kv d IH]; [reflexivity |].
      simpl in Hkeys. apply andb_prop in Hkeys. destruct Hkeys as [Hk Hrest].
      simpl. rewrite Hk. simpl. exact (IH Hrest). }
    rewrite Hf. unfold called, search_text.
    destruct (user_service E (service_log st) (search_users d)) as [r | e];
      [reflexivity |].
    cbn [exn_cls]. destruct (is_TypeError (exn_cls e)); reflexivity.
Qed.

(** The POST of the web search tool for the query [query]. *)
Definition web_search_request (api_key endpoint : string) (query : pyval) : request :=
  mkRequest (endpoint ++ "/openai/deployments/gemini-2.5-pro/chat/completions")
    [("api-key", api_key); ("Content-Type", "application/json")]
    (PDict [("messages",
             PList [PDict [("role", PStr "user");
                           ("content", PStr (py_str E query))]]);
            ("tools",
             PList [PDict [("type", PStr "static_function");
                           ("static_function",
                            PDict [("name", PStr "google_search");
                                   ("description", PStr "Grounding with Google Search");
                                   ("configuration", PDict [])])]])]).

(** web_search_tool: without a [request] argument nothing is sent; with one,
    exactly one POST goes to the search deployment, carrying the query as
    text, and a transport error, a non-success status and an answer without
    choices each become a text result. *)
Theorem web_search_behaviour (api_key endpoint : string) (d : dict) (st : state) :
  (dict_get d "request" = None ->
   execute (WebSearchTool E api_key endpoint) (PDict d) st
   = (Ok (PStr ("Error during web search: " ++ quoted "request")), st))
  /\ (forall query,
        dict_get d "request" = Some query ->
        let r := web_search_request api_key endpoint query in
        snd (execute (WebSearchTool E api_key endpoint) (PDict d) st)
        = Completion.posted r st
        /\ (forall e,
              http_post E (posts st) r = Raise e ->
              fst (execute (WebSearchTool E api_key endpoint) (PDict d) st)
              = Ok (PStr ("Error during web search: " ++ exn_str e)))
        /\ (forall response,
              http_post E (posts st) r = Ok response ->
              status_code response <> 200%Z ->
              fst (execute (WebSearchTool E api_key endpoint) (PDict d) st)
              = Ok (PStr ("Error: " ++ string_of_Z (status_code response) ++ " "
                          ++ text response)))
        /\ (forall response body,
              http_post E (posts st) r = Ok response ->
              status_code response = 200%Z ->
              Json.loads (text response) = Ok (PDict body) ->
              dict_get body "choices" = None
              \/ dict_get body "choices" = Some (PList []) ->
              fst (execute (WebSearchTool E api_key endpoint) (PDict d) st)
              = Ok (PStr "No search results found"))).
Proof.
  split.
  - intros Hmiss. run_tool. simpl py_item. rewrite Hmiss. reflexivity.
  - intros query Hq r. unfold r. clear r.
    run_tool. simpl py_item. rewrite Hq.
    unfold WebSearchTool_endpoint.
    fold (web_search_request api_key endpoint query).
    set (r := web_search_request api_key endpoint query).
    split; [| split; [| split]].
    + destruct (http_post E (posts st) r) as [response | e]; [| reflexivity].
      cbv beta iota.
      destruct (status_code response =? 200)%Z; [| reflexivity].
      destruct (Json.loads (text response)) as [response_json | e]; [| reflexivity].
      cbv beta iota.
      destruct (py_get response_json "choices" (PList [])) as [choices | e];
        [| reflexivity].
      cbv beta iota.
      destruct (truthy E choices); [| reflexivity].
      destruct (py_first choices) as [choice | e]; [| reflexivity].
      cbv beta iota.
      destruct (py_get choice "message" (PDict [])) as [message | e];
        [| reflexivity].
      cbv beta iota.
      destruct (py_get message "content" (PStr "No results found")); reflexivity.
    + intros e He. rewrite He. reflexivity.
    + intros response Hr Hs. rewrite Hr. cbv beta iota.
      destruct (Z.eqb_spec (status_code response) 200); [contradiction | reflexivity].
    + intros response body Hr Hs Hj Hc. rewrite Hr. cbv beta iota.
      rewrite Hs. cbn [Z.eqb Pos.eqb]. rewrite Hj. cbv beta iota.
      simpl py_get. destruct Hc as [-> | ->]; reflexivity.
Qed.

End WithEnv.

End ToolBehaviour.

(** ** What the constructor registers and what dispatch finds *)

Module RegistryBehaviour.
Import Batch Completion.

(** The tool given last under the name [n]. *)
Fixpoint last_named (n : string) (ts : list BaseTool) : option BaseTool :=
  match ts with
  | [] => None
  | t :: rest =>
      match last_named n rest with
      | Some later => Some later
      | None => if String.eqb (tool_name t) n then Some t else None
      end
  end.

Lemma dict_get_register (d : list (string * BaseTool)) t n :
  dict_get (register d t) n
  = if String.eqb (tool_name t) n then Some t else dict_get d n.
Proof.
  unfold register. induction d as [| [k v] d IH]; simpl.
  - reflexivity.
  - destruct (String.eqb k (tool_name t)) eqn:Hk; simpl.
    + apply String.eqb_eq in Hk. subst k.
      destruct (String.eqb (tool_name t) n); reflexivity.
    + rewrite IH. destruct (String.eqb k n) eqn:Hkn; [| reflexivity].
      destruct (String.eqb (tool_name t) n) eqn:Htn; [| reflexivity].
      apply String.eqb_eq in Hkn, Htn. subst.
      rewrite String.eqb_refl in Hk. discriminate.
Qed.

Lemma dict_get_registered ts : forall acc n,
  dict_get (fold_left register ts acc) n
  = match last_named n ts with
    | Some t => Some t
    | None => dict_get acc n
    end.
Proof.
  induction ts as [| t ts IH]; intros acc n; simpl.
  - reflexivity.
  - rewrite IH, dict_get_register.
    destruct (last_named n ts); [reflexivity |].
    destruct (String.eqb (tool_name t) n); reflexivity.
Qed.

Section WithEnv.

Variable E : env.

Lemma init_registers_tools_parts endpoint deployment_name key tool_list st :
  key <> "" ->
  exists self st',
    DialClient_init E endpoint deployment_name (Some key) (Some tool_list) st
    = (Ok self, st')
    /\ tools_dict self = fold_left register tool_list []
    /\ messages st' = messages st
    /\ posts st' = posts st
    /\ service_log st' = service_log st.
Proof.
  intros Hkey. destruct key as [| c k]; [contradiction (Hkey eq_refl) |].
  unfold DialClient_init, bind, print, ret. cbn [tools].
  destruct (map schema tool_list);
    (do 2 eexists; split; [reflexivity |]; split; [reflexivity |];
     split; [reflexivity |]; split; reflexivity).
Qed.

(** [DialClient.__init__]: without a key it raises [ValueError] before
    doing anything; with one it returns a client for the deployment's
    completions URL that advertises one schema per tool given, in order, and
    in which a name resolves to the tool given last under that name (so of
    two tools with one name both are advertised and only the later can be
    called).  Nothing is sent and the conversation is not touched. *)
Theorem init_registers_tools endpoint deployment_name key tool_list st :
  (forall api_key, api_key = None \/ api_key = Some "" ->
     DialClient_init E endpoint deployment_name api_key (Some tool_list) st
     = (Raise (mkExn ValueError "API key is required for DIAL client"), st))
  /\ (key <> "" ->
      exists self st',
        DialClient_init E endpoint deployment_name (Some key) (Some tool_list) st
        = (Ok self, st')
        /\ client_endpoint self
           = endpoint ++ "/openai/deployments/" ++ deployment_name
             ++ "/chat/completions"
        /\ client_api_key self = key
        /\ tools self = map schema tool_list
        /\ (forall n, dict_get (tools_dict self) n = last_named n tool_list)
        /\ messages st' = messages st /\ posts st' = posts st
        /\ service_log st' = service_log st).
Proof.
  split.
  - intros api_key [-> | ->]; reflexivity.
  - intros Hkey. destruct key as [| c k]; [contradiction (Hkey eq_refl) |].
    unfold DialClient_init.
    set (self := mkDialClient (completions_url endpoint deployment_name)
                   (String c k) (fold_left register tool_list [])
                   (map schema tool_list)).
    exists self.
    assert (Hlook : forall n, dict_get (tools_dict self) n = last_named n tool_list).
    { intros n. unfold self. cbn [tools_dict]. rewrite dict_get_registered.
      destruct (last_named n tool_list); reflexivity. }
    unfold bind, print, ret. cbn [tools].
    destruct (map schema tool_list) eqn:Hs;
      (eexists; split; [reflexivity |]);
      (split; [reflexivity |]); (split; [reflexivity |]);
      (split; [reflexivity |]);
      (split; [exact Hlook |]); (split; [reflexivity |]);
      split; reflexivity.
Qed.

Variable self : DialClient.

(** A request without a [function] entry, or whose function has no name:
    no tool runs and the request is answered by a tool message whose content
    is [Unknown function: None], whose name is [None] and whose id is the
    request's. *)
Theorem nameless_request_answered (d : dict) (st : state) :
  dict_get d "function" = None
  \/ (exists f, dict_get d "function" = Some (PDict f)
                /\ dict_get f "name" = None /\ dict_get f "arguments" = None) ->
  exists line,
    process_tool_call E self (PDict d) st
    = (Ok (mkMessage TOOL (PStr "Unknown function: None")
                     (get_or d "id" PNone) PNone PNone),
       printed [line] st).
Proof.
  intros H. unfold process_tool_call, bind at 1, lift at 1. simpl py_get.
  cbv beta iota. fold (get_or d "id" PNone).
  unfold bind at 1, lift at 1.
  assert (Hf : exists f, match dict_get d "function" with
                         | Some x => x
                         | None => PDict []
                         end = PDict f
                         /\ dict_get f "name" = None
                         /\ dict_get f "arguments" = None).
  { destruct H as [-> | [f [-> [Hn Ha]]]]; [exists [] | exists f]; auto. }
  destruct Hf as [f [-> [Hn Ha]]].
  cbv beta iota. unfold bind at 1, lift at 1. simpl py_get. rewrite Hn.
  cbv beta iota. unfold bind at 1, lift at 1. rewrite Ha.
  cbv beta iota. unfold bind at 1, lift at 1.
  change (json_loads (PStr "{}")) with (Json.loads "{}").
  replace (Json.loads "{}") with (Ok (PDict [])) by (vm_compute; reflexivity).
  cbv beta iota. unfold bind at 1. cbn [_call_tool]. unfold ret at 1.
  cbv beta iota. unfold bind, print, ret, printed. cbn [py_str py_repr].
  eexists. reflexivity.
Qed.

(** A function name that is a list or an object cannot be looked up: when
    the arguments of the request decode (an absent entry counts as the empty
    object), the request raises [TypeError] at the lookup and no tool runs;
    when they do not, the decoder's error comes first. *)
Theorem unhashable_name_raises (d f : dict) (function_name : pyval) (st : state) :
  dict_get d "function" = Some (PDict f) ->
  dict_get f "name" = Some function_name ->
  hashable function_name = false ->
  (forall arguments,
     json_loads (get_or f "arguments" (PStr "{}")) = Ok arguments ->
     process_tool_call E self (PDict d) st
     = (Raise (mkExn TypeError
                 ("unhashable type: " ++ quoted (type_name function_name))), st))
  /\ (forall e,
        json_loads (get_or f "arguments" (PStr "{}")) = Raise e ->
        process_tool_call E self (PDict d) st = (Raise e, st)).
Proof.
  intros Hf Hn Hh.
  assert (Hstart : forall k : pyval -> M Message,
            process_tool_call E self (PDict d) st
            = (arguments <- lift (json_loads (get_or f "arguments" (PStr "{}"))) ;;
               tool_execution_result <- _call_tool E self function_name arguments ;;
               let tool_message :=
                 mkMessage TOOL tool_execution_result (get_or d "id" PNone)
                           function_name PNone in
               print ("FUNCTION '" ++ py_str E function_name ++ "'" ++ nl
                      ++ py_str E tool_execution_result ++ nl
                      ++ repeat_string "-" 50) ;;
               ret tool_message) st).
  { intros _. unfold process_tool_call, bind at 1, lift at 1. simpl py_get.
    cbv beta iota. unfold bind at 1, lift at 1. rewrite Hf.
    cbv beta iota. unfold bind at 1, lift at 1. simpl py_get. rewrite Hn.
    cbv beta iota. unfold bind at 1, lift at 1.
    fold (get_or f "arguments" (PStr "{}")). fold (get_or d "id" PNone).
    reflexivity. }
  specialize (Hstart (fun _ => ret (mkMessage TOOL PNone PNone PNone PNone))).
  split.
  - intros arguments Ha. rewrite Hstart.
    unfold bind at 1, lift at 1. rewrite Ha. unfold bind at 1.
    destruct function_name; try discriminate Hh; reflexivity.
  - intros e He. rewrite Hstart.
    unfold bind at 1, lift at 1. rewrite He. reflexivity.
Qed.

End WithEnv.

End RegistryBehaviour.

(** ** Failures and repetition of a completion round *)

Module RoundBehaviour.
Import Frames Batch Completion Growth.

Section WithEnv.

Variable E : env.
Variable self : DialClient.

(** After a request the decoder refuses, nothing more of the batch runs:
    the batch raises, and the state it leaves is the state left by the
    requests before the refused one, whatever follows it. *)
Theorem batch_stops_at_malformed_request pre tool_call post e st :
  ClientProperties.malformed_arguments tool_call e ->
  snd (_process_tool_calls E self (PList (pre ++ tool_call :: post)) st)
  = snd (_process_tool_calls E self (PList pre) st)
  /\ exists e', fst (_process_tool_calls E self (PList (pre ++ tool_call :: post)) st)
                = Raise e'.
Proof.
  intros Hbad.
  unfold _process_tool_calls, lift. simpl py_iter. unfold bind.
  rewrite process_loop_app. unfold bind.
  destruct (process_loop E self pre [] st) as [[msgs | e0] st1].
  - simpl process_loop. unfold bind.
    rewrite (ClientProperties.process_tool_call_malformed E self _ _ _ Hbad).
    split; [reflexivity | exists e; reflexivity].
  - split; [reflexivity | exists e0; reflexivity].
Qed.

(** An answer that announces tool calls without listing any: the call has
    appended the assistant message when iterating over [None] raises
    [TypeError], and the error goes to the caller. *)
Theorem missing_tool_calls_raise depth print_request st response c m :
  quiet E print_request st ->
  http_post E (posts st) (completion_request self (messages st)) = Ok response ->
  decoded E response (PDict c) ->
  get_or c "message" (PDict []) = PDict m ->
  is_tool_calls (get_or c "finish_reason" PNone) = true ->
  get_or m "tool_calls" PNone = PNone ->
  exists st',
    get_completion E (S depth) self print_request st
    = (Raise (mkExn TypeError "'NoneType' object is not iterable"), st')
    /\ messages st' = (messages st ++ [assistant_message m])%list
    /\ posts st' = (posts st ++ [completion_request self (messages st)])%list
    /\ service_log st' = service_log st.
Proof.
  intros Hq Hpost Hdec Hm Hfin Hnone.
  destruct (get_completion_round E self depth print_request st Hq) as [l1 Hround].
  rewrite Hround, Hpost.
  destruct (interpret_decoded E self print_request
              (get_completion E depth self print_request) response c m
              (posted (completion_request self (messages st)) (printed l1 st))
              Hdec Hm) as [l2 Hint].
  rewrite Hint, Hfin, Hnone.
  eexists. split; [reflexivity |]. split; [reflexivity |]. split; reflexivity.
Qed.

(** When the request cannot be delivered the error of the transport reaches
    the caller, after that one attempt; when a success carries a body that
    is not JSON, or JSON that is not an object, the call raises as well.  In
    each case the message list is as it was. *)
Theorem unusable_answers_raise depth print_request st :
  quiet E print_request st ->
  (forall e,
     http_post E (posts st) (completion_request self (messages st)) = Raise e ->
     exists st',
       get_completion E (S depth) self print_request st = (Raise e, st')
       /\ messages st' = messages st
       /\ posts st' = (posts st ++ [completion_request self (messages st)])%list)
  /\ (forall response e,
        http_post E (posts st) (completion_request self (messages st)) = Ok response ->
        status_code response = 200%Z ->
        Json.loads (text response) = Raise e ->
        exists st',
          get_completion E (S depth) self print_request st = (Raise e, st')
          /\ exn_cls e = JSONDecodeError
          /\ messages st' = messages st)
  /\ (forall response v,
        http_post E (posts st) (completion_request self (messages st)) = Ok response ->
        status_code response = 200%Z ->
        Json.loads (text response) = Ok v ->
        (forall d, v <> PDict d) ->
        exists st',
          get_completion E (S depth) self print_request st
          = (Raise (mkExn AttributeError
                      (quoted (type_name v) ++ " object has no attribute 'get'")),
             st')
          /\ messages st' = messages st).
Proof.
  intros Hq.
  destruct (get_completion_round E self depth print_request st Hq) as [l Hround].
  split; [| split].
  - intros e He. rewrite Hround, He.
    eexists. split; [reflexivity |]. split; reflexivity.
  - intros response e Hpost H200 He. rewrite Hround, Hpost.
    unfold interpret. rewrite H200. cbn [Z.eqb Pos.eqb].
    unfold bind at 1, lift at 1. rewrite He.
    eexists. split; [reflexivity |].
    split; [exact (ClientProperties.loads_raises_decode_error _ _ He) | reflexivity].
  - intros response v Hpost H200 Hv Hnot. rewrite Hround, Hpost.
    unfold interpret. rewrite H200. cbn [Z.eqb Pos.eqb].
    unfold bind at 1, lift at 1. rewrite Hv. cbv beta iota.
    unfold bind at 1, lift at 1.
    destruct v; try (eexists; split; reflexivity).
    contradiction (Hnot d eq_refl).
Qed.

(** One round that runs tools, without the debugging output. *)
Lemma tools_round depth st response c m items :
  registry_ok self ->
  http_post E (posts st) (completion_request self (messages st)) = Ok response ->
  decoded E response (PDict c) ->
  get_or c "message" (PDict []) = PDict m ->
  is_tool_calls (get_or c "finish_reason" PNone) = true ->
  get_or m "tool_calls" PNone = PList items ->
  forallb well_formed_call items = true ->
  exists tool_messages st2,
    get_completion E (S depth) self false st = get_completion E depth self false st2
    /\ messages st2 = (messages st ++ assistant_message m :: tool_messages)%list
    /\ List.length tool_messages = List.length items.
Proof.
  intros Hreg Hpost Hdec Hm Hfin Hcalls Hwf.
  assert (Hq : quiet E false st) by (intros H; discriminate H).
  destruct (get_completion_round E self depth false st Hq) as [l1 Hround].
  rewrite Hround, Hpost.
  destruct (interpret_decoded E self false (get_completion E depth self false)
              response c m
              (posted (completion_request self (messages st)) (printed l1 st))
              Hdec Hm) as [l2 Hint].
  rewrite Hint, Hfin, Hcalls.
  unfold bind at 1. unfold print at 1.
  unfold bind at 1. unfold append at 1.
  unfold bind at 1.
  match goal with
  | |- context [_process_tool_calls E self _ ?s] => set (st1 := s)
  end.
  destruct (ClientProperties.batch_returns E self items st1 Hreg Hwf)
    as [tool_messages [st1' [Hrun Hfor]]].
  pose proof (process_tool_calls_frame E self Hreg (PList items) st1) as [Hsame _].
  rewrite Hrun in *. simpl in Hsame.
  unfold bind at 1. unfold extend at 1.
  exists tool_messages. eexists. split; [reflexivity |]. split.
  - simpl messages. rewrite Hsame. unfold st1. simpl.
    rewrite <- app_assoc. reflexivity.
  - symmetry. exact (Forall2_length Hfor).
Qed.

(** The code sets no bound on tool rounds.  Against an endpoint that
    answers every request of the client with the same request for tools,
    a call goes on, one request and one assistant message plus one tool
    message per requested call in each round, until the interpreter's
    recursion limit stops it with [RecursionError]. *)
Theorem tool_rounds_end_at_recursion_limit response c m items :
  registry_ok self ->
  (forall earlier msgs,
     http_post E earlier (completion_request self msgs) = Ok response) ->
  decoded E response (PDict c) ->
  get_or c "message" (PDict []) = PDict m ->
  is_tool_calls (get_or c "finish_reason" PNone) = true ->
  get_or m "tool_calls" PNone = PList items ->
  forallb well_formed_call items = true ->
  forall depth st, exists st',
    get_completion E depth self false st
    = (Raise (mkExn RecursionError "maximum recursion depth exceeded"), st')
    /\ List.length (messages st')
       = (List.length (messages st) + depth * (1 + List.length items))%nat.
Proof.
  intros Hreg Hpost Hdec Hm Hfin Hcalls Hwf.
  induction depth as [| depth IH]; intros st.
  - exists st. split; [reflexivity | simpl; lia].
  - destruct (tools_round depth st response c m items Hreg (Hpost _ _) Hdec Hm
                Hfin Hcalls Hwf) as [tool_messages [st2 [Hstep [Hmsgs Hlen]]]].
    destruct (IH st2) as [st' [Hrun Hcount]].
    exists st'. split; [rewrite Hstep; exact Hrun |].
    rewrite Hcount, Hmsgs, length_app. simpl. rewrite Hlen. lia.
Qed.

End WithEnv.

End RoundBehaviour.

(** ** The session as a whole *)

Module SessionBehaviour.
Import Frames Batch Completion Growth AppProperties.

(** The conversation of [st] is the beginning of the conversation of
    [st']. *)
Definition grown (st st' : state) : Prop :=
  exists added, messages st' = (messages st ++ added)%list.

Lemma grown_refl st : grown st st.
Proof. exists []. symmetry. apply app_nil_r. Qed.

Lemma grown_trans st1 st2 st3 : grown st1 st2 -> grown st2 st3 -> grown st1 st3.
Proof.
  intros [a Ha] [b Hb]. exists (a ++ b)%list. rewrite Hb, Ha.
  symmetry. apply app_assoc.
Qed.

Lemma grown_print s : preserves grown (print s).
Proof. intros st. exists []. simpl. symmetry. apply app_nil_r. Qed.

Lemma grown_append m : preserves grown (append m).
Proof. intros st. exists [m]. reflexivity. Qed.

Lemma extended_grown {A} (c : M A) : preserves extended c -> preserves grown c.
Proof. intros H st. destruct (H st) as [[added [Ha _]] _]. exists added. exact Ha. Qed.

Section WithEnv.

Variable E : env.

Ltac grow :=
  repeat first
    [ apply preserves_ret; apply grown_refl
    | apply grown_print
    | apply grown_append
    | apply preserves_bind; [apply grown_trans | | intros ?] ].

Lemma turn_grown depth dial_client ev :
  registry_ok dial_client -> preserves grown (turn E depth dial_client ev).
Proof.
  intros Hreg. destruct ev; simpl.
  - apply preserves_try_except; [apply grown_trans | | intros e].
    + unfold turn_body.
      destruct (mem_string _ _); [grow |].
      destruct (String.eqb _ _); [grow |].
      apply preserves_bind; [apply grown_trans | apply grown_append | intros ?].
      apply preserves_bind; [apply grown_trans | apply grown_print | intros ?].
      apply preserves_bind; [apply grown_trans | | intros ?].
      * apply extended_grown. apply get_completion_extended. exact Hreg.
      * unfold add_message. grow.
    + unfold report_error. grow.
  - grow.
  - unfold report_error. grow.
Qed.

Lemma loop_grown depth dial_client evs :
  registry_ok dial_client -> preserves grown (loop E depth dial_client evs).
Proof.
  intros Hreg. induction evs as [| ev evs IH]; simpl.
  - apply preserves_ret. apply grown_refl.
  - apply preserves_bind; [apply grown_trans | apply turn_grown; exact Hreg |].
    intros c. destruct c; [apply preserves_ret; apply grown_refl | exact IH].
Qed.

(** Nothing is ever removed from the conversation or moved inside it:
    whatever the inputs and whatever the endpoint and the services do, the
    conversation after the loop begins with the conversation before it. *)
Theorem session_keeps_history depth dial_client evs st :
  registry_ok dial_client ->
  exists added,
    messages (snd (loop E depth dial_client evs st))
    = (messages st ++ added)%list.
Proof. intros Hreg. exact (loop_grown depth dial_client evs Hreg st). Qed.

Lemma main_client_ok key (self : DialClient) :
  tools_dict self = fold_left register (app_tools E key) [] -> registry_ok self.
Proof.
  intros Hd n t H. rewrite Hd in H.
  destruct (Dispatch.registered_In _ _ _ _ H) as [Hin | Habs]; [| discriminate].
  exact (Dispatch.app_tools_well_behaved E key t Hin).
Qed.

(** What [main] does between building the client and entering the loop. *)
Definition prepare : M unit :=
  print "✅ DialClient initialized with all tools" ;;
  add_message (mkMessage SYSTEM (PStr (SYSTEM_PROMPT E)) PNone PNone PNone) ;;
  print "✅ Conversation initialized with system prompt" ;;
  print (nl ++ repeat_string "=" 60) ;;
  print "🤖 AI User Management Assistant Ready!" ;;
  print (repeat_string "=" 60) ;;
  print "Type your message and press Enter. Type 'exit' or 'quit' to stop." ;;
  print "Example: 'Add Andrej Karpathy as a new user'" ;;
  print (repeat_string "=" 60 ++ nl).

Lemma prepare_run st :
  fst (prepare st) = Ok tt
  /\ messages (snd (prepare st))
     = (messages st ++ [mkMessage SYSTEM (PStr (SYSTEM_PROMPT E)) PNone PNone PNone])%list
  /\ posts (snd (prepare st)) = posts st
  /\ service_log (snd (prepare st)) = service_log st.
Proof. split; [reflexivity | split; [reflexivity | split; reflexivity]]. Qed.

(** [main] is: announce, build the client, prepare, loop. *)
Lemma main_unfold depth API_KEY tool_key evs st :
  tool_key = match API_KEY with Some k => k | None => "None" end ->
  main E depth API_KEY evs st
  = match DialClient_init E DIAL_ENDPOINT "gpt-4o" API_KEY
            (Some (app_tools E tool_key))
            (snd (print "✅ UserClient initialized" st)) with
    | (Ok self, st1) => loop E depth self evs (snd (prepare st1))
    | (Raise e, st1) => (Raise e, st1)
    end.
Proof.
  intros ->. unfold main. unfold bind at 1. unfold print at 1.
  unfold bind at 1. cbn [snd].
  destruct (DialClient_init E DIAL_ENDPOINT "gpt-4o" API_KEY _ _)
    as [[self | e] st1]; reflexivity.
Qed.

(** [main] started on an empty conversation: the system prompt is the first
    message and stays the first message to the end of the session. *)
Theorem system_prompt_stays_first depth key evs st :
  key <> "" ->
  messages st = [] ->
  exists rest,
    messages (snd (main E depth (Some key) evs st))
    = mkMessage SYSTEM (PStr (SYSTEM_PROMPT E)) PNone PNone PNone :: rest.
Proof.
  intros Hkey Hempty.
  rewrite (main_unfold depth (Some key) key evs st eq_refl).
  destruct (RegistryBehaviour.init_registers_tools_parts E DIAL_ENDPOINT "gpt-4o"
              key (app_tools E key) (snd (print "✅ UserClient initialized" st)) Hkey)
    as [self [st1 [Hinit [Hdict [Hmsgs _]]]]].
  rewrite Hinit.
  destruct (loop_grown depth self evs (main_client_ok key self Hdict)
              (snd (prepare st1))) as [added Hadded].
  rewrite Hadded.
  destruct (prepare_run st1) as [_ [Hprep _]].
  rewrite Hprep, Hmsgs. cbn [print snd messages]. rewrite Hempty.
  eexists. reflexivity.
Qed.

(** The user message of a line. *)
Definition user_message (line : string) : Message :=
  mkMessage USER (PStr (strip line)) PNone PNone PNone.

(** A turn whose request is answered with a non-success status: the error
    is reported, with its text and the invitation to try again, and the
    loop goes on; the user's message stays in the conversation, so the next
    request will carry it again.  Nothing else happens in the turn. *)
Theorem failed_turn_keeps_user_message depth dial_client line st response :
  mem_string (lower (strip line)) exit_keywords = false ->
  strip line <> "" ->
  http_post E (posts st)
    (completion_request dial_client (messages st ++ [user_message line]))
  = Ok response ->
  status_code response <> 200%Z ->
  exists st',
    turn E (S depth) dial_client (Line line) st = (Ok Continue, st')
    /\ messages st' = (messages st ++ [user_message line])%list
    /\ posts st'
       = (posts st
          ++ [completion_request dial_client (messages st ++ [user_message line])])%list
    /\ stdout st'
       = (stdout st
          ++ (nl ++ "🤔 Thinking...")%string
             :: error_lines
                  (mkExn Exception
                     ("API request failed with status "
                      ++ string_of_Z (status_code response) ++ ": "
                      ++ text response)))%list
    /\ service_log st' = service_log st.
Proof.
  intros Hexit Hne Hpost Hstatus.
  assert (Hrun : get_completion E (S depth) dial_client false (asking (strip line) st)
                 = (Raise (mkExn Exception
                             ("API request failed with status "
                              ++ string_of_Z (status_code response) ++ ": "
                              ++ text response)),
                    posted (completion_request dial_client
                              (messages st ++ [user_message line]))
                           (asking (strip line) st))).
  { rewrite get_completion_S.
    unfold bind at 1. unfold get_messages.
    unfold bind at 1. unfold announce, ret at 1.
    unfold bind at 1. unfold requests_post.
    cbn [asking printed set_messages messages posts service_log stdout].
    fold (user_message line).
    fold (completion_request dial_client (messages st ++ [user_message line])).
    rewrite Hpost.
    rewrite (interpret_failure E dial_client _ _ _ _ Hstatus).
    reflexivity. }
  unfold turn, try_except.
  rewrite (turn_body_asks E (S depth) dial_client line st Hexit Hne), Hrun.
  eexists. split; [reflexivity |].
  split; [reflexivity |]. split; [reflexivity |].
  split; [| reflexivity].
  cbn [any_Exception report_error]. unfold bind, print, ret.
  cbn [stdout posted asking printed set_messages error_lines exn_str].
  rewrite <- !app_assoc. reflexivity.
Qed.

(** The request a turn starts with carries the conversation so far followed
    by the user's line, stripped, as a user message. *)
Theorem turn_sends_history_with_user_line depth dial_client line st :
  registry_ok dial_client ->
  mem_string (lower (strip line)) exit_keywords = false ->
  strip line <> "" ->
  exists later,
    posts (snd (turn E (S depth) dial_client (Line line) st))
    = (posts st
       ++ completion_request dial_client (messages st ++ [user_message line])
       :: later)%list.
Proof.
  intros Hreg Hexit Hne.
  assert (Hq : quiet E false (asking (strip line) st)) by (intros H; discriminate H).
  destruct (ClientProperties.first_post E dial_client depth false _ Hreg Hq)
    as [later Hlater].
  cbn [asking printed set_messages messages posts] in Hlater.
  fold (user_message line) in Hlater.
  exists later. rewrite <- Hlater.
  unfold turn, try_except.
  rewrite (turn_body_asks E (S depth) dial_client line st Hexit Hne).
  destruct (get_completion E (S depth) dial_client false (asking (strip line) st))
    as [[ai_response | e] st1]; reflexivity.
Qed.

(** Exceptions at the prompt: an interrupt ends the session whatever input
    would follow; an end of input does not, it is reported like an error
    and the loop asks again, so a session whose input has ended reports it
    over and over, without touching the conversation or sending anything. *)
Theorem prompt_exceptions depth dial_client st :
  (forall evs, exists st',
     loop E depth dial_client (KeyboardInterrupt :: evs) st = (Ok (Some Break), st')
     /\ messages st' = messages st /\ posts st' = posts st)
  /\ (forall n, exists st',
        loop E depth dial_client (repeat EOFError n) st = (Ok None, st')
        /\ messages st' = messages st /\ posts st' = posts st
        /\ List.length (stdout st') = (List.length (stdout st) + 2 * n)%nat).
Proof.
  split.
  - intros evs. eexists. split; [reflexivity | split; reflexivity].
  - intros n. revert st. induction n as [| n IH]; intros st.
    + exists st. split; [reflexivity |]. split; [reflexivity |].
      split; [reflexivity | simpl; lia].
    + destruct (IH (printed (error_lines (mkExn Exception "EOF when reading a line")) st))
        as [st' [Hrun [Hm [Hp Hout]]]].
      exists st'. split; [| split; [exact Hm | split; [exact Hp |]]].
      * cbn [repeat loop]. unfold bind at 1.
        cbn [turn]. unfold report_error, bind, print, ret.
        cbn [messages posts service_log stdout].
        rewrite <- Hrun. unfold printed, error_lines. cbn [exn_str].
        rewrite <- app_assoc. reflexivity.
      * rewrite Hout. unfold printed, error_lines. cbn [stdout].
        rewrite length_app. simpl. lia.
Qed.

(** Started with a key, a session whose first line is an exit keyword ends
    with status 0 before any request is sent, the system prompt being the
    only message added. *)
Theorem exit_before_any_request depth key line evs st :
  key <> "" ->
  mem_string (lower (strip line)) exit_keywords = true ->
  exists st',
    program E depth (Some key) (Line line :: evs) st = (Exit 0, st')
    /\ posts st' = posts st
    /\ service_log st' = service_log st
    /\ messages st'
       = (messages st
          ++ [mkMessage SYSTEM (PStr (SYSTEM_PROMPT E)) PNone PNone PNone])%list.
Proof.
  intros Hkey Hexit.
  assert (Hprog : program E depth (Some key) (Line line :: evs) st
                  = match main E depth (Some key) (Line line :: evs) st with
                    | (Ok (Some _), st') => (Exit 0, st')
                    | (Ok None, st') => (Waiting, st')
                    | (Raise e, st') => (Uncaught e, st')
                    end).
  { destruct key; [contradiction (Hkey eq_refl) | reflexivity]. }
  rewrite Hprog.
  rewrite (main_unfold depth (Some key) key (Line line :: evs) st eq_refl).
  destruct (RegistryBehaviour.init_registers_tools_parts E DIAL_ENDPOINT "gpt-4o"
              key (app_tools E key) (snd (print "✅ UserClient initialized" st)) Hkey)
    as [self [st1 [Hinit [_ [Hmsgs [Hposts Hlog]]]]]].
  rewrite Hinit.
  destruct (prepare_run st1) as [_ [Hpm [Hpp Hpl]]].
  cbn [loop]. unfold bind at 1. unfold turn, try_except, turn_body.
  rewrite Hexit. unfold bind at 1. unfold print at 1. unfold ret.
  eexists. split; [reflexivity |].
  cbn [posts service_log messages].
  rewrite Hpp, Hpl, Hpm, Hposts, Hlog, Hmsgs.
  split; [reflexivity |]. split; reflexivity.
Qed.

End WithEnv.

End SessionBehaviour.

(** ** More scenarios, run *)

Module MoreScenarios.
Import Frames Batch Completion Growth Examples Scenarios.
Import ToolBehaviour RegistryBehaviour RoundBehaviour SessionBehaviour AppProperties.

Ltac differ := intros H; vm_compute in H; discriminate H.

Lemma get_user_by_id_behaviour_witness :
  execute (GetUserByIdTool E_hello) (PDict [("name", PStr "Jane")]) (start [])
  = (Ok (PStr "Error: User ID is required but was not provided"), start [])
  /\ execute (GetUserByIdTool E_hello) (PDict [("id", PStr "forty-two")]) (start [])
     = (Ok (PStr ("Error: Invalid user ID format - "
                  ++ "invalid literal for int() with base 10: 'forty-two'")),
        start [])
  /\ execute (GetUserByIdTool E_hello) (PDict [("id", PStr " 42 ")]) (start [])
     = (Ok (PStr "User 42: Jane"), called (get_user 42) (start []))
  /\ execute (GetUserByIdTool E_hello) (PDict [("id", PStr "٤٢")]) (start [])
     = (Ok (PStr "User 42: Jane"), called (get_user 42) (start [])).
Proof.
  split; [| split; [| split]].
  - apply (proj1 (get_user_by_id_behaviour E_hello [("name", PStr "Jane")] (start []))).
    left. reflexivity.
  - apply (proj1 (proj2 (get_user_by_id_behaviour E_hello
                           [("id", PStr "forty-two")] (start [])))
             (PStr "forty-two")
             (mkExn ValueError
                "invalid literal for int() with base 10: 'forty-two'")).
    + reflexivity.
    + discriminate.
    + run.
  - apply (proj2 (proj2 (get_user_by_id_behaviour E_hello
                           [("id", PStr " 42 ")] (start [])))
             (PStr " 42 ") 42%Z).
    + reflexivity.
    + discriminate.
    + run.
  - apply (proj2 (proj2 (get_user_by_id_behaviour E_hello
                           [("id", PStr "٤٢")] (start [])))
             (PStr "٤٢") 42%Z).
    + reflexivity.
    + discriminate.
    + run.
Defined.

Lemma delete_user_behaviour_witness :
  execute (DeleteUserTool E_hello) (PDict []) (start [])
  = (Ok (PStr "Error: User ID is required for deletion"), start [])
  /\ execute (DeleteUserTool E_hello) (PDict [("id", PList [])]) (start [])
     = (Ok (PStr ("Error while deleting user by id: "
                  ++ "int() argument must be a string, a bytes-like object or a "
                  ++ "real number, not 'list'")), start [])
  /\ execute (DeleteUserTool E_hello) (PDict [("id", PInt 7)]) (start [])
     = (Ok (PStr "Error while deleting user by id: HTTP 404: User not found"),
        called (delete_user 7) (start [])).
Proof.
  split; [| split].
  - apply (proj1 (delete_user_behaviour E_hello [] (start []))).
    left. reflexivity.
  - apply (proj1 (proj2 (delete_user_behaviour E_hello [("id", PList [])] (start [])))
             (PList [])
             (mkExn TypeError
                ("int() argument must be a string, a bytes-like object or a "
                 ++ "real number, not 'list'"))).
    + reflexivity.
    + discriminate.
    + run.
  - apply (proj2 (proj2 (delete_user_behaviour E_hello [("id", PInt 7)] (start [])))
             (PInt 7) 7%Z).
    + reflexivity.
    + discriminate.
    + reflexivity.
Defined.

Lemma id_tools_reject_non_mappings_witness :
  execute (GetUserByIdTool E_hello) (PList [PInt 42]) (start [])
  = (Ok (PStr "Error while retrieving user by ID: 'list' object has no attribute 'get'"),
     start [])
  /\ execute (DeleteUserTool E_hello) (PList [PInt 42]) (start [])
     = (Ok (PStr "Error while deleting user by id: 'list' object has no attribute 'get'"),
        start [])
  /\ execute (UpdateUserTool E_hello) (PList [PInt 42]) (start [])
     = (Ok (PStr "Error while updating user: 'list' object has no attribute 'get'"),
        start []).
Proof.
  apply (id_tools_reject_non_mappings E_hello (PList [PInt 42]) (start [])).
  intros d. discriminate.
Defined.

Definition jane : dict :=
  [("name", PStr "Jane"); ("surname", PStr "Doe");
   ("email", PStr "jane@example.com"); ("about_me", PStr "Engineer")].

(** A user service that fails with a [ValueError]. *)
Definition E_bad_service : env :=
  mkEnv (http_post E_hello)
        (fun _ _ => Raise (mkExn ValueError "Expecting value"))
        (float_bool E_hello) (float_int E_hello) (float_str E_hello)
        (UserCreate_optional_errors E_hello) (UserUpdate_errors E_hello)
        (UserCreate_model_json_schema E_hello) (UserUpdate_model_json_schema E_hello)
        (SYSTEM_PROMPT E_hello).

Lemma add_user_behaviour_witness :
  execute (CreateUserTool E_hello) (PStr "Jane") (start [])
  = (Ok (PStr ("Error: Invalid user data - "
               ++ validation_message "UserCreate"
                    ["  Input should be a valid dictionary or object to extract fields from"])),
     start [])
  /\ execute (CreateUserTool E_hello) (PDict jane) (start [])
     = (Ok (PStr "User successfully added: 1"), called (add_user jane) (start []))
  /\ execute (CreateUserTool E_bad_service) (PDict jane) (start [])
     = (Ok (PStr "Error: Invalid user data - Expecting value"),
        called (add_user jane) (start [])).
Proof.
  split; [| split].
  - apply (proj1 (add_user_behaviour E_hello (PStr "Jane") (start []))
             (mkExn ValidationError
                (validation_message "UserCreate"
                   ["  Input should be a valid dictionary or object to extract fields from"]))).
    reflexivity.
  - apply (proj2 (add_user_behaviour E_hello (PDict jane) (start [])) jane).
    reflexivity.
  - apply (proj2 (add_user_behaviour E_bad_service (PDict jane) (start [])) jane).
    reflexivity.
Defined.

Lemma update_user_behaviour_witness :
  execute (UpdateUserTool E_hello) (PDict [("new_info", PDict [])]) (start [])
  = (Ok (PStr "Error: User ID is required"), start [])
  /\ execute (UpdateUserTool E_hello) (PDict [("id", PStr "x")]) (start [])
     = (Ok (PStr ("Error while updating user: "
                  ++ "invalid literal for int() with base 10: 'x'")), start [])
  /\ execute (UpdateUserTool E_hello)
       (PDict [("id", PInt 3); ("new_info", PInt 5)]) (start [])
     = (Ok (PStr ("Error while updating user: "
                  ++ validation_message "UserUpdate"
                       ["  Input should be a valid dictionary or object to extract fields from"])),
        start [])
  /\ execute (UpdateUserTool E_hello) (PDict [("id", PBool true)]) (start [])
     = (Ok (PStr "Error while updating user: HTTP 404: User not found"),
        called (update_user 1 []) (start [])).
Proof.
  split; [| split; [| split]].
  - apply (proj1 (update_user_behaviour E_hello [("new_info", PDict [])] (start []))).
    left. reflexivity.
  - apply (proj1 (proj2 (update_user_behaviour E_hello [("id", PStr "x")] (start [])))
             (PStr "x")
             (mkExn ValueError "invalid literal for int() with base 10: 'x'")).
    + reflexivity.
    + discriminate.
    + run.
  - apply (proj1 (proj2 (proj2 (update_user_behaviour E_hello
                                  [("id", PInt 3); ("new_info", PInt 5)] (start []))))
             (PInt 3) 3%Z
             (mkExn ValidationError
                (validation_message "UserUpdate"
                   ["  Input should be a valid dictionary or object to extract fields from"]))).
    + reflexivity.
    + discriminate.
    + reflexivity.
    + reflexivity.
  - apply (proj2 (proj2 (proj2 (update_user_behaviour E_hello
                                  [("id", PBool true)] (start []))))
             (PBool true) 1%Z []).
    + reflexivity.
    + discriminate.
    + reflexivity.
    + reflexivity.
Defined.

Lemma search_users_behaviour_witness :
  execute (SearchUsersTool E_hello) (PStr "Jane") (start [])
  = (Ok (PStr ("Error: Invalid search parameters - "
               ++ "argument after ** must be a mapping, not str")), start [])
  /\ execute (SearchUsersTool E_hello) (PDict [("name", PStr "Jane")]) (start [])
     = (Ok (PStr "Error while searching users: HTTP 404: User not found"),
        called (search_users [("name", PStr "Jane")]) (start [])).
Proof.
  split.
  - apply (proj1 (search_users_behaviour E_hello (PStr "Jane") (start []))).
    intros d. discriminate.
  - apply (proj2 (search_users_behaviour E_hello (PDict [("name", PStr "Jane")])
                    (start []))
             [("name", PStr "Jane")]).
    + reflexivity.
    + reflexivity.
Defined.

Lemma web_search_behaviour_witness :
  execute (WebSearchTool E_down "k" "https://dial") (PDict []) (start [])
  = (Ok (PStr "Error during web search: 'request'"), start [])
  /\ execute (WebSearchTool E_down "k" "https://dial")
       (PDict [("request", PStr "rocq")]) (start [])
     = (Ok (PStr "Error: 500 Internal Server Error"),
        posted (web_search_request E_down "k" "https://dial" (PStr "rocq")) (start []))
  /\ fst (execute (WebSearchTool E_empty "k" "https://dial")
            (PDict [("request", PInt 7)]) (start []))
     = Ok (PStr "No search results found")
  /\ fst (execute (WebSearchTool E_down "k" "https://dial")
            (PDict [("request", PStr "rocq")]) (posted (completion_request
               (app_client E_down "k") []) (start [])))
     = Ok (PStr "Error during web search: Connection refused").
Proof.
  split; [| split; [| split]].
  - apply (proj1 (web_search_behaviour E_down "k" "https://dial" [] (start []))).
    reflexivity.
  - destruct (proj2 (web_search_behaviour E_down "k" "https://dial"
                       [("request", PStr "rocq")] (start []))
                (PStr "rocq") eq_refl) as [Hst [_ [Hfail _]]].
    specialize (Hfail server_error eq_refl).
    assert (Hs : status_code server_error <> 200%Z) by differ.
    specialize (Hfail Hs).
    destruct (execute (WebSearchTool E_down "k" "https://dial")
                (PDict [("request", PStr "rocq")]) (start [])) as [o s].
    simpl in Hst, Hfail. rewrite Hst, Hfail. reflexivity.
  - destruct (proj2 (web_search_behaviour E_empty "k" "https://dial"
                       [("request", PInt 7)] (start []))
                (PInt 7) eq_refl) as [_ [_ [_ Hnone]]].
    apply (Hnone (mkResponse 200 "{}") []).
    + reflexivity.
    + reflexivity.
    + run.
    + left. reflexivity.
  - destruct (proj2 (web_search_behaviour E_down "k" "https://dial"
                       [("request", PStr "rocq")]
                       (posted (completion_request (app_client E_down "k") [])
                          (start [])))
                (PStr "rocq") eq_refl) as [_ [Hraise _]].
    apply (Hraise (mkExn ConnectionError "Connection refused")).
    reflexivity.
Defined.

(** Two tools under one name: a stand-in registered after the real
    get_user_by_id. *)
Definition stand_in : BaseTool :=
  mkTool "get_user_by_id" "stand-in" (PDict []) (fun _ => ret (PStr "stand-in")).

Lemma init_registers_tools_witness :
  exists self st',
    DialClient_init E_hello "https://dial" "gpt-4o" (Some "k")
      (Some [GetUserByIdTool E_hello; stand_in]) (start [])
    = (Ok self, st')
    /\ client_endpoint self = "https://dial/openai/deployments/gpt-4o/chat/completions"
    /\ List.length (tools self) = 2%nat
    /\ dict_get (tools_dict self) "get_user_by_id" = Some stand_in
    /\ dict_get (tools_dict self) "add_user" = None
    /\ messages st' = [] /\ posts st' = [].
Proof.
  assert (Hkey : "k" <> "") by discriminate.
  destruct (proj2 (init_registers_tools E_hello "https://dial" "gpt-4o" "k"
                     [GetUserByIdTool E_hello; stand_in] (start [])) Hkey)
    as [self [st' [Hinit [Hurl [_ [Htools [Hlook [Hm [Hp _]]]]]]]]].
  exists self, st'. split; [exact Hinit |]. split; [exact Hurl |].
  split; [rewrite Htools; reflexivity |].
  split; [rewrite Hlook; reflexivity |].
  split; [rewrite Hlook; reflexivity |].
  split; [exact Hm | exact Hp].
Defined.

Lemma nameless_request_answered_witness :
  exists line,
    process_tool_call E_hello (app_client E_hello "k") (PDict [("id", PStr "9")])
      (start [])
    = (Ok (mkMessage TOOL (PStr "Unknown function: None") (PStr "9") PNone PNone),
       printed [line] (start [])).
Proof.
  apply (nameless_request_answered E_hello (app_client E_hello "k")
           [("id", PStr "9")] (start [])).
  left. reflexivity.
Defined.

Lemma unhashable_name_raises_witness :
  process_tool_call E_hello (app_client E_hello "k")
    (PDict [("id", PStr "9");
            ("function", PDict [("name", PList []);
                                ("arguments", PStr "[1, 2]")])]) (start [])
  = (Raise (mkExn TypeError "unhashable type: 'list'"), start [])
  /\ process_tool_call E_hello (app_client E_hello "k")
       (PDict [("id", PStr "9");
               ("function", PDict [("name", PList []);
                                   ("arguments", PStr "{bad")])]) (start [])
     = (Raise Json.decode_error, start []).
Proof.
  split.
  - apply (proj1 (unhashable_name_raises E_hello (app_client E_hello "k")
                    [("id", PStr "9");
                     ("function", PDict [("name", PList []);
                                         ("arguments", PStr "[1, 2]")])]
                    [("name", PList []); ("arguments", PStr "[1, 2]")]
                    (PList []) (start []) eq_refl eq_refl eq_refl)
             (PList [PInt 1; PInt 2])).
    run.
  - apply (proj2 (unhashable_name_raises E_hello (app_client E_hello "k")
                    [("id", PStr "9");
                     ("function", PDict [("name", PList []);
                                         ("arguments", PStr "{bad")])]
                    [("name", PList []); ("arguments", PStr "{bad")]
                    (PList []) (start []) eq_refl eq_refl eq_refl)
             Json.decode_error).
    run.
Defined.

Lemma batch_stops_at_malformed_request_witness :
  service_log
    (snd (_process_tool_calls E_broken (app_client E_broken "k")
            (PList [parsed get_user_42; parsed broken_call; parsed get_user_42])
            (start [])))
  = [get_user 42].
Proof.
  destruct (batch_stops_at_malformed_request E_broken (app_client E_broken "k")
              [parsed get_user_42] (parsed broken_call) [parsed get_user_42]
              Json.decode_error (start []) broken_call_malformed) as [Hst _].
  change ([parsed get_user_42] ++ parsed broken_call :: [parsed get_user_42])%list
    with [parsed get_user_42; parsed broken_call; parsed get_user_42] in Hst.
  rewrite Hst. run.
Defined.

(** An answer that announces tool calls and lists none. *)
Definition announces_only : response :=
  mkResponse 200
    ("{" ++ q "choices" ++ ": [{" ++ q "finish_reason" ++ ": " ++ q "tool_calls"
     ++ ", " ++ q "message" ++ ": {" ++ q "content" ++ ": " ++ q "" ++ "}}]}").

Definition E_announces : env := scripted [announces_only].

Lemma missing_tool_calls_raise_witness :
  exists st',
    get_completion E_announces 1 (app_client E_announces "k") false asked_42
    = (Raise (mkExn TypeError "'NoneType' object is not iterable"), st')
    /\ messages st'
       = (messages asked_42
          ++ [assistant_message (choice_message (first_choice announces_only))])%list
    /\ posts st'
       = (posts asked_42
          ++ [completion_request (app_client E_announces "k") (messages asked_42)])%list
    /\ service_log st' = service_log asked_42.
Proof.
  apply (missing_tool_calls_raise E_announces (app_client E_announces "k") 0 false
           asked_42 announces_only (first_choice announces_only)
           (choice_message (first_choice announces_only))).
  - intros H. discriminate H.
  - reflexivity.
  - show_decoded announces_only.
  - run.
  - run.
  - run.
Defined.

Definition E_unreachable : env := scripted [].
Definition E_html : env := scripted [mkResponse 200 "<html>Bad gateway</html>"].
Definition E_array : env := scripted [mkResponse 200 "[1, 2]"].

Lemma unusable_answers_raise_witness :
  (exists st',
     get_completion E_unreachable 1 (app_client E_unreachable "k") false asked_42
     = (Raise (mkExn ConnectionError "Connection refused"), st')
     /\ messages st' = messages asked_42)
  /\ (exists st',
        get_completion E_html 1 (app_client E_html "k") false asked_42
        = (Raise Json.decode_error, st')
        /\ messages st' = messages asked_42)
  /\ (exists st',
        get_completion E_array 1 (app_client E_array "k") false asked_42
        = (Raise (mkExn AttributeError "'list' object has no attribute 'get'"), st')
        /\ messages st' = messages asked_42).
Proof.
  assert (Hq : forall E, quiet E false asked_42) by (intros E H; discriminate H).
  split; [| split].
  - destruct (proj1 (unusable_answers_raise E_unreachable
                       (app_client E_unreachable "k") 0 false asked_42
                       (Hq E_unreachable))
                (mkExn ConnectionError "Connection refused") eq_refl)
      as [st' [Hrun [Hm _]]].
    exists st'. split; assumption.
  - destruct (proj1 (proj2 (unusable_answers_raise E_html (app_client E_html "k")
                              0 false asked_42 (Hq E_html)))
                (mkResponse 200 "<html>Bad gateway</html>") Json.decode_error)
      as [st' [Hrun [_ Hm]]].
    + reflexivity.
    + reflexivity.
    + run.
    + exists st'. split; assumption.
  - apply (proj2 (proj2 (unusable_answers_raise E_array (app_client E_array "k")
                           0 false asked_42 (Hq E_array)))
             (mkResponse 200 "[1, 2]") (PList [PInt 1; PInt 2])).
    + reflexivity.
    + reflexivity.
    + run.
    + intros d. discriminate.
Defined.

(** An endpoint that asks for user 42 whatever it is sent. *)
Definition E_insists : env :=
  mkEnv (fun _ _ => Ok (asks_for_tools get_user_42))
        (user_service E_hello)
        (float_bool E_hello) (float_int E_hello) (float_str E_hello)
        (UserCreate_optional_errors E_hello) (UserUpdate_errors E_hello)
        (UserCreate_model_json_schema E_hello) (UserUpdate_model_json_schema E_hello)
        (SYSTEM_PROMPT E_hello).

Lemma tool_rounds_end_at_recursion_limit_witness :
  exists st',
    get_completion E_insists 4 (app_client E_insists "k") false asked_42
    = (Raise (mkExn RecursionError "maximum recursion depth exceeded"), st')
    /\ List.length (messages st') = 9%nat.
Proof.
  apply (tool_rounds_end_at_recursion_limit E_insists (app_client E_insists "k")
           (asks_for_tools get_user_42)
           (first_choice (asks_for_tools get_user_42)) m_42 (requested m_42)).
  - apply app_client_registry_ok.
  - intros earlier msgs. reflexivity.
  - show_decoded (asks_for_tools get_user_42).
  - run.
  - run.
  - run.
  - run.
Defined.

Definition system_message (E : env) : Message :=
  mkMessage SYSTEM (PStr (SYSTEM_PROMPT E)) PNone PNone PNone.

Lemma session_keeps_history_witness :
  exists added,
    messages (snd (loop E_late_failure 3 (app_client E_late_failure "k")
                     [Line "who is 42"; Line "again"; Line "exit"]
                     (start [system_message E_late_failure])))
    = ([system_message E_late_failure] ++ added)%list.
Proof.
  apply (session_keeps_history E_late_failure 3 (app_client E_late_failure "k")).
  apply app_client_registry_ok.
Defined.

Lemma system_prompt_stays_first_witness :
  exists rest,
    messages (snd (main E_tools 3 (Some "k") [Line "who is 42"; Line "exit"]
                     (start [])))
    = system_message E_tools :: rest.
Proof.
  apply (system_prompt_stays_first E_tools 3 "k"
           [Line "who is 42"; Line "exit"] (start [])).
  - discriminate.
  - reflexivity.
Defined.

Lemma failed_turn_keeps_user_message_witness :
  exists st',
    turn E_down 1 (app_client E_down "k") (Line " who is 42 ")
      (start [system_message E_down])
    = (Ok Continue, st')
    /\ messages st' = [system_message E_down; user_says "who is 42"]
    /\ posts st'
       = [completion_request (app_client E_down "k")
            [system_message E_down; user_says "who is 42"]]
    /\ stdout st'
       = [nl ++ "🤔 Thinking...";
          nl ++ "❌ Error: API request failed with status 500: Internal Server Error";
          "Please try again." ++ nl]
    /\ service_log st' = [].
Proof.
  apply (failed_turn_keeps_user_message E_down 0 (app_client E_down "k")
           " who is 42 " (start [system_message E_down]) server_error).
  - run.
  - differ.
  - reflexivity.
  - differ.
Defined.

Lemma turn_sends_history_with_user_line_witness :
  exists later,
    posts (snd (turn E_tools 3 (app_client E_tools "k") (Line " who is 42 ")
                  (start [system_message E_tools])))
    = completion_request (app_client E_tools "k")
        [system_message E_tools; user_says "who is 42"] :: later.
Proof.
  apply (turn_sends_history_with_user_line E_tools 2 (app_client E_tools "k")
           " who is 42 " (start [system_message E_tools])).
  - apply app_client_registry_ok.
  - run.
  - differ.
Defined.

Lemma exit_before_any_request_witness :
  exists st',
    program E_tools 3 (Some "k") [Line " Quit "; Line "who is 42"] (start [])
    = (Exit 0, st')
    /\ posts st' = []
    /\ service_log st' = []
    /\ messages st' = [system_message E_tools].
Proof.
  apply (exit_before_any_request E_tools 3 "k" " Quit " [Line "who is 42"] (start [])).
  - discriminate.
  - run.
Defined.

End MoreScenarios.
